(** * yuehua_ziniao_webdriver: transport client, store manager, browser session

    A shallow embedding of
      - [http_client.py]  (HttpClient.send_request),
      - [store.py]        (StoreManager),
      - [browser.py]      (BrowserSession),
      - [client.py]       (ZiniaoClient: update_core, stop, the guarded
                           operations),
      - [config.py]       (ZiniaoConfig.validate, get_user_info),
      - [utils.py]        (fuzzy_match, exact_match),
    and the properties of the specification that concern them.

    Conventions.
      - Python code with effects is a computation in the monad [M]: a function
        from a [World] to a result (a value or a raised exception) and the
        next world.  The world is the history of what the program did to its
        surroundings (requests posted, uuids drawn, time slept, log records,
        DrissionPage calls) plus the one piece of mutable state shared across
        calls, the store-list cache of the StoreManager.
      - What the surroundings answer is an [Env]: the outcome of the k-th
        POST, the k-th uuid, the outcome of the k-th DrissionPage call, the
        order in which the thread pool completes its tasks.  Every theorem is
        stated for an arbitrary [Env].
      - Responses and store descriptors follow the TypedDicts of [types.py]
        (every key optional); request bodies and keyword options are
        dictionaries ([gmap string pyval]).  What [json.loads] returns is
        null, an object, or another JSON value, of which the code uses
        the truth value only.
      - Durations are finite and in milliseconds ([2.0] seconds is
        [2000]).
      - A log record keeps the text of the source's f-string as its template
        and the interpolated values as its arguments.
      - Text is a [string] of bytes (UTF-8); equality and [pattern in text]
        on the bytes are equality and containment of the text.  The
        methods of [str] that depend on the Unicode tables, [str.lower],
        [str.isdigit] and [len], are primitives given by the [Env]; of
        [str.lower] the one law used is that only the empty text is
        lowered to the empty text.  The samples run with the ASCII
        versions.
      - Where two classes of the source have an attribute of the same name,
        the second one gets a prefix here ([hc_port] for [HttpClient.port],
        [resp_browserOauth] for the response key [browserOauth]). *)

From Stdlib Require Import ZArith Lia Bool String Ascii.
From Stdlib Require Import DecimalString.
From stdpp Require Import base gmap strings list fin_maps.

Local Open Scope string_scope.
Local Open Scope list_scope.
Local Open Scope Z_scope.

(** ** Python values and strings *)

Module Py.

(** Values that appear in request bodies and keyword options. *)
Inductive pyval :=
| PInt (z : Z)
| PStr (s : string)
| PBool (b : bool).

Definition pydict := gmap string pyval.

(** [d.get(k, default)] *)
Definition get (d : pydict) (k : string) (default : pyval) : pyval :=
  match d !! k with
  | Some v => v
  | None => default
  end.

(** [d.update(other)]: the keys of [other] win. *)
Definition update (d other : pydict) : pydict := other ∪ d.

(** [str(v)] *)
Definition str (v : pyval) : string :=
  match v with
  | PInt z => NilZero.string_of_int (Z.to_int z)
  | PStr s => s
  | PBool true => "True"
  | PBool false => "False"
  end.

(** [range(n)] as the list of its values. *)
Definition range (n : Z) : list Z := Z.of_nat <$> seq 0 (Z.to_nat n).

(** Truth value of an [Optional[str]]: [None] and [""] are false. *)
Definition truthy (o : option string) : bool :=
  match o with
  | Some s => negb (String.eqb s "")
  | None => false
  end.

(** [a or b] on two [Optional[str]]. *)
Definition or_else (a b : option string) : option string :=
  if truthy a then a else b.

(** [pattern in text] *)
Fixpoint contains (pattern text : string) : bool :=
  String.prefix pattern text
  || match text with
     | EmptyString => false
     | String _ text' => contains pattern text'
     end.

End Py.

Import Py.

(** ** types.py *)

(** [Store] (a TypedDict with [total=False]: every key may be missing). *)
Record Store := mkStore {
  browserOauth : option string;
  browserName : option string;
  browserId : option string;
  browserType : option string;
  createTime : option string;
  updateTime : option string;
}.

(** The response dictionary: the union of [HttpResponse],
    [BrowserListResult] and [BrowserStartResult].  A field is [None] when
    the key is missing.  [message] is declared [Optional[str]] and is read
    with [.get("message", default)], which tells a missing key ([None])
    from a JSON null ([Some None]); the other keys are read with a plain
    [.get(key)], for which a null and a missing key are the same, or are
    declared without [Optional]. *)
Record HttpResponse := mkResponse {
  statusCode : option Z;
  message : option (option string);
  browserList : option (list Store);
  debuggingPort : option Z;
  resp_browserOauth : option string;
  ipDetectionPage : option string;
  launcherPage : option string;
}.

(** What [json.loads] gives for a body that is not the JSON null: an
    object, read as the response dictionary, or some other JSON value (a
    list, a number, a string, a boolean), of which the code uses nothing
    but the truth value. *)
Inductive JsonValue :=
| JObject (r : HttpResponse)
| JOther (truth : bool).

(** ** exceptions.py, and the foreign exceptions the code handles *)

Inductive Exn :=
(* requests, json, builtins, DrissionPage *)
| RequestsTimeout
| RequestsConnectionError
| RequestException
| JSONDecodeError
| ValueError
| AttributeError
| IndexError (index : Z)
| DriverError (code : nat)
(* exceptions.py *)
| ZiniaoError (msg : ZiniaoMessage)
| AuthenticationError (details : option JsonValue)
| CommunicationError (msg : CommunicationMessage)
| ZiniaoTimeoutError (retries : Z) (cause : Exn)
| StoreNotFoundError (store_identifier : string) (search_type : string)
| MultipleStoresFoundError (store_name : string) (count : nat)
                           (store_names : list string)
| StoreOperationError (operation : string) (store_id : string)
                      (status_code : option Z) (message : option string)
| CoreUpdateError (max_wait_time : Z)
| UnsupportedVersionError (feature : string) (required_version : string)
| ClientNotStartedError
with ZiniaoMessage :=
| SessionClosed            (* "浏览器会话已关闭" *)
| BrowserNotInitialised    (* "浏览器对象未初始化" *)
| ConnectBrowserFailed (cause : Exn)   (* "连接到浏览器失败：{e}" *)
| LauncherUrlEmpty                    (* "启动页面 URL 为空" *)
| OpenLauncherFailed (cause : Exn)    (* "打开启动页面失败：{e}" *)
with CommunicationMessage :=
| CannotConnect (retries : Z) (port : Z) (cause : Exn)
                                      (* "无法连接到紫鸟客户端（已重试 N 次）…" *)
| JsonParseFailed (cause : Exn)       (* "响应 JSON 解析失败：{e}" *)
| CommunicationFailed (retries : Z) (cause : Exn)
                                      (* "通信失败（已重试 N 次）：{e}" *)
| RequestFailed (cause : Exn).        (* "请求失败：{last_exception}" *)

(** The [except] clauses of [send_request] dispatch on the class. *)
Inductive ExnClass := IsTimeout | IsConnectionError | IsJSONDecodeError | IsException.

Definition classify (e : Exn) : ExnClass :=
  match e with
  | RequestsTimeout => IsTimeout
  | RequestsConnectionError => IsConnectionError
  | JSONDecodeError => IsJSONDecodeError
  | _ => IsException
  end.

(** ** The world *)

Inductive Level := DEBUG | INFO | WARNING | ERROR.

Inductive LogArg :=
| LStr (s : string)
| LOpt (o : option string)
| LInt (z : Z)
| LOptInt (o : option Z)
| LExn (e : Exn)
| LResp (r : option JsonValue).

Record LogRecord := mkLog {
  levelname : Level;
  template : string;
  args : list LogArg;
}.

(** Calls into DrissionPage. *)
Definition Tab := nat.

Inductive DriverCall :=
| CallChromium (port : option Z)
| CallLatestTab (port : option Z)
| CallTabs (port : option Z)
| CallTabGet (tab : Tab) (url : string)
| CallTabEle (tab : Tab) (timeout : Z).

Record World := mkWorld {
  w_posts : list pydict;              (* bodies posted so far, latest first *)
  w_uuids : nat;                      (* uuid4() calls so far *)
  w_clock : Z;                        (* time.time(), milliseconds *)
  w_log : list LogRecord;             (* latest first *)
  w_driver : list DriverCall;         (* latest first *)
  w_cache : option (list Store);      (* StoreManager._store_list_cache *)
}.

(** What one POST followed by [json.loads(response.text)] gives. *)
Inductive Outcome :=
| NetTimeout                 (* requests.Timeout *)
| NetConnectionError         (* requests.ConnectionError *)
| NetError                   (* another exception of requests *)
| NetBadJson                 (* json.JSONDecodeError *)
| NetJson (result : option JsonValue).      (* [None] is the JSON null *)

(** What the program does not decide: the answers of the surroundings,
    and the library functions whose result depends on tables that are not
    reproduced here ([json.dumps], and the methods of [str] that follow the
    Unicode character database).  Of [str.lower] one law is recorded: it
    maps the empty text, and no other, to the empty text. *)
Record Env := mkEnv {
  net : nat -> Outcome;                 (* outcome of the k-th POST *)
  latency : nat -> N;                   (* how long the k-th POST takes *)
  uuid4 : nat -> string;                (* the k-th uuid *)
  json_dumps : pyval -> string;         (* json.dumps on an option value *)
  chromium : nat -> option Exn;         (* Chromium(port): None = connected *)
  latest_tab : nat -> Exn + Tab;        (* browser.latest_tab *)
  tabs : nat -> Exn + list Tab;         (* browser.tabs *)
  tab_get : nat -> option Exn;          (* tab.get(url) *)
  tab_ele : nat -> Exn + bool;          (* tab.ele(...): found or not *)
  completion_order : list string -> list string;  (* as_completed *)
  str_lower : string -> string;         (* str.lower *)
  str_isdigit : string -> bool;         (* str.isdigit *)
  str_len : string -> nat;              (* len of a str, in characters *)
  str_lower_empty : forall s, str_lower s = "" <-> s = "";
}.

(** ** The monad of effects *)

Inductive Res (A : Type) :=
| Ok (a : A)
| Raise (e : Exn).
Arguments Ok {A} a.
Arguments Raise {A} e.

Definition M (A : Type) : Type := World -> Res A * World.

Definition ret {A} (a : A) : M A := fun w => (Ok a, w).

Definition raise {A} (e : Exn) : M A := fun w => (Raise e, w).

Definition bind {A B} (c : M A) (k : A -> M B) : M B :=
  fun w =>
    match c w with
    | (Ok a, w') => k a w'
    | (Raise e, w') => (Raise e, w')
    end.

(** [try: c  except Exception as e: handler(e)] *)
Definition try_except {A} (c : M A) (handler : Exn -> M A) : M A :=
  fun w =>
    match c w with
    | (Ok a, w') => (Ok a, w')
    | (Raise e, w') => handler e w'
    end.

Declare Scope py_scope.
Delimit Scope py_scope with py.
Notation "x <- c ;; k" := (bind c (fun x => k))
  (at level 100, c at next level, right associativity) : py_scope.
Notation "c ;; k" := (bind c (fun _ => k))
  (at level 100, right associativity) : py_scope.
Local Open Scope py_scope.

(** [logger.<level>(...)] *)
Definition log (lvl : Level) (template : string) (args : list LogArg) : M unit :=
  fun w =>
    (Ok tt,
     mkWorld (w_posts w) (w_uuids w) (w_clock w)
             (mkLog lvl template args :: w_log w) (w_driver w) (w_cache w)).

(** [time.sleep(d)] for a finite delay of [d] milliseconds: a negative [d]
    raises ValueError.  (A Python float can also be NaN, infinite or
    beyond the range of [time.sleep], which then raises ValueError or
    OverflowError; the properties that list what [send_request] raises
    leave room for that, see [sleep_raises].) *)
Definition sleep (d : Z) : M unit :=
  fun w =>
    if d <? 0 then (Raise ValueError, w)
    else (Ok tt,
          mkWorld (w_posts w) (w_uuids w) (w_clock w + d)
                  (w_log w) (w_driver w) (w_cache w)).

(** [time.time()] *)
Definition time_time : M Z := fun w => (Ok (w_clock w), w).

Definition get_cache : M (option (list Store)) := fun w => (Ok (w_cache w), w).

Definition set_cache (c : option (list Store)) : M unit :=
  fun w =>
    (Ok tt,
     mkWorld (w_posts w) (w_uuids w) (w_clock w) (w_log w) (w_driver w) c).

(** How one pass through the body of the [for] loop ends. *)
Inductive Flow (A : Type) :=
| Continue (last_exception : option Exn)
| Return (a : A).
Arguments Continue {A} last_exception.
Arguments Return {A} a.

Section WithEnv.

Variable env : Env.

(** ** utils.py *)

(** [fuzzy_match(text, pattern, case_sensitive=False)] *)
Definition fuzzy_match_cs (text pattern : string) (case_sensitive : bool) : bool :=
  let text := if negb case_sensitive then str_lower env text else text in
  let pattern := if negb case_sensitive then str_lower env pattern else pattern in
  contains pattern text.

Definition fuzzy_match (text pattern : string) : bool :=
  fuzzy_match_cs text pattern false.

(** [exact_match(text, pattern, case_sensitive=False)] *)
Definition exact_match_cs (text pattern : string) (case_sensitive : bool) : bool :=
  let text := if negb case_sensitive then str_lower env text else text in
  let pattern := if negb case_sensitive then str_lower env pattern else pattern in
  String.eqb text pattern.

Definition exact_match (text pattern : string) : bool :=
  exact_match_cs text pattern false.

(** [str(uuid.uuid4())] *)
Definition uuid : M string :=
  fun w =>
    (Ok (uuid4 env (w_uuids w)),
     mkWorld (w_posts w) (S (w_uuids w)) (w_clock w)
             (w_log w) (w_driver w) (w_cache w)).

(** [requests.post(url, data=json.dumps(data).encode('utf-8'), timeout=...)]
    followed by [json.loads(response.text)], which gives the JSON null
    ([None]), an object or another JSON value. *)
Definition post_json (data : pydict) : M (option JsonValue) :=
  fun w =>
    let k := length (w_posts w) in
    let w' := mkWorld (data :: w_posts w) (w_uuids w)
                      (w_clock w + Z.of_N (latency env k))
                      (w_log w) (w_driver w) (w_cache w) in
    match net env k with
    | NetTimeout => (Raise RequestsTimeout, w')
    | NetConnectionError => (Raise RequestsConnectionError, w')
    | NetError => (Raise RequestException, w')
    | NetBadJson => (Raise JSONDecodeError, w')
    | NetJson result => (Ok result, w')
    end.

(** One DrissionPage call: recorded, answered by the environment. *)
Definition driver {A} (call : DriverCall) (answer : nat -> Exn + A) : M A :=
  fun w =>
    let k := length (w_driver w) in
    let w' := mkWorld (w_posts w) (w_uuids w) (w_clock w)
                      (w_log w) (call :: w_driver w) (w_cache w) in
    match answer k with
    | inl e => (Raise e, w')
    | inr a => (Ok a, w')
    end.

Definition unit_answer (f : nat -> option Exn) (k : nat) : Exn + unit :=
  match f k with
  | Some e => inl e
  | None => inr tt
  end.

(** [result.get(...)] in the callers of [send_request]: the value must be
    a dictionary, any other value has no attribute [get]. *)
Definition as_dict (result : JsonValue) : M HttpResponse :=
  match result with
  | JObject r => ret r
  | JOther _ => raise AttributeError
  end.

(** ** http_client.py *)

Record HttpClient := mkHttpClient {
  hc_port : Z;        (* self.port *)
  timeout : Z;
  max_retries : Z;
  retry_delay : Z;
}.

(** The body of [for attempt in range(self.max_retries + 1)]. *)
Definition send_request_attempt (self : HttpClient) (data : pydict)
    (retry_on_none : bool) (action : pyval) (last_exception : option Exn)
    (attempt : Z) : M (Flow (option JsonValue)) :=
  try_except
    (result <- post_json data ;;
     if (match result with None => true | Some _ => false end)
        && retry_on_none && (attempt <? max_retries self)
     then
       log WARNING "请求返回 None，{self.retry_delay} 秒后重试 (尝试 {attempt + 1}/{self.max_retries})"
           [LInt (retry_delay self); LInt (attempt + 1); LInt (max_retries self)] ;;
       sleep (retry_delay self) ;;
       ret (Continue last_exception)
     else
       (* [result.get("statusCode") if result else None]: a value that is
          false (null, the empty object, an empty list, zero, ...) is not
          asked; one that is true and no dictionary has no [get] *)
       status_code <- match result with
                      | Some (JObject r) => ret (statusCode r)
                      | Some (JOther true) => raise AttributeError
                      | Some (JOther false) | None => ret None
                      end ;;
       if bool_decide (status_code = Some (-10003))
       then
         log ERROR "认证失败：{json.dumps(result, ensure_ascii=False)}" [LResp result] ;;
         raise (AuthenticationError result)
       else
         log DEBUG "请求成功：action={action}, statusCode={status_code}"
             [LStr (str action); LOptInt status_code] ;;
         ret (Return result))
    (fun e =>
       match classify e with
       | IsTimeout =>
           log WARNING "请求超时：action={action}, attempt={attempt + 1}/{self.max_retries + 1}"
               [LStr (str action); LInt (attempt + 1); LInt (max_retries self + 1)] ;;
           if attempt <? max_retries self
           then
             log INFO "等待 {self.retry_delay} 秒后重试..." [LInt (retry_delay self)] ;;
             sleep (retry_delay self) ;;
             ret (Continue (Some e))
           else
             log ERROR "请求超时（已重试 {self.max_retries} 次）：{e}"
                 [LInt (max_retries self); LExn e] ;;
             raise (ZiniaoTimeoutError (max_retries self) e)
       | IsConnectionError =>
           log WARNING "连接失败：action={action}, attempt={attempt + 1}/{self.max_retries + 1}, error={e}"
               [LStr (str action); LInt (attempt + 1);
                LInt (max_retries self + 1); LExn e] ;;
           if attempt <? max_retries self
           then
             log INFO "等待 {self.retry_delay} 秒后重试..." [LInt (retry_delay self)] ;;
             sleep (retry_delay self) ;;
             ret (Continue (Some e))
           else
             log ERROR "无法连接到紫鸟客户端（已重试 {self.max_retries} 次），请确认客户端已启动且端口 {self.port} 可访问"
                 [LInt (max_retries self); LInt (hc_port self)] ;;
             raise (CommunicationError
                      (CannotConnect (max_retries self) (hc_port self) e))
       | IsJSONDecodeError =>
           log ERROR "响应 JSON 解析失败：{e}" [LExn e] ;;
           raise (CommunicationError (JsonParseFailed e))
       | IsException =>
           log ERROR "未知错误：action={action}, error={e}"
               [LStr (str action); LExn e] ;;
           if attempt <? max_retries self
           then
             log INFO "等待 {self.retry_delay} 秒后重试..." [LInt (retry_delay self)] ;;
             sleep (retry_delay self) ;;
             ret (Continue (Some e))
           else
             log ERROR "通信失败（已重试 {self.max_retries} 次）：{e}"
                 [LInt (max_retries self); LExn e] ;;
             raise (CommunicationError
                      (CommunicationFailed (max_retries self) e))
       end).

(** The [for] loop, and what follows it. *)
Fixpoint send_request_loop (self : HttpClient) (data : pydict)
    (retry_on_none : bool) (action : pyval) (last_exception : option Exn)
    (attempts : list Z) : M (option JsonValue) :=
  match attempts with
  | [] =>
      match last_exception with
      | Some e => raise (CommunicationError (RequestFailed e))
      | None => ret None
      end
  | attempt :: rest =>
      flow <- send_request_attempt self data retry_on_none action
                                   last_exception attempt ;;
      match flow with
      | Continue last_exception' =>
          send_request_loop self data retry_on_none action last_exception' rest
      | Return result => ret result
      end
  end.

(** [HttpClient.send_request(data, retry_on_none=False)] *)
Definition send_request (self : HttpClient) (data : pydict)
    (retry_on_none : bool) : M (option JsonValue) :=
  let action := get data "action" (PStr "unknown") in
  let request_id := get data "requestId" (PStr "unknown") in
  log DEBUG "发送请求：action={action}, requestId={request_id}"
      [LStr (str action); LStr (str request_id)] ;;
  send_request_loop self data retry_on_none action None
                    (range (max_retries self + 1)).

(** ** browser.py *)

(** The DrissionPage object: known by the port it is attached to. *)
Record Chromium := mkChromium {
  address : option Z;
}.

Record BrowserSession := mkSession {
  port : option Z;
  store_id : string;
  store_name : string;
  ip_check_url : option string;
  launcher_page : option string;
  close_callback : option (string -> M unit);
  _browser : option Chromium;
  _closed : bool;
}.

(** [BrowserSession.__init__] *)
Definition BrowserSession_init (port : option Z) (store_id store_name : string)
    (ip_check_url launcher_page : option string)
    (close_callback : option (string -> M unit)) : M BrowserSession :=
  log DEBUG "初始化浏览器会话：store={store_name}, port={port}, store_id={store_id}"
      [LStr store_name; LOptInt port; LStr store_id] ;;
  try_except
    (driver (CallChromium port) (unit_answer (chromium env)) ;;
     log INFO "成功连接到浏览器：{store_name}" [LStr store_name] ;;
     ret (mkSession port store_id store_name ip_check_url launcher_page
                    close_callback (Some (mkChromium port)) false))
    (fun e =>
       log ERROR "连接到浏览器失败：{e}" [LExn e] ;;
       raise (ZiniaoError (ConnectBrowserFailed e))).

(** The [browser] property. *)
Definition browser (self : BrowserSession) : M Chromium :=
  if _closed self then raise (ZiniaoError SessionClosed)
  else
    match _browser self with
    | None => raise (ZiniaoError BrowserNotInitialised)
    | Some b => ret b
    end.

(** [get_tab(index=-1)] *)
Definition get_tab (self : BrowserSession) (index : Z) : M Tab :=
  if index =? -1
  then
    b <- browser self ;;
    driver (CallLatestTab (address b)) (latest_tab env)
  else
    b <- browser self ;;
    tabs <- driver (CallTabs (address b)) (tabs env) ;;
    if (0 <=? index) && (index <? Z.of_nat (length tabs))
    then
      match tabs !! Z.to_nat index with
      | Some tab => ret tab
      | None => raise (IndexError index)
      end
    else raise (IndexError index).

(** [check_ip(ip_check_url=None, timeout=60)] *)
Definition check_ip (self : BrowserSession) (ip_check_url' : option string)
    (timeout : Z) : M bool :=
  let url := or_else ip_check_url' (ip_check_url self) in
  match (if truthy url then url else None) with
  | None =>
      log WARNING "IP 检测页面 URL 为空，跳过检测" [] ;;
      ret true
  | Some url =>
      try_except
        (log INFO "开始 IP 检测：{self.store_name}" [LStr (store_name self)] ;;
         tab <- get_tab self (-1) ;;
         driver (CallTabGet tab url) (unit_answer (tab_get env)) ;;
         success_button <- driver (CallTabEle tab timeout) (tab_ele env) ;;
         if (success_button : bool)
         then
           log INFO "IP 检测成功：{self.store_name}" [LStr (store_name self)] ;;
           ret true
         else
           log WARNING "IP 检测超时：{self.store_name}" [LStr (store_name self)] ;;
           ret false)
        (fun e =>
           log ERROR "IP 检测异常：{self.store_name}, 错误：{e}"
               [LStr (store_name self); LExn e] ;;
           ret false)
  end.

(** [open_launcher_page(launcher_page=None, wait_time=6)] *)
Definition open_launcher_page (self : BrowserSession)
    (launcher_page' : option string) (wait_time : Z) : M unit :=
  let url := or_else launcher_page' (launcher_page self) in
  match (if truthy url then url else None) with
  | None => raise (ZiniaoError LauncherUrlEmpty)
  | Some url =>
      try_except
        (log INFO "打开启动页面：{self.store_name} -> {url}"
             [LStr (store_name self); LStr url] ;;
         tab <- get_tab self (-1) ;;
         driver (CallTabGet tab url) (unit_answer (tab_get env)) ;;
         sleep wait_time ;;
         log DEBUG "启动页面已打开：{self.store_name}" [LStr (store_name self)])
        (fun e =>
           log ERROR "打开启动页面失败：{e}" [LExn e] ;;
           raise (ZiniaoError (OpenLauncherFailed e)))
  end.

(** [navigate(url, wait_time=0)] *)
Definition navigate (self : BrowserSession) (url : string) (wait_time : Z)
    : M unit :=
  log DEBUG "导航到：{url}" [LStr url] ;;
  tab <- get_tab self (-1) ;;
  driver (CallTabGet tab url) (unit_answer (tab_get env)) ;;
  if wait_time >? 0 then sleep wait_time else ret tt.

(** [close()].  The object is mutated in place: the session after the call
    is the value returned. *)
Definition close (self : BrowserSession) : M BrowserSession :=
  if _closed self
  then
    log DEBUG "浏览器会话已关闭：{self.store_name}" [LStr (store_name self)] ;;
    ret self
  else
    log INFO "关闭浏览器会话：{self.store_name}" [LStr (store_name self)] ;;
    match close_callback self with
    | Some callback =>
        try_except
          (callback (store_id self) ;;
           log DEBUG "调用关闭回调成功：{self.store_name}" [LStr (store_name self)])
          (fun e =>
             log ERROR "调用关闭回调失败：{self.store_name}, 错误：{e}"
                 [LStr (store_name self); LExn e])
    | None => ret tt
    end ;;
    ret (mkSession (port self) (store_id self) (store_name self)
                   (ip_check_url self) (launcher_page self)
                   (close_callback self) None true).

(** [is_closed()] *)
Definition is_closed (self : BrowserSession) : bool := _closed self.

(** ** store.py *)

Record StoreManager := mkStoreManager {
  http_client : HttpClient;
  user_info : pydict;
}.

(** [get_store_list(use_cache=False)] *)
Definition get_store_list (self : StoreManager) (use_cache : bool)
    : M (list Store) :=
  cache <- get_cache ;;
  match (if use_cache then cache else None) with
  | Some store_list_cache =>
      log DEBUG "使用缓存的店铺列表" [] ;;
      ret store_list_cache
  | None =>
      request_id <- uuid ;;
      let data : pydict :=
        {[ "action" := PStr "getBrowserList";
           "requestId" := PStr request_id ]} in
      let data := update data (user_info self) in
      log INFO "获取店铺列表..." [] ;;
      result <- send_request (http_client self) data false ;;
      match result with
      | None =>
          raise (StoreOperationError "获取" "all" None
                                     (Some "HTTP 请求返回 None"))
      | Some result =>
          result <- as_dict result ;;
          let status_code := statusCode result in
          if bool_decide (status_code = Some 0)
          then
            let browser_list := default [] (browserList result) in
            log INFO "成功获取店铺列表，共 {len(browser_list)} 个店铺"
                [LInt (Z.of_nat (length browser_list))] ;;
            set_cache (Some browser_list) ;;
            ret browser_list
          else
            let error_msg := default (Some "未知错误") (message result) in
            log ERROR "获取店铺列表失败：statusCode={status_code}, message={error_msg}"
                [LOptInt status_code; LOpt error_msg] ;;
            raise (StoreOperationError "获取列表" "all" status_code error_msg)
      end
  end.

(** The body of [for store in store_list] in [find_stores_by_name]. *)
Definition find_stores_step (name : string) (exact_match_mode : bool)
    (matched_stores : list Store) (store : Store) : list Store :=
  let store_name := default "" (browserName store) in
  if exact_match_mode
  then
    if exact_match store_name name
    then matched_stores ++ [store]
    else matched_stores
  else
    if fuzzy_match store_name name
    then matched_stores ++ [store]
    else matched_stores.

(** [find_stores_by_name(name, exact_match_mode=False, use_cache=True)] *)
Definition find_stores_by_name (self : StoreManager) (name : string)
    (exact_match_mode use_cache : bool) : M (list Store) :=
  log DEBUG "搜索店铺：name='{name}', exact_match={exact_match_mode}"
      [LStr name; LStr (str (PBool exact_match_mode))] ;;
  store_list <- get_store_list self use_cache ;;
  let matched_stores :=
    fold_left (find_stores_step name exact_match_mode) store_list [] in
  log DEBUG "找到 {len(matched_stores)} 个匹配的店铺"
      [LInt (Z.of_nat (length matched_stores))] ;;
  ret matched_stores.

(** [close_store(store_id)] *)
Definition close_store (self : StoreManager) (store_id : string) : M unit :=
  request_id <- uuid ;;
  let data : pydict :=
    {[ "action" := PStr "stopBrowser";
       "requestId" := PStr request_id;
       "duplicate" := PInt 0;
       "browserOauth" := PStr store_id ]} in
  let data := update data (user_info self) in
  log INFO "关闭店铺：{store_id}" [LStr store_id] ;;
  result <- send_request (http_client self) data false ;;
  match result with
  | None =>
      raise (StoreOperationError "关闭" store_id None
                                 (Some "HTTP 请求返回 None"))
  | Some result =>
      result <- as_dict result ;;
      let status_code := statusCode result in
      if bool_decide (status_code = Some 0)
      then log INFO "店铺关闭成功：{store_id}" [LStr store_id]
      else
        let error_msg := default (Some "未知错误") (message result) in
        log ERROR "关闭店铺失败：{store_id}, statusCode={status_code}, message={error_msg}"
            [LStr store_id; LOptInt status_code; LOpt error_msg] ;;
        raise (StoreOperationError "关闭" store_id status_code error_msg)
  end.

(** [_get_store_name(store_oauth)] *)
Definition _get_store_name (self : StoreManager) (store_oauth : string)
    : M string :=
  cache <- get_cache ;;
  ret (match cache with
       | Some store_list_cache =>
           match
             List.find (fun store =>
                          bool_decide (browserOauth store = Some store_oauth))
                       store_list_cache
           with
           | Some store => default store_oauth (browserName store)
           | None => store_oauth
           end
       | None => store_oauth
       end).

(** The request body that [open_store] builds. *)
Definition open_store_data (self : StoreManager) (store_identifier : string)
    (options : pydict) (request_id : string) : pydict :=
  let data : pydict :=
    {[ "action" := PStr "startBrowser";
       "isWaitPluginUpdate" := get options "isWaitPluginUpdate" (PInt 0);
       "isHeadless" := get options "isHeadless" (PInt 0);
       "requestId" := PStr request_id;
       "isWebDriverReadOnlyMode" := get options "isWebDriverReadOnlyMode" (PInt 0);
       "cookieTypeLoad" := get options "cookieTypeLoad" (PInt 0);
       "cookieTypeSave" := get options "cookieTypeSave" (PInt 0);
       "runMode" := get options "runMode" (PStr "1");
       "isLoadUserPlugin" := get options "isLoadUserPlugin" (PBool false);
       "pluginIdType" := get options "pluginIdType" (PInt 1);
       "privacyMode" := get options "privacyMode" (PInt 0) ]} in
  let data := update data (user_info self) in
  let data :=
    if str_isdigit env store_identifier
    then <[ "browserId" := PStr store_identifier ]> data
    else <[ "browserOauth" := PStr store_identifier ]> data in
  let js_info := get options "jsInfo" (PStr "") in
  if (2 <? str_len env (str js_info))%nat
  then <[ "injectJsInfo" := PStr (json_dumps env js_info) ]> data
  else data.

(** [open_store(store_identifier, **options)] *)
Definition open_store (self : StoreManager) (store_identifier : string)
    (options : pydict) : M BrowserSession :=
  request_id <- uuid ;;
  let data := open_store_data self store_identifier options request_id in
  log INFO "打开店铺：{store_identifier}" [LStr store_identifier] ;;
  result <- send_request (http_client self) data false ;;
  match result with
  | None =>
      raise (StoreOperationError "打开" store_identifier None
                                 (Some "HTTP 请求返回 None"))
  | Some result =>
      result <- as_dict result ;;
      let status_code := statusCode result in
      if bool_decide (status_code = Some 0)
      then
        let debugging_port := debuggingPort result in
        let browser_oauth := default store_identifier (resp_browserOauth result) in
        let ip_check_url := ipDetectionPage result in
        let launcher_page := launcherPage result in
        store_name <- _get_store_name self browser_oauth ;;
        log INFO "店铺打开成功：{store_name} (OAuth: {browser_oauth}, Port: {debugging_port})"
            [LStr store_name; LStr browser_oauth; LOptInt debugging_port] ;;
        session <- BrowserSession_init debugging_port browser_oauth store_name
                     ip_check_url launcher_page
                     (Some (fun sid => close_store self sid)) ;;
        (if truthy ip_check_url
         then
           ip_ok <- check_ip session None 60000 ;;
           if negb ip_ok
           then log WARNING "IP 检测未通过，仍将打开启动页" []
           else ret tt
         else
           log WARNING "ipDetectionPage 为空，请升级紫鸟浏览器到最新版，跳过 IP 检测" []) ;;
        (if truthy launcher_page
         then open_launcher_page session None 6000
         else log WARNING "launcherPage 为空，无法打开店铺平台主页" []) ;;
        ret session
      else
        let error_msg := default (Some "未知错误") (message result) in
        log ERROR "打开店铺失败：{store_identifier}, statusCode={status_code}, message={error_msg}"
            [LStr store_identifier; LOptInt status_code; LOpt error_msg] ;;
        raise (StoreOperationError "打开" store_identifier status_code error_msg)
  end.

(** [open_store_by_name(store_name, exact_match_mode=False, **options)] *)
Definition open_store_by_name (self : StoreManager) (store_name : string)
    (exact_match_mode : bool) (options : pydict) : M BrowserSession :=
  log INFO "通过名称打开店铺：'{store_name}'" [LStr store_name] ;;
  matched_stores <- find_stores_by_name self store_name exact_match_mode true ;;
  if (length matched_stores =? 0)%nat
  then raise (StoreNotFoundError store_name "名称")
  else if (1 <? length matched_stores)%nat
  then
    let store_names :=
      (fun s => default "" (browserName s)) <$> matched_stores in
    raise (MultipleStoresFoundError store_name (length matched_stores)
                                    store_names)
  else
    match matched_stores with
    | [] => raise (IndexError 0)
    | store :: _ =>
        let store_oauth := browserOauth store in
        match (if truthy store_oauth then store_oauth else None) with
        | None =>
            raise (StoreOperationError "打开" store_name None
                                       (Some "店铺 OAuth 标识为空"))
        | Some store_oauth => open_store self store_oauth options
        end
    end.

(** The task submitted to the pool for one name. *)
Definition open_single_store (self : StoreManager) (exact_match_mode : bool)
    (options : pydict) (name : string) : M (string * option BrowserSession) :=
  try_except
    (session <- open_store_by_name self name exact_match_mode options ;;
     ret (name, Some session))
    (fun e =>
       log ERROR "打开店铺失败：{name}, 错误：{e}" [LStr name; LExn e] ;;
       ret (name, None)).

(** [for future in as_completed(futures)]: the tasks are taken in the order
    in which they complete; each runs to its end before the next is taken. *)
Fixpoint as_completed_loop (self : StoreManager) (exact_match_mode : bool)
    (options : pydict) (futures : list string)
    (sessions : gmap string BrowserSession)
    : M (gmap string BrowserSession) :=
  match futures with
  | [] => ret sessions
  | future :: rest =>
      result <- open_single_store self exact_match_mode options future ;;
      match result with
      | (name, Some session) =>
          log INFO "店铺打开成功：{name}" [LStr name] ;;
          as_completed_loop self exact_match_mode options rest
                            (<[ name := session ]> sessions)
      | (name, None) =>
          log WARNING "店铺打开失败：{name}" [LStr name] ;;
          as_completed_loop self exact_match_mode options rest sessions
      end
  end.

(** [open_stores_by_names(store_names, max_workers=3, exact_match_mode=False,
    **options)].  [ThreadPoolExecutor] refuses a worker count below one. *)
Definition open_stores_by_names (self : StoreManager) (store_names : list string)
    (max_workers : Z) (exact_match_mode : bool) (options : pydict)
    : M (gmap string BrowserSession) :=
  log INFO "并发打开 {len(store_names)} 个店铺，最大并发数：{max_workers}"
      [LInt (Z.of_nat (length store_names)); LInt max_workers] ;;
  if max_workers <=? 0 then raise ValueError
  else
    sessions <- as_completed_loop self exact_match_mode options
                  (completion_order env store_names) ∅ ;;
    log INFO "并发打开完成：成功 {len(sessions)}/{len(store_names)} 个店铺"
        [LInt (Z.of_nat (size sessions)); LInt (Z.of_nat (length store_names))] ;;
    ret sessions.

(** [clear_cache()] *)
Definition clear_cache (self : StoreManager) : M unit :=
  log DEBUG "清除店铺列表缓存" [] ;;
  set_cache None.

(** ** client.py *)

Record ZiniaoClient := mkClient {
  client_http_client : HttpClient;   (* self.http_client *)
  config_user_info : pydict;         (* self.config.get_user_info() *)
  _started : bool;
}.

(** The request body that [update_core] builds on each pass. *)
Definition update_core_data (self : ZiniaoClient) (request_id : string)
    : pydict :=
  let data : pydict :=
    {[ "action" := PStr "updateCore";
       "requestId" := PStr request_id ]} in
  update data (config_user_info self).

(** The [while True] loop of [update_core]; [None] when [fuel] passes
    through the loop were not enough to leave it. *)
Fixpoint update_core_loop (self : ZiniaoClient) (max_wait_time start_time : Z)
    (fuel : nat) : M (option unit) :=
  match fuel with
  | O => ret None
  | S fuel' =>
      now <- time_time ;;
      if now - start_time >? max_wait_time
      then raise (CoreUpdateError max_wait_time)
      else
        request_id <- uuid ;;
        let data := update_core_data self request_id in
        result <- send_request (client_http_client self) data true ;;
        match result with
        | None =>
            log INFO "等待客户端启动..." [] ;;
            sleep 2000 ;;
            update_core_loop self max_wait_time start_time fuel'
        | Some result =>
            result <- as_dict result ;;
            let status_code := statusCode result in
            if bool_decide (status_code = None)
               || bool_decide (status_code = Some (-10003))
            then raise (UnsupportedVersionError "updateCore" "5.285.7")
            else if bool_decide (status_code = Some 0)
            then
              log INFO "内核更新完成" [] ;;
              ret (Some tt)
            else
              log INFO "等待更新内核：{json.dumps(result, ensure_ascii=False)}"
                  [LResp (Some (JObject result))] ;;
              sleep 2000 ;;
              update_core_loop self max_wait_time start_time fuel'
        end
  end.

(** [update_core(max_wait_time=300)] *)
Definition update_core (self : ZiniaoClient) (max_wait_time : Z) (fuel : nat)
    : M (option unit) :=
  if negb (_started self) then raise ClientNotStartedError
  else
    log INFO "开始更新内核..." [] ;;
    start_time <- time_time ;;
    update_core_loop self max_wait_time start_time fuel.

End WithEnv.

(** ** client.py: the methods of [ZiniaoClient] *)

Section Client.

Variable env : Env.

(** [self.store_manager], built in [__init__] from the HTTP client and
    [self.config.get_user_info()]. *)
Definition store_manager (self : ZiniaoClient) : StoreManager :=
  mkStoreManager (client_http_client self) (config_user_info self).

(** [ZiniaoClient.get_store_list(use_cache=False)] *)
Definition client_get_store_list (self : ZiniaoClient) (use_cache : bool)
    : M (list Store) :=
  if negb (_started self) then raise ClientNotStartedError
  else get_store_list env (store_manager self) use_cache.

(** [ZiniaoClient.find_stores_by_name(name, exact_match=False)] *)
Definition client_find_stores_by_name (self : ZiniaoClient) (name : string)
    (exact_match : bool) : M (list Store) :=
  if negb (_started self) then raise ClientNotStartedError
  else find_stores_by_name env (store_manager self) name exact_match true.

(** [ZiniaoClient.open_store(store_id, **options)] *)
Definition client_open_store (self : ZiniaoClient) (store_id : string)
    (options : pydict) : M BrowserSession :=
  if negb (_started self) then raise ClientNotStartedError
  else open_store env (store_manager self) store_id options.

(** [ZiniaoClient.open_store_by_name(store_name, exact_match=False, **options)] *)
Definition client_open_store_by_name (self : ZiniaoClient)
    (store_name : string) (exact_match : bool) (options : pydict)
    : M BrowserSession :=
  if negb (_started self) then raise ClientNotStartedError
  else open_store_by_name env (store_manager self) store_name exact_match options.

(** [ZiniaoClient.open_stores_by_names(store_names, max_workers=3,
    exact_match=False, **options)] *)
Definition client_open_stores_by_names (self : ZiniaoClient)
    (store_names : list string) (max_workers : Z) (exact_match : bool)
    (options : pydict) : M (gmap string BrowserSession) :=
  if negb (_started self) then raise ClientNotStartedError
  else open_stores_by_names env (store_manager self) store_names max_workers
                            exact_match options.

(** [ZiniaoClient.close_store(store_id)] *)
Definition client_close_store (self : ZiniaoClient) (store_id : string)
    : M unit :=
  if negb (_started self) then raise ClientNotStartedError
  else close_store env (store_manager self) store_id.

(** [ZiniaoClient._send_exit()] *)
Definition _send_exit (self : ZiniaoClient) : M unit :=
  request_id <- uuid env ;;
  let data : pydict :=
    {[ "action" := PStr "exit";
       "requestId" := PStr request_id ]} in
  let data := update data (config_user_info self) in
  log DEBUG "发送退出命令..." [] ;;
  try_except
    (send_request env (client_http_client self) data false ;;
     ret tt)
    (fun e => log WARNING "发送退出命令失败：{e}" [LExn e]).

(** [ZiniaoClient.stop()].  [terminate] is
    [self.process_manager.terminate()], a call into the process supervisor.
    The client is mutated in place: the client after the call is the value
    returned. *)
Definition stop (terminate : M bool) (self : ZiniaoClient) : M ZiniaoClient :=
  if negb (_started self)
  then
    log WARNING "客户端未启动，无需关闭" [] ;;
    ret self
  else
    log INFO "=== 关闭紫鸟客户端 ===" [] ;;
    try_except
      (_send_exit self ;;
       sleep 2000 ;;
       terminate ;;
       ret tt)
      (fun e => log ERROR "关闭客户端时出错：{e}" [LExn e]) ;;
    (* finally *)
    log INFO "客户端已关闭" [] ;;
    ret (mkClient (client_http_client self) (config_user_info self) false).

(** [ZiniaoClient.is_started()] *)
Definition is_started (self : ZiniaoClient) : bool := _started self.

End Client.

(** ** config.py *)

Record ZiniaoConfig := mkConfig {
  client_path : string;
  socket_port : Z;
  company : string;
  username : string;
  password : string;
  version : string;
  request_timeout : Z;
  config_max_retries : Z;      (* max_retries *)
  config_retry_delay : Z;      (* retry_delay *)
}.

(** What [validate] raises, a ConfigurationError, by its message. *)
Inductive ConfigurationError :=
| ClientPathEmpty                      (* "client_path 不能为空" *)
| ClientPathMissing (path : string)    (* "客户端路径不存在：{self.client_path}" *)
| PortOutOfRange (port : Z)            (* "端口号必须在 1024-65535 之间，…" *)
| VersionUnknown (version : string)    (* "version 必须是 'v5' 或 'v6'，…" *)
| TimeoutNotPositive (timeout : Z)     (* "request_timeout 必须大于 0，…" *)
| RetriesNegative (retries : Z)        (* "max_retries 不能为负数，…" *)
| RetryDelayNegative (delay : Z).      (* "retry_delay 不能为负数，…" *)

(** [ZiniaoConfig.validate()]: [None] when nothing is raised.
    [path_exists] is [os.path.exists]. *)
Definition validate (path_exists : string -> bool) (self : ZiniaoConfig)
    : option ConfigurationError :=
  if String.eqb (client_path self) "" then Some ClientPathEmpty
  else if negb (path_exists (client_path self))
  then Some (ClientPathMissing (client_path self))
  else if negb ((1024 <=? socket_port self) && (socket_port self <=? 65535))
  then Some (PortOutOfRange (socket_port self))
  else if negb (String.eqb (version self) "v5" || String.eqb (version self) "v6")
  then Some (VersionUnknown (version self))
  else if request_timeout self <=? 0
  then Some (TimeoutNotPositive (request_timeout self))
  else if config_max_retries self <? 0
  then Some (RetriesNegative (config_max_retries self))
  else if config_retry_delay self <? 0
  then Some (RetryDelayNegative (config_retry_delay self))
  else None.

(** [ZiniaoConfig.get_user_info()] *)
Definition get_user_info (self : ZiniaoConfig) : pydict :=
  {[ "company" := PStr (company self);
     "username" := PStr (username self);
     "password" := PStr (password self) ]}.

(** [ZiniaoClient.__init__] on a configuration object: the HTTP client and
    the credentials come from the configuration, the client is not started. *)
Definition ZiniaoClient_init (config : ZiniaoConfig) : ZiniaoClient :=
  mkClient (mkHttpClient (socket_port config) (request_timeout config)
                         (config_max_retries config) (config_retry_delay config))
           (get_user_info config)
           false.

(** * Observations

    What the properties below say about a run: what was posted, which
    requestIds the bodies carry, what each task of a batch gave. *)

(** [posted data k w w']: from [w] to [w'] the body [data] was posted [k]
    times and nothing else; no uuid was drawn, DrissionPage was not called,
    the cache was not written, and the clock did not go back. *)
Record posted (data : pydict) (k : nat) (w w' : World) : Prop := mkPosted {
  posted_posts : w_posts w' = replicate k data ++ w_posts w;
  posted_uuids : w_uuids w' = w_uuids w;
  posted_driver : w_driver w' = w_driver w;
  posted_cache : w_cache w' = w_cache w;
  posted_clock : w_clock w <= w_clock w';
}.

(** [silent c]: running [c] posts nothing, draws no uuid and does not write
    the cache. *)
Definition silent {A} (c : M A) : Prop :=
  forall w r w',
    c w = (r, w') ->
    w_posts w' = w_posts w /\ w_uuids w' = w_uuids w /\ w_cache w' = w_cache w.

(** The requestIds of the bodies posted, latest first. *)
Definition request_ids (w : World) : list (option pyval) :=
  (fun d : pydict => d !! "requestId") <$> w_posts w.

(** Whether a task opened its store. *)
Definition succeeded {A} (r : Res A) : bool :=
  match r with
  | Ok _ => true
  | Raise _ => false
  end.

(** What the [for] loop yields when its last pass ends in [fin]. *)
Definition flow_result (fin : Res (Flow (option JsonValue)))
    : Res (option JsonValue) :=
  match fin with
  | Raise e => Raise e
  | Ok (Return result) => Ok result
  | Ok (Continue _) => Ok None
  end.

(** The test that [find_stores_by_name] applies to one store. *)
Definition name_matches (env : Env) (name : string) (exact_match_mode : bool)
    (store : Store) : bool :=
  if exact_match_mode
  then exact_match env (default "" (browserName store)) name
  else fuzzy_match env (default "" (browserName store)) name.

(** The world after the pool has taken the task for [name], which ran from
    [w] to [w1] with result [r]: the task logs its failure, the collecting
    loop logs the outcome. *)
Definition task_logged (name : string) (r : Res BrowserSession) (w1 : World)
    : World :=
  match r with
  | Ok _ => snd (log INFO "店铺打开成功：{name}" [LStr name] w1)
  | Raise e =>
      snd (log WARNING "店铺打开失败：{name}" [LStr name]
               (snd (log ERROR "打开店铺失败：{name}, 错误：{e}"
                         [LStr name; LExn e] w1)))
  end.

(** [e] is what [time.sleep(d)] raises. *)
Definition sleep_raises (d : Z) (e : Exn) : Prop :=
  exists w, fst (sleep d w) = Raise e.

(** The exceptions that leave [send_request]: CommunicationError, the
    package's TimeoutError with the configured number of retries, and what
    [time.sleep(self.retry_delay)] itself raises, which no handler of
    [send_request] catches (the sleep sits inside the handlers). *)
Definition send_request_failure (self : HttpClient) (e : Exn) : Prop :=
  (exists m, e = CommunicationError m)
  \/ (exists cause, e = ZiniaoTimeoutError (max_retries self) cause)
  \/ sleep_raises (retry_delay self) e.

(** An outcome after which [send_request] tries again while attempts are
    left: an exception of [requests.post] (the malformed body is not). *)
Definition transient (o : Outcome) : bool :=
  match o with
  | NetTimeout | NetConnectionError | NetError => true
  | NetBadJson | NetJson _ => false
  end.

(** How long the [n] POSTs from number [p] on take together. *)
Fixpoint total_latency (env : Env) (p n : nat) : Z :=
  match n with
  | O => 0
  | S n' => Z.of_N (latency env p) + total_latency env (S p) n'
  end.

Section Traces.

Variable env : Env.

(** The POSTs of [j] passes of the polling loop, latest first, when the first
    pass draws uuid number [u]: each pass posts its own body
    [max_retries + 1] times. *)
Fixpoint polling_posts (self : ZiniaoClient) (u j : nat) : list pydict :=
  match j with
  | O => []
  | S j' =>
      replicate (Z.to_nat (max_retries (client_http_client self)) + 1)
                (update_core_data self (uuid4 env (u + j')))
      ++ polling_posts self u j'
  end.

(** What [open_store_by_name] gave for each task, in the order of
    completion, starting from the world [w]. *)
Fixpoint task_results (self : StoreManager) (exact_match_mode : bool)
    (options : pydict) (futures : list string) (w : World)
    : list (string * Res BrowserSession) :=
  match futures with
  | [] => []
  | name :: rest =>
      let '(r, w1) :=
        open_store_by_name env self name exact_match_mode options w in
      (name, r) :: task_results self exact_match_mode options rest
                                (task_logged name r w1)
  end.

End Traces.

(** * Sample data *)

Module Sample.

(** The uuids of the samples: "uuid-0", "uuid-1", ... *)
Definition uuids (k : nat) : string :=
  String.append "uuid-" (NilZero.string_of_uint (Nat.to_uint k)).

(** The text primitives of the samples, for ASCII text: [lower] lowers the
    letters A to Z, [isdigit] knows the digits 0 to 9, and the length is
    the number of bytes. *)
Definition lower_char (c : ascii) : ascii :=
  let n := nat_of_ascii c in
  if ((65 <=? n) && (n <=? 90))%nat then ascii_of_nat (n + 32) else c.

Fixpoint lower (s : string) : string :=
  match s with
  | EmptyString => EmptyString
  | String c s' => String (lower_char c) (lower s')
  end.

Definition is_digit_char (c : ascii) : bool :=
  let n := nat_of_ascii c in ((48 <=? n) && (n <=? 57))%nat.

Fixpoint all_digits (s : string) : bool :=
  match s with
  | EmptyString => true
  | String c s' => is_digit_char c && all_digits s'
  end.

Definition isdigit (s : string) : bool :=
  match s with
  | EmptyString => false
  | _ => all_digits s
  end.

Definition lower_empty (s : string) : lower s = "" <-> s = "" :=
  match s with
  | EmptyString => conj (fun _ => eq_refl) (fun _ => eq_refl)
  | String c s' =>
      conj (fun H : lower (String c s') = "" =>
              match H in _ = t
                    return match t with
                           | EmptyString => String c s' = ""
                           | String _ _ => True
                           end
              with eq_refl => I end)
           (fun H : String c s' = "" =>
              match H in _ = t
                    return match t with
                           | EmptyString => lower (String c s') = ""
                           | String _ _ => True
                           end
              with eq_refl => I end)
  end.

(** An environment with the given network, no latency, and a browser that
    always answers. *)
Definition world_of (net : nat -> Outcome) : Env :=
  mkEnv net (fun _ => 0%N) uuids (fun v => str v)
        (fun _ => None) (fun _ => inr 0%nat) (fun _ => inr [0%nat])
        (fun _ => None) (fun _ => inr true) (fun names => names)
        lower isdigit String.length lower_empty.

(** Nothing has happened yet. *)
Definition start : World := mkWorld [] 0 0 [] [] None.

Definition response (code : Z) : HttpResponse :=
  mkResponse (Some code) None None None None None None.

Definition client (retries : Z) : HttpClient :=
  mkHttpClient 16851 120000 retries 2000.

Definition credentials : pydict :=
  {[ "company" := PStr "acme"; "username" := PStr "ann";
     "password" := PStr "secret" ]}.

Definition manager (retries : Z) : StoreManager :=
  mkStoreManager (client retries) credentials.

Definition body : pydict :=
  update {[ "action" := PStr "getBrowserList";
            "requestId" := PStr "uuid-0" ]} credentials.

Definition store (oauth name : string) : Store :=
  mkStore (Some oauth) (Some name) None None None None.

(** The client is down. *)
Definition down : Env := world_of (fun _ => NetConnectionError).

(** Every response carries the authentication status code. *)
Definition unauthenticated : Env :=
  world_of (fun _ => NetJson (Some (JObject (response (-10003))))).

(** Every response is the JSON null. *)
Definition not_ready : Env := world_of (fun _ => NetJson None).

(** The first POST meets a connection error, the following ones succeed. *)
Definition flaky : Env :=
  world_of (fun k =>
              match k with
              | O => NetConnectionError
              | _ => NetJson (Some (JObject (mkResponse (Some 0) None (Some [])
                                               None None None None)))
              end).

End Sample.

(** A closed session without an IP-check URL. *)
Definition closed_sample : BrowserSession :=
  mkSession (Some 9222) "oauth-1" "Store One" None None None None true.

(** A configuration with the defaults of the dataclass (durations in
    milliseconds, as everywhere here). *)
Definition sample_config : ZiniaoConfig :=
  mkConfig "/opt/ziniao/ziniao" 16851 "acme" "ann" "secret" "v6" 120000 3 2000.

(** An open session attached to the browser on port 9222. *)
Definition open_sample : BrowserSession :=
  mkSession (Some 9222) "oauth-1" "Store One" None None None
            (Some (mkChromium (Some 9222))) false.



(** A response to startBrowser that reports success on port 9222. *)
Definition started : HttpResponse :=
  mkResponse (Some 0) None None (Some 9222) None None None.

(** Every startBrowser succeeds on port 9222. *)
Definition always_started : Env :=
  Sample.world_of (fun _ => NetJson (Some (JObject started))).

(** The listing has one store "A"; the first startBrowser succeeds, every
    later one is refused with status 1. *)
Definition opened_once : Env :=
  Sample.world_of
    (fun k =>
       match k with
       | 0%nat => NetJson (Some (JObject (mkResponse (Some 0) None
                                    (Some [Sample.store "oauth-a" "A"])
                                    None None None None)))
       | 1%nat => NetJson (Some (JObject started))
       | _ => NetJson (Some (JObject (Sample.response 1)))
       end).

(** The listing of the specification's example: "B" names two stores. *)
Definition two_named_b : Env :=
  Sample.world_of
    (fun k =>
       match k with
       | 0%nat => NetJson (Some (JObject (mkResponse (Some 0) None
                                    (Some [Sample.store "oauth-a" "A";
                                           Sample.store "oauth-b1" "B";
                                           Sample.store "oauth-b2" "B";
                                           Sample.store "oauth-c" "C"])
                                    None None None None)))
       | _ => NetJson (Some (JObject started))
       end).

(** A world whose cache holds the given listing. *)
Definition cached (listing : list Store) : World :=
  mkWorld [] 0 0 [] [] (Some listing).

(** * Properties *)

(** ** What a computation leaves untouched *)

Lemma posted_refl data w : posted data 0 w w.
Proof. split; simpl; auto; lia. Qed.

Lemma posted_trans data j k w1 w2 w3 :
  posted data j w1 w2 -> posted data k w2 w3 -> posted data (k + j) w1 w3.
Proof.
  intros [P1 U1 D1 C1 T1] [P2 U2 D2 C2 T2]. split; try congruence; try lia.
  rewrite P2, P1, replicate_add, <- app_assoc. reflexivity.
Qed.

Section Transport.

Variable env : Env.

Lemma post_json_posted data w r w' :
  post_json env data w = (r, w') -> posted data 1 w w'.
Proof.
  unfold post_json. intros H.
  assert (w' = mkWorld (data :: w_posts w) (w_uuids w)
                 (w_clock w + Z.of_N (latency env (length (w_posts w))))
                 (w_log w) (w_driver w) (w_cache w)) as ->
    by (destruct (net env _); congruence).
  split; simpl; auto; lia.
Qed.

(** Logging and sleeping after a world [w1] reached from [w] keep [posted]. *)
Ltac finish_posted H1 :=
  destruct H1 as [P1 U1 D1 C1 T1];
  split; simpl; rewrite ?P1, ?U1, ?D1, ?C1; auto; lia.

Lemma attempt_posted self data retry_on_none action last attempt w r w' :
  send_request_attempt env self data retry_on_none action last attempt w = (r, w') ->
  posted data 1 w w' /\ (forall d, r <> Raise (AuthenticationError d)).
Proof.
  unfold send_request_attempt, try_except, bind. intros H.
  destruct (post_json env data w) as [[result|e] w1] eqn:Hpost;
    apply post_json_posted in Hpost;
    unfold log, sleep, ret, raise in H; simpl in H.
  - (* a response was parsed; the authentication error raised in the [try]
       block is caught by [except Exception] like any other *)
    destruct result as [[resp|[|]]|]; simpl in H;
      repeat match type of H with
             | context [if ?c then _ else _] => destruct c eqn:?; simpl in H
             end;
      inversion H; subst; (split; [finish_posted Hpost | congruence]).
  - (* an exception out of the POST or of json.loads *)
    destruct (classify e); simpl in H;
      repeat match type of H with
             | context [if ?c then _ else _] => destruct c eqn:?; simpl in H
             end;
      inversion H; subst; (split; [finish_posted Hpost | congruence]).
Qed.

Lemma loop_posted self data retry_on_none action attempts :
  forall last w r w',
    send_request_loop env self data retry_on_none action last attempts w = (r, w') ->
    exists k, (k <= length attempts)%nat
              /\ (attempts <> [] -> (1 <= k)%nat)
              /\ posted data k w w'
              /\ (forall d, r <> Raise (AuthenticationError d)).
Proof.
  induction attempts as [|attempt rest IH]; intros last w r w' H; simpl in H.
  - exists 0%nat.
    assert (w' = w) as -> by (destruct last; inversion H; reflexivity).
    refine (conj _ (conj _ (conj (posted_refl _ _) _))); [simpl; lia | done |].
    destruct last; inversion H; congruence.
  - unfold bind in H.
    destruct (send_request_attempt _ _ _ _ _ _ _ _) as [[flow|e] w1] eqn:Hatt;
      apply attempt_posted in Hatt as [Hp Hna].
    + destruct flow as [last'|result].
      * apply IH in H as (k & Hk & _ & Hp' & Hna').
        exists (S k).
        refine (conj _ (conj _ (conj _ Hna'))); simpl; try lia.
        replace (S k) with (k + 1)%nat by lia. eapply posted_trans; eauto.
      * inversion H; subst. exists 1%nat.
        refine (conj _ (conj _ (conj Hp _))); simpl; try lia. congruence.
    + inversion H; subst. exists 1%nat.
      refine (conj _ (conj _ (conj Hp _))); simpl; try lia.
      intros d [= ->]. exact (Hna d eq_refl).
Qed.

Lemma length_range n : length (range n) = Z.to_nat n.
Proof. unfold range. rewrite length_fmap, length_seq. reflexivity. Qed.

(** Every POST of one [send_request] call carries the body it was given;
    there are at most [max_retries + 1] of them; the call never raises
    AuthenticationError. *)
Lemma send_request_posted self data retry_on_none w r w' :
  send_request env self data retry_on_none w = (r, w') ->
  exists k, (k <= Z.to_nat (max_retries self + 1))%nat
            /\ (0 <= max_retries self -> (1 <= k)%nat)
            /\ posted data k w w'
            /\ (forall d, r <> Raise (AuthenticationError d)).
Proof.
  unfold send_request, bind, log. simpl. intros H.
  apply loop_posted in H as (k & Hk & Hpos & Hp & Hna).
  rewrite length_range in Hk.
  exists k. refine (conj Hk (conj _ (conj _ Hna))).
  - intros HN. apply Hpos. intros Hnil.
    apply (f_equal length) in Hnil. rewrite length_range in Hnil.
    simpl in Hnil. lia.
  - destruct Hp as [P U D C T]. split; simpl in *; auto.
Qed.

(** *** A loop in which every attempt meets the same outcome *)

(** If, as long as the outcome of the next POST is [o], a pass with retries
    left continues and the last pass ends in [fin], then under an
    environment that answers [o] from now on the loop makes every one of its
    passes, each posting [data] once, and ends as [fin] says. *)
Lemma loop_exhausts self data retry_on_none action
    (o : Outcome) (next : option Exn -> option Exn)
    (fin : Res (Flow (option JsonValue))) :
  (forall l, fin <> Ok (Continue l)) ->
  (forall last attempt w,
      net env (length (w_posts w)) = o ->
      fst (send_request_attempt env self data retry_on_none action last attempt w)
      = if attempt <? max_retries self then Ok (Continue (next last)) else fin) ->
  forall n a last w,
    Z.of_nat a + Z.of_nat (S n) = max_retries self + 1 ->
    (forall k, (length (w_posts w) <= k)%nat -> net env k = o) ->
    exists w',
      send_request_loop env self data retry_on_none action last
                        (Z.of_nat <$> seq a (S n)) w
      = (flow_result fin, w')
      /\ posted data (S n) w w'.
Proof.
  intros Hfin Hatt n.
  induction n as [|n IH]; intros a last w Hsum Hnet.
  - (* the last pass *)
    cbn [seq fmap list_fmap send_request_loop]. unfold bind.
    destruct (send_request_attempt _ _ _ _ _ _ _ _) as [r w1] eqn:E.
    pose proof (Hatt last (Z.of_nat a) w (Hnet _ (Nat.le_refl _))) as Hr.
    rewrite E in Hr. simpl in Hr.
    destruct (Z.ltb_spec (Z.of_nat a) (max_retries self)); [lia|]. subst r.
    apply attempt_posted in E as [Hp _].
    exists w1. split; [|exact Hp].
    destruct fin as [[l|result]|e]; simpl; try reflexivity.
    exfalso. exact (Hfin l eq_refl).
  - (* a pass with retries left *)
    change (Z.of_nat <$> seq a (S (S n)))
      with (Z.of_nat a :: (Z.of_nat <$> seq (S a) (S n))).
    cbn [send_request_loop]. unfold bind.
    destruct (send_request_attempt _ _ _ _ _ _ _ _) as [r w1] eqn:E.
    pose proof (Hatt last (Z.of_nat a) w (Hnet _ (Nat.le_refl _))) as Hr.
    rewrite E in Hr. simpl in Hr.
    destruct (Z.ltb_spec (Z.of_nat a) (max_retries self)); [|lia]. subst r.
    apply attempt_posted in E as [Hp _].
    destruct (IH (S a) (next last) w1) as (w' & Hloop & Hp'); [lia | |].
    + intros k Hk. apply Hnet. rewrite (posted_posts _ _ _ _ Hp) in Hk.
      simpl in Hk. lia.
    + exists w'. split; [exact Hloop|].
      replace (S (S n)) with (S n + 1)%nat by lia.
      eapply posted_trans; eauto.
Qed.

(** The same for [send_request] itself, with [max_retries >= 0]. *)
Lemma send_request_exhausts self data retry_on_none
    (o : Outcome) (next : option Exn -> option Exn)
    (fin : Res (Flow (option JsonValue))) w :
  (forall l, fin <> Ok (Continue l)) ->
  (forall last attempt w,
      net env (length (w_posts w)) = o ->
      fst (send_request_attempt env self data retry_on_none
             (get data "action" (PStr "unknown")) last attempt w)
      = if attempt <? max_retries self then Ok (Continue (next last)) else fin) ->
  0 <= max_retries self ->
  (forall k, (length (w_posts w) <= k)%nat -> net env k = o) ->
  exists w',
    send_request env self data retry_on_none w = (flow_result fin, w')
    /\ posted data (Z.to_nat (max_retries self) + 1) w w'.
Proof.
  intros Hfin Hatt HN Hnet.
  unfold send_request, bind, log. cbn [fst snd].
  set (w0 := mkWorld _ _ _ _ _ _).
  unfold range.
  replace (Z.to_nat (max_retries self + 1)) with (S (Z.to_nat (max_retries self)))
    by lia.
  destruct (loop_exhausts self data retry_on_none _ o next fin Hfin Hatt
              (Z.to_nat (max_retries self)) 0%nat None w0)
    as (w' & Hloop & Hp); [lia | exact Hnet |].
  exists w'. split; [exact Hloop|].
  replace (Z.to_nat (max_retries self) + 1)%nat
    with (S (Z.to_nat (max_retries self))) by lia.
  destruct Hp as [P U D C T]. split; simpl in *; auto.
Qed.

(** *** Connection failures *)

Lemma attempt_connection_error self data retry_on_none action last attempt w :
  0 <= retry_delay self ->
  net env (length (w_posts w)) = NetConnectionError ->
  fst (send_request_attempt env self data retry_on_none action last attempt w)
  = if attempt <? max_retries self
    then Ok (Continue (Some RequestsConnectionError))
    else Raise (CommunicationError
                  (CannotConnect (max_retries self) (hc_port self)
                                 RequestsConnectionError)).
Proof.
  intros Hdelay Hnet.
  unfold send_request_attempt, try_except, bind, post_json. rewrite Hnet.
  unfold log, sleep, ret, raise. simpl.
  destruct (attempt <? max_retries self); simpl; [|reflexivity].
  destruct (Z.ltb_spec (retry_delay self) 0); [lia | reflexivity].
Qed.

(** C3.  With [max_retries = N >= 0] (and the non-negative [retry_delay]
    that the configuration guarantees), when every POST from now on fails
    with a connection error, [send_request] posts the request exactly
    [N + 1] times and then raises CommunicationError, the failure carrying
    the connection error as its cause; nothing is returned. *)
Theorem send_request_connection_failure self data retry_on_none w :
  0 <= max_retries self ->
  0 <= retry_delay self ->
  (forall k, (length (w_posts w) <= k)%nat -> net env k = NetConnectionError) ->
  exists w',
    send_request env self data retry_on_none w
    = (Raise (CommunicationError
                (CannotConnect (max_retries self) (hc_port self)
                               RequestsConnectionError)), w')
    /\ w_posts w' = replicate (Z.to_nat (max_retries self) + 1) data ++ w_posts w
    /\ length (w_posts w') = (length (w_posts w) + (Z.to_nat (max_retries self) + 1))%nat.
Proof.
  intros HN Hdelay Hnet.
  destruct (send_request_exhausts self data retry_on_none NetConnectionError
              (fun _ => Some RequestsConnectionError)
              (Raise (CommunicationError
                        (CannotConnect (max_retries self) (hc_port self)
                                       RequestsConnectionError))) w)
    as (w' & Hrun & Hp); try assumption; [congruence | |].
  - intros last attempt w1. now apply attempt_connection_error.
  - exists w'. split; [exact Hrun|].
    pose proof (posted_posts _ _ _ _ Hp) as E. split; [exact E|].
    rewrite E, length_app, length_replicate. lia.
Qed.

(** *** The authentication status code *)

Lemma attempt_authentication self data retry_on_none action last attempt w resp :
  0 <= retry_delay self ->
  statusCode resp = Some (-10003) ->
  net env (length (w_posts w)) = NetJson (Some (JObject resp)) ->
  fst (send_request_attempt env self data retry_on_none action last attempt w)
  = if attempt <? max_retries self
    then Ok (Continue (Some (AuthenticationError (Some (JObject resp)))))
    else Raise (CommunicationError
                  (CommunicationFailed (max_retries self)
                                       (AuthenticationError (Some (JObject resp))))).
Proof.
  intros Hdelay Hcode Hnet.
  unfold send_request_attempt, try_except, bind, post_json. rewrite Hnet.
  cbn [andb]. unfold ret at 1. cbv beta iota.
  rewrite Hcode. rewrite bool_decide_eq_true_2 by reflexivity.
  unfold log, sleep, ret, raise. simpl.
  destruct (attempt <? max_retries self); simpl; [|reflexivity].
  destruct (Z.ltb_spec (retry_delay self) 0); [lia | reflexivity].
Qed.

(** C1 (what the code does).  The AuthenticationError that the [try] block
    raises on status code -10003 is caught by the [except Exception] clause
    of the same [try] statement: with retries left the request is sent
    again after [retry_delay], and on the last attempt the failure leaves
    [send_request] as a CommunicationError.  When every response carries the
    code, the request is posted [max_retries + 1] times. *)
Theorem send_request_authentication_code self data retry_on_none w resp :
  0 <= max_retries self ->
  0 <= retry_delay self ->
  statusCode resp = Some (-10003) ->
  (forall k, (length (w_posts w) <= k)%nat -> net env k = NetJson (Some (JObject resp))) ->
  exists w',
    send_request env self data retry_on_none w
    = (Raise (CommunicationError
                (CommunicationFailed (max_retries self)
                                     (AuthenticationError (Some (JObject resp))))), w')
    /\ w_posts w' = replicate (Z.to_nat (max_retries self) + 1) data ++ w_posts w.
Proof.
  intros HN Hdelay Hcode Hnet.
  destruct (send_request_exhausts self data retry_on_none (NetJson (Some (JObject resp)))
              (fun _ => Some (AuthenticationError (Some (JObject resp))))
              (Raise (CommunicationError
                        (CommunicationFailed (max_retries self)
                                             (AuthenticationError (Some (JObject resp)))))) w)
    as (w' & Hrun & Hp); try assumption; [congruence | |].
  - intros last attempt w1. now apply attempt_authentication.
  - exists w'. split; [exact Hrun | exact (posted_posts _ _ _ _ Hp)].
Qed.

(** In no environment does [send_request] raise AuthenticationError. *)
Lemma send_request_never_authentication_error self data retry_on_none w d :
  fst (send_request env self data retry_on_none w) <> Raise (AuthenticationError d).
Proof.
  destruct (send_request env self data retry_on_none w) as [r w'] eqn:H.
  apply send_request_posted in H as (k & _ & _ & _ & Hna). apply Hna.
Qed.

(** *** Responses that are the JSON null *)

Lemma attempt_null self data action last attempt w :
  0 <= retry_delay self ->
  net env (length (w_posts w)) = NetJson None ->
  fst (send_request_attempt env self data true action last attempt w)
  = if attempt <? max_retries self
    then Ok (Continue last)
    else Ok (Return None).
Proof.
  intros Hdelay Hnet.
  unfold send_request_attempt, try_except, bind, post_json. rewrite Hnet.
  cbn [andb]. unfold log, sleep, ret, raise.
  destruct (attempt <? max_retries self); simpl; [|reflexivity].
  destruct (Z.ltb_spec (retry_delay self) 0); [lia | reflexivity].
Qed.

Lemma total_latency_add p a b :
  total_latency env p (a + b)
  = total_latency env p a + total_latency env (p + a) b.
Proof.
  revert p. induction a as [|a IH]; intros p.
  - simpl. rewrite Nat.add_0_r. lia.
  - cbn [Nat.add total_latency]. rewrite IH.
    replace (p + S a)%nat with (S p + a)%nat by lia. lia.
Qed.

(** One pass on a null response: with retries left it sleeps [retry_delay]
    and goes on, on the last attempt it returns None. *)
Lemma attempt_null_run self data action last attempt w :
  0 <= retry_delay self ->
  net env (length (w_posts w)) = NetJson None ->
  exists w',
    send_request_attempt env self data true action last attempt w
    = ((if attempt <? max_retries self
        then Ok (Continue last) else Ok (Return None)), w')
    /\ posted data 1 w w'
    /\ w_clock w'
       = w_clock w + Z.of_N (latency env (length (w_posts w)))
         + (if attempt <? max_retries self then retry_delay self else 0).
Proof.
  intros Hdelay Hnet.
  destruct (send_request_attempt env self data true action last attempt w)
    as [r w'] eqn:Hatt.
  pose proof (attempt_posted _ _ _ _ _ _ _ _ _ Hatt) as [Hp _].
  exists w'. revert Hatt Hp.
  unfold send_request_attempt, try_except, bind, post_json. rewrite Hnet.
  cbn [andb]. unfold log, sleep, ret, raise.
  destruct (attempt <? max_retries self); simpl.
  - destruct (Z.ltb_spec (retry_delay self) 0); [lia|].
    intros [= <- <-] Hp. simpl. split; [reflexivity|]. split; [exact Hp | lia].
  - intros [= <- <-] Hp. simpl. split; [reflexivity|]. split; [exact Hp | lia].
Qed.

Lemma loop_null self data action :
  0 <= retry_delay self ->
  forall n a last w,
    Z.of_nat a + Z.of_nat (S n) = max_retries self + 1 ->
    (forall k, (length (w_posts w) <= k)%nat -> net env k = NetJson None) ->
    exists w',
      send_request_loop env self data true action last
                        (Z.of_nat <$> seq a (S n)) w
      = (Ok None, w')
      /\ posted data (S n) w w'
      /\ w_clock w'
         = w_clock w + Z.of_nat n * retry_delay self
           + total_latency env (length (w_posts w)) (S n).
Proof.
  intros Hdelay n.
  induction n as [|n IH]; intros a last w Hsum Hnet.
  - (* the last attempt *)
    cbn [seq fmap list_fmap send_request_loop]. unfold bind.
    destruct (attempt_null_run self data action last (Z.of_nat a) w Hdelay
                (Hnet _ (Nat.le_refl _))) as (w' & Hatt & Hp & Hclock).
    rewrite Hatt.
    destruct (Z.ltb_spec (Z.of_nat a) (max_retries self)); [lia|].
    exists w'. split; [reflexivity|]. split; [exact Hp|].
    rewrite Hclock. simpl. lia.
  - (* an attempt with retries left: sleep, then the next attempt *)
    change (Z.of_nat <$> seq a (S (S n)))
      with (Z.of_nat a :: (Z.of_nat <$> seq (S a) (S n))).
    cbn [send_request_loop]. unfold bind.
    destruct (attempt_null_run self data action last (Z.of_nat a) w Hdelay
                (Hnet _ (Nat.le_refl _))) as (w1 & Hatt & Hp & Hclock).
    rewrite Hatt.
    destruct (Z.ltb_spec (Z.of_nat a) (max_retries self)); [|lia].
    pose proof (posted_posts _ _ _ _ Hp) as P1. simpl in P1.
    destruct (IH (S a) last w1) as (w' & Hloop & Hp' & Hclock'); [lia | |].
    + intros k Hk. apply Hnet. rewrite P1 in Hk. simpl in Hk. lia.
    + exists w'. split; [exact Hloop|]. split.
      * replace (S (S n)) with (S n + 1)%nat by lia.
        eapply posted_trans; eauto.
      * rewrite Hclock', Hclock, P1.
        change (length (data :: w_posts w)) with (S (length (w_posts w))).
        change (total_latency env (length (w_posts w)) (S (S n)))
          with (Z.of_N (latency env (length (w_posts w)))
                + total_latency env (S (length (w_posts w))) (S n)).
        lia.
Qed.

(** With [retry_on_none] set and nothing but null responses, the resends
    use up the attempts of the [for] loop: the same body is posted
    [max_retries + 1] times, with a sleep of [retry_delay] before each
    resend, and None is returned. *)
Lemma send_request_null self data w :
  0 <= max_retries self ->
  0 <= retry_delay self ->
  (forall k, (length (w_posts w) <= k)%nat -> net env k = NetJson None) ->
  exists w',
    send_request env self data true w = (Ok None, w')
    /\ posted data (Z.to_nat (max_retries self) + 1) w w'
    /\ w_clock w'
       = w_clock w + max_retries self * retry_delay self
         + total_latency env (length (w_posts w))
                         (Z.to_nat (max_retries self) + 1).
Proof.
  intros HN Hdelay Hnet.
  unfold send_request, bind, log. cbn [fst snd].
  set (w0 := mkWorld _ _ _ _ _ _).
  unfold range.
  replace (Z.to_nat (max_retries self + 1)) with (S (Z.to_nat (max_retries self)))
    by lia.
  destruct (loop_null self data (get data "action" (PStr "unknown")) Hdelay
              (Z.to_nat (max_retries self)) 0%nat None w0)
    as (w' & Hloop & Hp & Hclock); [lia | exact Hnet |].
  exists w'. split; [exact Hloop|].
  replace (Z.to_nat (max_retries self) + 1)%nat
    with (S (Z.to_nat (max_retries self))) by lia.
  split.
  - destruct Hp as [P U D C T]. split; simpl in *; auto.
  - rewrite Hclock. simpl. lia.
Qed.

(** *** The polling loop of [update_core] *)

Lemma polling_posts_shift self u j :
  polling_posts env self u (S j)
  = polling_posts env self (S u) j
    ++ replicate (Z.to_nat (max_retries (client_http_client self)) + 1)
                 (update_core_data self (uuid4 env u)).
Proof.
  induction j as [|j IH].
  - simpl. rewrite Nat.add_0_r, app_nil_r. reflexivity.
  - change (polling_posts env self u (S (S j)))
      with (replicate (Z.to_nat (max_retries (client_http_client self)) + 1)
                      (update_core_data self (uuid4 env (u + S j)))
            ++ polling_posts env self u (S j)).
    rewrite IH. cbn [polling_posts].
    rewrite <- app_assoc. replace (u + S j)%nat with (S u + j)%nat by lia.
    reflexivity.
Qed.

(** Under null responses every pass of the polling loop takes the
    [max_retries] sleeps of [send_request], the time of its
    [max_retries + 1] POSTs and the two seconds of [update_core]. *)
Lemma update_core_loop_null self max_wait_time start_time fuel :
  0 <= max_retries (client_http_client self) ->
  0 <= retry_delay (client_http_client self) ->
  forall w,
    (forall k, (length (w_posts w) <= k)%nat -> net env k = NetJson None) ->
    max_wait_time - (w_clock w - start_time) < 2000 * Z.of_nat fuel ->
    exists w' j,
      update_core_loop env self max_wait_time start_time (S fuel) w
      = (Raise (CoreUpdateError max_wait_time), w')
      /\ w_posts w' = polling_posts env self (w_uuids w) j ++ w_posts w
      /\ w_uuids w' = (w_uuids w + j)%nat
      /\ max_wait_time < w_clock w' - start_time
      /\ w_clock w'
         = w_clock w
           + Z.of_nat j
             * (max_retries (client_http_client self)
                * retry_delay (client_http_client self) + 2000)
           + total_latency env (length (w_posts w))
               (j * (Z.to_nat (max_retries (client_http_client self)) + 1)).
Proof.
  intros HN Hdelay.
  induction fuel as [|fuel IH]; intros w Hnet Hfuel.
  - (* no time is left: the deadline check fires *)
    exists w, 0%nat. cbn [update_core_loop]. unfold bind, time_time, raise.
    destruct (Z.gtb_spec (w_clock w - start_time) max_wait_time); [|lia].
    rewrite Nat.add_0_r. simpl. repeat split; auto; lia.
  - cbn [update_core_loop]. unfold bind at 1. unfold time_time at 1.
    destruct (Z.gtb_spec (w_clock w - start_time) max_wait_time) as [Hlate|Hearly].
    + exists w, 0%nat. unfold raise. rewrite Nat.add_0_r. simpl.
      repeat split; auto; lia.
    + (* one pass: a fresh uuid, [max_retries + 1] POSTs, two seconds of sleep *)
      unfold bind at 1. unfold uuid at 1.
      set (w1 := mkWorld (w_posts w) (S (w_uuids w)) (w_clock w)
                         (w_log w) (w_driver w) (w_cache w)).
      set (data := update_core_data self (uuid4 env (w_uuids w))).
      destruct (send_request_null (client_http_client self) data w1 HN Hdelay Hnet)
        as (w2 & Hsend & Hp & Hclock).
      unfold bind at 1. rewrite Hsend.
      unfold bind at 1. unfold log at 1. unfold bind at 1. unfold sleep at 1.
      cbn [fst snd Z.ltb Z.compare].
      set (w3 := mkWorld _ _ _ _ _ _).
      destruct Hp as [P U D C T]. simpl in P, U, T, Hclock.
      destruct (IH w3) as (w' & j & Hrun & Hposts & Huuids & Hlate & Hclock').
      * intros k Hk. apply Hnet. subst w3. simpl in Hk. rewrite P in Hk.
        rewrite length_app in Hk. lia.
      * subst w3. simpl. lia.
      * exists w', (S j). split; [exact Hrun|].
        subst w3. simpl in Hposts, Huuids, Hclock'.
        rewrite U in Hposts, Huuids.
        split; [|split; [lia | split; [exact Hlate|]]].
        -- rewrite Hposts, P, polling_posts_shift, <- app_assoc. reflexivity.
        -- revert Hclock Hclock'. rewrite P, length_app, length_replicate.
           generalize (Z.to_nat (max_retries (client_http_client self)) + 1)%nat.
           intros m Hclock Hclock'.
           replace (S j * m)%nat with (m + j * m)%nat by lia.
           rewrite total_latency_add.
           replace (length (w_posts w) + m)%nat
             with (m + length (w_posts w))%nat by lia.
           rewrite Hclock', Hclock, Nat2Z.inj_succ. lia.
Qed.

(** C4 (amended).  In the retry-on-None mode, with nothing but null
    responses: [send_request] sleeps [retry_delay] and resends the same
    body, same requestId, and the resends are the attempts of its [for]
    loop, so that after [max_retries + 1] POSTs and [max_retries] sleeps it
    returns None; [update_core], the caller that sets the mode, then sleeps
    two seconds and calls [send_request] again with the next uuid, pass
    after pass, and leaves the loop only through the deadline check, with
    CoreUpdateError, once more than [max_wait_time] has elapsed.  The
    clock says how long was waited: [retry_delay] before each resend, two
    seconds after each pass, and the time the POSTs took. *)
Theorem retry_on_none_polling (self : ZiniaoClient) max_wait_time fuel w :
  _started self = true ->
  0 <= max_retries (client_http_client self) ->
  0 <= retry_delay (client_http_client self) ->
  (forall k, (length (w_posts w) <= k)%nat -> net env k = NetJson None) ->
  max_wait_time < 2000 * Z.of_nat fuel ->
  (forall data, exists w1,
      send_request env (client_http_client self) data true w = (Ok None, w1)
      /\ w_posts w1
         = replicate (Z.to_nat (max_retries (client_http_client self)) + 1) data
           ++ w_posts w
      /\ w_uuids w1 = w_uuids w
      /\ w_clock w1
         = w_clock w
           + max_retries (client_http_client self)
             * retry_delay (client_http_client self)
           + total_latency env (length (w_posts w))
               (Z.to_nat (max_retries (client_http_client self)) + 1))
  /\ exists w' j,
      update_core env self max_wait_time (S fuel) w
      = (Raise (CoreUpdateError max_wait_time), w')
      /\ w_posts w' = polling_posts env self (w_uuids w) j ++ w_posts w
      /\ w_uuids w' = (w_uuids w + j)%nat
      /\ max_wait_time < w_clock w' - w_clock w
      /\ w_clock w'
         = w_clock w
           + Z.of_nat j
             * (max_retries (client_http_client self)
                * retry_delay (client_http_client self) + 2000)
           + total_latency env (length (w_posts w))
               (j * (Z.to_nat (max_retries (client_http_client self)) + 1)).
Proof.
  intros Hstarted HN Hdelay Hnet Hfuel. split.
  - intros data.
    destruct (send_request_null (client_http_client self) data w HN Hdelay Hnet)
      as (w1 & Hsend & Hp & Hclock).
    exists w1. split; [exact Hsend|].
    split; [exact (posted_posts _ _ _ _ Hp)|].
    split; [exact (posted_uuids _ _ _ _ Hp) | exact Hclock].
  - unfold update_core. rewrite Hstarted. cbn [negb].
    unfold bind at 1. unfold log at 1. unfold bind at 1. unfold time_time at 1.
    cbn [fst snd w_clock].
    set (w0 := mkWorld _ _ _ _ _ _).
    destruct (update_core_loop_null self max_wait_time (w_clock w) fuel HN Hdelay w0)
      as (w' & j & Hrun & Hposts & Huuids & Hlate & Hclock).
    + exact Hnet.
    + subst w0. simpl. lia.
    + exists w', j. auto.
Qed.

(** *** What a returned response comes from *)

Lemma attempt_returns self data retry_on_none action last attempt w result w' :
  send_request_attempt env self data retry_on_none action last attempt w
  = (Ok (Return result), w') ->
  net env (length (w_posts w)) = NetJson result.
Proof.
  unfold send_request_attempt, try_except, bind, post_json. intros H.
  destruct (net env (length (w_posts w))) as [| | | |[[resp|[|]]|]];
    unfold log, sleep, ret, raise in H; simpl in H;
    repeat match type of H with
           | context [if ?c then _ else _] => destruct c eqn:?; simpl in H
           end;
    inversion H; subst; reflexivity.
Qed.

Lemma loop_returns self data retry_on_none action attempts :
  forall last w (value : JsonValue) w',
    send_request_loop env self data retry_on_none action last attempts w
    = (Ok (Some value), w') ->
    exists k, (length (w_posts w) <= k < length (w_posts w'))%nat
              /\ net env k = NetJson (Some value).
Proof.
  induction attempts as [|attempt rest IH]; intros last w value w' H; simpl in H.
  - destruct last; inversion H.
  - unfold bind in H.
    destruct (send_request_attempt _ _ _ _ _ _ _ _) as [[flow|e] w1] eqn:Hatt;
      [|inversion H].
    pose proof (attempt_posted _ _ _ _ _ _ _ _ _ Hatt) as [Hp _].
    pose proof (posted_posts _ _ _ _ Hp) as P1. simpl in P1.
    destruct flow as [last'|result].
    + destruct (IH _ _ _ _ H) as (k & Hk & Hnet).
      exists k. split; [|exact Hnet]. rewrite P1 in Hk. simpl in Hk. lia.
    + inversion H; subst. apply attempt_returns in Hatt.
      exists (length (w_posts w)). split; [|exact Hatt].
      rewrite P1. simpl. lia.
Qed.

(** A response that [send_request] returns is what one of its POSTs got. *)
Lemma send_request_returns self data retry_on_none w (value : JsonValue) w' :
  send_request env self data retry_on_none w = (Ok (Some value), w') ->
  exists k, (length (w_posts w) <= k < length (w_posts w'))%nat
            /\ net env k = NetJson (Some value).
Proof.
  unfold send_request, bind, log. simpl. intros H.
  apply loop_returns in H. exact H.
Qed.

End Transport.

(** ** Matching names *)

Lemma append_String c s rest :
  String.append (String c s) rest = String c (String.append s rest).
Proof. reflexivity. Qed.

Lemma append_Empty rest : String.append EmptyString rest = rest.
Proof. reflexivity. Qed.

Lemma prefix_spec pattern text :
  String.prefix pattern text = true <->
  exists rest, text = String.append pattern rest.
Proof.
  revert text. induction pattern as [|c pattern IH]; intros text.
  - destruct text; simpl; split; eauto.
  - destruct text as [|c' text]; simpl.
    + split; [discriminate | intros [rest Hrest]; discriminate].
    + destruct (Ascii.ascii_dec c c') as [->|Hne].
      * rewrite IH. split; intros [rest Hrest]; exists rest;
          rewrite append_String in *; congruence.
      * split; [discriminate|].
        intros [rest Hrest]. rewrite append_String in Hrest. congruence.
Qed.

(** [pattern in text] holds exactly when [text] is some characters, then
    [pattern], then some characters. *)
Lemma contains_spec pattern text :
  contains pattern text = true <->
  exists before after,
    text = String.append before (String.append pattern after).
Proof.
  induction text as [|c text IH]; cbn [contains].
  - rewrite orb_false_r, prefix_spec. split.
    + intros [rest Hrest]. exists EmptyString, rest. exact Hrest.
    + intros (before & after & H). destruct before.
      * rewrite append_Empty in H. eauto.
      * rewrite append_String in H. discriminate.
  - rewrite orb_true_iff, prefix_spec, IH. split.
    + intros [[rest Hrest] | (before & after & H)].
      * exists EmptyString, rest. exact Hrest.
      * exists (String c before), after. rewrite append_String. congruence.
    + intros (before & after & H). destruct before as [|c' before].
      * rewrite append_Empty in H. left. eauto.
      * rewrite append_String in H. right. exists before, after. congruence.
Qed.

Lemma exact_match_spec env text pattern :
  exact_match env text pattern = true
  <-> str_lower env text = str_lower env pattern.
Proof. unfold exact_match, exact_match_cs. simpl. apply String.eqb_eq. Qed.

Lemma fuzzy_match_spec env text pattern :
  fuzzy_match env text pattern = true <->
  exists before after,
    str_lower env text
    = String.append before (String.append (str_lower env pattern) after).
Proof. unfold fuzzy_match, fuzzy_match_cs. simpl. apply contains_spec. Qed.

Lemma find_stores_loop_filter env name exact_match_mode store_list :
  forall matched_stores,
    fold_left (find_stores_step env name exact_match_mode) store_list
              matched_stores
    = matched_stores
      ++ List.filter (name_matches env name exact_match_mode) store_list.
Proof.
  induction store_list as [|store rest IH]; intros matched; simpl.
  - rewrite app_nil_r. reflexivity.
  - rewrite IH. unfold find_stores_step, name_matches.
    destruct exact_match_mode.
    + destruct (exact_match _ _); [rewrite <- app_assoc|]; reflexivity.
    + destruct (fuzzy_match _ _); [rewrite <- app_assoc|]; reflexivity.
Qed.

(** ** The store manager *)

Section Stores.

Variable env : Env.

(** *** Computations that post nothing *)

Lemma silent_ret {A} (a : A) : silent (ret a).
Proof. intros w r w' [= <- <-]. auto. Qed.

Lemma silent_raise {A} e : silent (@raise A e).
Proof. intros w r w' [= <- <-]. auto. Qed.

Lemma silent_log lvl t a : silent (log lvl t a).
Proof. intros w r w' [= <- <-]. auto. Qed.

Lemma silent_sleep d : silent (sleep d).
Proof.
  intros w r w'. unfold sleep. destruct (d <? 0); intros [= <- <-]; auto.
Qed.

Lemma silent_get_cache : silent get_cache.
Proof. intros w r w' [= <- <-]. auto. Qed.

Lemma silent_driver {A} call (answer : nat -> Exn + A) :
  silent (driver call answer).
Proof.
  intros w r w'. unfold driver. destruct (answer _); intros [= <- <-]; auto.
Qed.

Lemma silent_bind {A B} (c : M A) (k : A -> M B) :
  silent c -> (forall a, silent (k a)) -> silent (bind c k).
Proof.
  intros Hc Hk w r w'. unfold bind.
  destruct (c w) as [[a|e] w1] eqn:E; apply Hc in E as (P & U & C).
  - intros H. apply Hk in H as (P' & U' & C'). repeat split; congruence.
  - intros [= <- <-]. auto.
Qed.

Lemma silent_try_except {A} (c : M A) (handler : Exn -> M A) :
  silent c -> (forall e, silent (handler e)) -> silent (try_except c handler).
Proof.
  intros Hc Hh w r w'. unfold try_except.
  destruct (c w) as [[a|e] w1] eqn:E; apply Hc in E as (P & U & C).
  - intros [= <- <-]. auto.
  - intros H. apply Hh in H as (P' & U' & C'). repeat split; congruence.
Qed.

Lemma silent_as_dict result : silent (as_dict result).
Proof. destruct result; [apply silent_ret | apply silent_raise]. Qed.

Create HintDb silent discriminated.
#[local] Hint Resolve silent_ret silent_raise silent_log silent_sleep
  silent_get_cache silent_driver silent_as_dict : silent.

Ltac silent_step :=
  first [ apply silent_bind; [|intros ?]
        | apply silent_try_except; [|intros ?]
        | solve [auto with silent]
        | match goal with
          | |- silent (if ?c then _ else _) => destruct c
          | |- silent (match ?x with _ => _ end) => destruct x
          end ].

Lemma silent_get_tab (self : BrowserSession) index : silent (get_tab env self index).
Proof. unfold get_tab, browser. repeat silent_step. Qed.

Lemma silent_check_ip (self : BrowserSession) url timeout :
  silent (check_ip env self url timeout).
Proof.
  unfold check_ip.
  repeat first [ apply silent_get_tab | silent_step ].
Qed.

Lemma silent_open_launcher_page (self : BrowserSession) url wait_time :
  silent (open_launcher_page env self url wait_time).
Proof.
  unfold open_launcher_page.
  repeat first [ apply silent_get_tab | silent_step ].
Qed.

Lemma silent_BrowserSession_init port store_id store_name ip_check_url
    launcher_page close_callback :
  silent (BrowserSession_init env port store_id store_name ip_check_url
                              launcher_page close_callback).
Proof. unfold BrowserSession_init. repeat silent_step. Qed.

Lemma silent__get_store_name (self : StoreManager) store_oauth :
  silent (_get_store_name self store_oauth).
Proof. unfold _get_store_name. repeat silent_step. Qed.

(** *** One body for every attempt *)

Lemma open_store_posted (self : StoreManager) store_identifier options w r w' :
  open_store env self store_identifier options w = (r, w') ->
  exists k,
    (k <= Z.to_nat (max_retries (http_client self) + 1))%nat
    /\ w_posts w'
       = replicate k (open_store_data env self store_identifier options
                                      (uuid4 env (w_uuids w)))
         ++ w_posts w
    /\ w_uuids w' = S (w_uuids w).
Proof.
  unfold open_store. unfold bind at 1. unfold uuid at 1.
  unfold bind at 1. cbn [log fst snd].
  set (w1 := mkWorld _ _ _ _ _ _).
  set (data := open_store_data _ _ _ _ _).
  unfold bind at 1.
  destruct (send_request env (http_client self) data false w1)
    as [[[result|]|e] w2] eqn:Hsend;
    apply send_request_posted in Hsend as (k & Hk & _ & Hp & _);
    destruct Hp as [P U _ _ _]; simpl in P, U; intros H; exists k;
    (split; [exact Hk|]).
  - (* a response: what follows posts nothing *)
    match type of H with
    | ?c w2 = _ => assert (Hrest : silent c)
    end.
    { repeat first [ apply silent_check_ip | apply silent_open_launcher_page
                   | apply silent_BrowserSession_init
                   | apply silent__get_store_name | silent_step ]. }
    apply Hrest in H as (P' & U' & _). split; congruence.
  - inversion H; subst. auto.
  - inversion H; subst. auto.
Qed.

(** C2 (amended).  Whatever the environment answers, the POSTs of one
    [send_request] call, the first delivery and every retry, carry the very
    body the caller passed, hence one and the same requestId; there are at
    most [max_retries + 1] of them, and [send_request] draws no uuid.  The
    uuid is drawn by the caller, once per call: all the POSTs of one
    [open_store] call carry the body built with the uuid drawn on entry. *)
Theorem send_request_same_body :
  (forall (self : HttpClient) (data : pydict) (retry_on_none : bool) w,
      exists k,
        (k <= Z.to_nat (max_retries self + 1))%nat
        /\ w_posts (snd (send_request env self data retry_on_none w))
           = replicate k data ++ w_posts w
        /\ w_uuids (snd (send_request env self data retry_on_none w))
           = w_uuids w)
  /\ (forall (self : StoreManager) (store_identifier : string)
             (options : pydict) w,
         exists k,
           (k <= Z.to_nat (max_retries (http_client self) + 1))%nat
           /\ w_posts (snd (open_store env self store_identifier options w))
              = replicate k (open_store_data env self store_identifier options
                                             (uuid4 env (w_uuids w)))
                ++ w_posts w
           /\ w_uuids (snd (open_store env self store_identifier options w))
              = S (w_uuids w)).
Proof.
  split.
  - intros self data retry_on_none w.
    destruct (send_request env self data retry_on_none w) as [r w'] eqn:H.
    apply send_request_posted in H as (k & Hk & _ & Hp & _).
    exists k. simpl. split; [exact Hk|].
    split; [exact (posted_posts _ _ _ _ Hp) | exact (posted_uuids _ _ _ _ Hp)].
  - intros self store_identifier options w.
    destruct (open_store env self store_identifier options w) as [r w'] eqn:H.
    apply open_store_posted in H. exact H.
Qed.

(** C10.  [get_store_list] writes the cache on one path only.  When it
    raises (the response is None or no dictionary, its statusCode is not
    0, or [send_request] raised), the cache is what it was before the
    call.  When
    it returns a list, either that list is the cached one, asked for with
    [use_cache], and the cache stays, or the list is the [browserList] of a
    response with statusCode 0 received during the call, and the cache now
    holds it. *)
Theorem get_store_list_cache (self : StoreManager) (use_cache : bool) w :
  match get_store_list env self use_cache w with
  | (Raise _, w') => w_cache w' = w_cache w
  | (Ok store_list, w') =>
      (use_cache = true /\ w_cache w = Some store_list
       /\ w_cache w' = w_cache w)
      \/ (w_cache w' = Some store_list
          /\ exists k resp,
              (length (w_posts w) <= k < length (w_posts w'))%nat
              /\ net env k = NetJson (Some (JObject resp))
              /\ statusCode resp = Some 0
              /\ store_list = default [] (browserList resp))
  end.
Proof.
  unfold get_store_list. unfold bind at 1. unfold get_cache at 1.
  destruct (if use_cache then w_cache w else None) as [cached|] eqn:Hhit.
  - (* the cached list *)
    unfold bind, log, ret. simpl. left.
    destruct use_cache; [|discriminate]. auto.
  - (* a request is sent *)
    unfold bind at 1. unfold uuid at 1.
    unfold bind at 1. unfold log at 1. cbn [fst snd].
    set (w1 := mkWorld _ _ _ _ _ _).
    set (data := update _ _).
    unfold bind at 1.
    destruct (send_request env (http_client self) data false w1)
      as [[[[resp|truth]|]|e] w2] eqn:Hsend.
    + pose proof (send_request_returns _ _ _ _ _ _ _ Hsend) as (k & Hk & Hnet).
      apply send_request_posted in Hsend as (n & _ & _ & Hp & _).
      pose proof (posted_cache _ _ _ _ Hp) as C. simpl in C.
      unfold bind at 1. cbn [as_dict ret].
      case_bool_decide as Hcode.
      * unfold bind, log, set_cache, ret. simpl. right.
        split; [reflexivity|]. exists k, resp. simpl in Hk. auto.
      * unfold bind, log, raise. simpl. exact C.
    + (* a value that is no dictionary: [result.get] raises *)
      apply send_request_posted in Hsend as (n & _ & _ & Hp & _).
      unfold bind, as_dict, raise. exact (posted_cache _ _ _ _ Hp).
    + apply send_request_posted in Hsend as (n & _ & _ & Hp & _).
      unfold raise. exact (posted_cache _ _ _ _ Hp).
    + apply send_request_posted in Hsend as (n & _ & _ & Hp & _).
      exact (posted_cache _ _ _ _ Hp).
Qed.

(** C5.  [find_stores_by_name] returns the stores of the listing that pass
    one test, in the order of the listing, each as often as the listing has
    it.  The test compares the [browserName] (the empty string when the key
    is missing) with the query, both lowered by [str.lower]: for equality
    in the exact mode, for containment otherwise.  When the listing cannot be
    obtained the failure of [get_store_list] is the failure of the search. *)
Theorem find_stores_by_name_search (self : StoreManager) (name : string)
    (exact_match_mode use_cache : bool) w :
  exists matches : Store -> bool,
    (forall store,
        matches store = true <->
        if exact_match_mode
        then str_lower env (default "" (browserName store)) = str_lower env name
        else exists before after,
            str_lower env (default "" (browserName store))
            = String.append before
                (String.append (str_lower env name) after))
    /\ match
         get_store_list env self use_cache
           (snd (log DEBUG "搜索店铺：name='{name}', exact_match={exact_match_mode}"
                     [LStr name; LStr (str (PBool exact_match_mode))] w))
       with
       | (Ok store_list, _) =>
           fst (find_stores_by_name env self name exact_match_mode use_cache w)
           = Ok (List.filter matches store_list)
       | (Raise e, _) =>
           fst (find_stores_by_name env self name exact_match_mode use_cache w)
           = Raise e
       end.
Proof.
  exists (name_matches env name exact_match_mode). split.
  - intros store. unfold name_matches. destruct exact_match_mode.
    + apply exact_match_spec.
    + apply fuzzy_match_spec.
  - destruct (get_store_list env self use_cache _) as [[store_list|e] w1] eqn:Hlist;
      unfold find_stores_by_name, bind; cbn [log fst snd] in *; rewrite Hlist;
      [|reflexivity].
    cbn [ret fst]. rewrite find_stores_loop_filter. reflexivity.
Qed.

(** C6.  [open_store_by_name] searches with the cached listing and then:
    passes on the failure of the search; raises StoreNotFoundError with the
    query when nothing matches; raises MultipleStoresFoundError with the
    query, the number of matches and their names when more than one store
    matches; and with exactly one match calls [open_store] on its
    [browserOauth], or raises StoreOperationError when that is missing or
    empty. *)
Theorem open_store_by_name_cases (self : StoreManager) (store_name : string)
    (exact_match_mode : bool) (options : pydict) w :
  match
    find_stores_by_name env self store_name exact_match_mode true
      (snd (log INFO "通过名称打开店铺：'{store_name}'" [LStr store_name] w))
  with
  | (Raise e, w1) =>
      open_store_by_name env self store_name exact_match_mode options w
      = (Raise e, w1)
  | (Ok [], w1) =>
      open_store_by_name env self store_name exact_match_mode options w
      = (Raise (StoreNotFoundError store_name "名称"), w1)
  | (Ok [store], w1) =>
      match browserOauth store with
      | Some store_oauth =>
          if String.eqb store_oauth ""
          then
            open_store_by_name env self store_name exact_match_mode options w
            = (Raise (StoreOperationError "打开" store_name None
                                          (Some "店铺 OAuth 标识为空")), w1)
          else
            open_store_by_name env self store_name exact_match_mode options w
            = open_store env self store_oauth options w1
      | None =>
          open_store_by_name env self store_name exact_match_mode options w
          = (Raise (StoreOperationError "打开" store_name None
                                        (Some "店铺 OAuth 标识为空")), w1)
      end
  | (Ok (first :: second :: others), w1) =>
      open_store_by_name env self store_name exact_match_mode options w
      = (Raise (MultipleStoresFoundError
                  store_name
                  (length (first :: second :: others))
                  ((fun s => default "" (browserName s))
                     <$> first :: second :: others)), w1)
  end.
Proof.
  destruct (find_stores_by_name env self store_name exact_match_mode true _)
    as [[matched|e] w1] eqn:Hfind;
    unfold open_store_by_name, bind; cbn [log fst snd] in *; rewrite Hfind;
    [|reflexivity].
  destruct matched as [|first [|second others]]; try reflexivity.
  cbn [length Nat.eqb Nat.ltb Nat.leb].
  destruct (browserOauth first) as [store_oauth|]; cbn [truthy]; [|reflexivity].
  destruct (String.eqb store_oauth ""); reflexivity.
Qed.

(** *** The batch *)

Lemma task_results_names self exact_match_mode options futures :
  forall w,
    fst <$> task_results env self exact_match_mode options futures w = futures.
Proof.
  induction futures as [|name rest IH]; intros w; simpl; [reflexivity|].
  destruct (open_store_by_name _ _ _ _ _ _) as [r w1]. simpl.
  rewrite IH. reflexivity.
Qed.

(** The task never raises: a failure becomes the pair without a session. *)
Lemma open_single_store_caught self exact_match_mode options name w :
  open_single_store env self exact_match_mode options name w
  = match open_store_by_name env self name exact_match_mode options w with
    | (Ok session, w1) => (Ok (name, Some session), w1)
    | (Raise e, w1) =>
        (Ok (name, None),
         snd (log ERROR "打开店铺失败：{name}, 错误：{e}" [LStr name; LExn e] w1))
    end.
Proof.
  unfold open_single_store, try_except, bind.
  destruct (open_store_by_name _ _ _ _ _ _) as [[session|e] w1]; reflexivity.
Qed.

Lemma as_completed_loop_result self exact_match_mode options futures :
  forall sessions w,
    exists sessions' w',
      as_completed_loop env self exact_match_mode options futures sessions w
      = (Ok sessions', w')
      /\ (forall name session,
             sessions' !! name = Some session ->
             sessions !! name = Some session
             \/ In (name, Ok session)
                   (task_results env self exact_match_mode options futures w))
      /\ (forall name,
             (is_Some (sessions !! name)
              \/ exists session,
                  In (name, Ok session)
                     (task_results env self exact_match_mode options futures w)) ->
             is_Some (sessions' !! name)).
Proof.
  induction futures as [|future rest IH]; intros sessions w.
  - exists sessions, w. simpl. split; [reflexivity|]. split.
    + auto.
    + intros name [H | [session []]]. exact H.
  - cbn [as_completed_loop task_results]. unfold bind at 1.
    rewrite open_single_store_caught.
    destruct (open_store_by_name env self future exact_match_mode options w)
      as [[session|e] w1].
    + (* the task opened its store *)
      unfold bind at 1. cbn [log fst snd task_logged].
      set (w2 := mkWorld _ _ _ _ _ _).
      destruct (IH (<[future:=session]> sessions) w2)
        as (sessions' & w' & Hrun & Hfrom & Hin).
      exists sessions', w'. split; [exact Hrun|]. split.
      * intros name s Hs. destruct (Hfrom name s Hs) as [Hold | Hrest].
        -- destruct (decide (future = name)) as [->|Hne].
           ++ rewrite lookup_insert_eq in Hold. inversion Hold; subst.
              right. left. reflexivity.
           ++ rewrite lookup_insert_ne in Hold by exact Hne. left. exact Hold.
        -- right. right. exact Hrest.
      * intros name H. apply Hin.
        destruct (decide (future = name)) as [->|Hne].
        -- left. rewrite lookup_insert_eq. eauto.
        -- destruct H as [H | [s [Hhere | Hrest]]].
           ++ left. rewrite lookup_insert_ne by exact Hne. exact H.
           ++ inversion Hhere; subst. contradiction.
           ++ right. eauto.
    + (* the task failed *)
      unfold bind at 1. cbn [log fst snd task_logged].
      set (w2 := mkWorld _ _ _ _ _ _).
      destruct (IH sessions w2) as (sessions' & w' & Hrun & Hfrom & Hin).
      exists sessions', w'. split; [exact Hrun|]. split.
      * intros name s Hs. destruct (Hfrom name s Hs) as [Hold | Hrest].
        -- left. exact Hold.
        -- right. right. exact Hrest.
      * intros name H. apply Hin.
        destruct H as [H | [s [Hhere | Hrest]]].
        -- left. exact H.
        -- inversion Hhere.
        -- right. eauto.
Qed.

(** C9 (amended).  With a worker count of at least one,
    [open_stores_by_names] runs one task per name of the list and returns a
    dictionary; no failure of a task reaches the caller.  A name is a key of
    the dictionary exactly when some task for that name opened its store,
    and it is mapped to the session of such a task; a name all of whose
    tasks failed is not a key.  (A name listed twice has two tasks: the
    failure of one does not remove the key that the other one set.) *)
Theorem open_stores_by_names_result (self : StoreManager)
    (store_names : list string) (max_workers : Z) (exact_match_mode : bool)
    (options : pydict) w :
  0 < max_workers ->
  completion_order env store_names ≡ₚ store_names ->
  let results :=
    task_results env self exact_match_mode options
      (completion_order env store_names)
      (snd (log INFO "并发打开 {len(store_names)} 个店铺，最大并发数：{max_workers}"
                [LInt (Z.of_nat (length store_names)); LInt max_workers] w)) in
  fst <$> results ≡ₚ store_names
  /\ exists sessions w',
      open_stores_by_names env self store_names max_workers exact_match_mode
                           options w
      = (Ok sessions, w')
      /\ (forall name session,
             sessions !! name = Some session ->
             In (name, Ok session) results)
      /\ (forall name,
             is_Some (sessions !! name) <->
             exists session, In (name, Ok session) results)
      /\ (forall name,
             (forall r, In (name, r) results -> exists e, r = Raise e) ->
             sessions !! name = None).
Proof.
  intros Hworkers Hperm results. split.
  - subst results. rewrite task_results_names. exact Hperm.
  - unfold open_stores_by_names. unfold bind at 1.
    cbn [log fst snd] in *.
    set (w0 := mkWorld _ _ _ _ _ _) in *.
    destruct (Z.leb_spec max_workers 0) as [|_]; [lia|].
    destruct (as_completed_loop_result self exact_match_mode options
                (completion_order env store_names) ∅ w0)
      as (sessions & w1 & Hrun & Hfrom & Hin).
    fold results in Hfrom, Hin.
    assert (Hsome : forall name session,
               sessions !! name = Some session -> In (name, Ok session) results).
    { intros name session Hs. destruct (Hfrom name session Hs) as [Hempty|H].
      - rewrite lookup_empty in Hempty. discriminate.
      - exact H. }
    unfold bind at 1. rewrite Hrun. unfold bind, log, ret. cbn [fst snd].
    eexists _, _. split; [reflexivity|]. split; [exact Hsome|]. split.
    + intros name. split.
      * intros [session Hs]. exists session. apply Hsome. exact Hs.
      * intros H. apply Hin. right. exact H.
    + intros name Hall.
      destruct (sessions !! name) as [session|] eqn:Hs; [|reflexivity].
      destruct (Hall _ (Hsome _ _ Hs)) as [e He]. discriminate.
Qed.

End Stores.

(** ** The browser session *)

Section Sessions.

Variable env : Env.

(** C7.  [close] never raises and leaves the session closed, whether or
    not the callback raised.  On a session that was open, the callback runs
    once, between the INFO record and the record of its outcome; a failure
    of the callback ends in the ERROR record and goes no further.  A second
    [close] returns normally, leaves the session as it is, and adds one
    DEBUG record to the log and nothing else: the callback does not run
    again. *)
Theorem close_twice (self : BrowserSession) w :
  exists closed w1,
    close self w = (Ok closed, w1)
    /\ _closed closed = true
    /\ close closed w1
       = (Ok closed,
          snd (log DEBUG "浏览器会话已关闭：{self.store_name}"
                   [LStr (store_name closed)] w1))
    /\ w1 =
       if _closed self
       then snd (log DEBUG "浏览器会话已关闭：{self.store_name}"
                     [LStr (store_name self)] w)
       else
         let w0 := snd (log INFO "关闭浏览器会话：{self.store_name}"
                            [LStr (store_name self)] w) in
         match close_callback self with
         | None => w0
         | Some callback =>
             match callback (store_id self) w0 with
             | (Ok _, w') =>
                 snd (log DEBUG "调用关闭回调成功：{self.store_name}"
                          [LStr (store_name self)] w')
             | (Raise e, w') =>
                 snd (log ERROR "调用关闭回调失败：{self.store_name}, 错误：{e}"
                          [LStr (store_name self); LExn e] w')
             end
         end.
Proof.
  unfold close at 1. destruct (_closed self) eqn:Hclosed.
  - (* already closed *)
    exists self. eexists. unfold bind, log, ret. cbn [fst snd].
    split; [reflexivity|]. split; [exact Hclosed|].
    split; [|reflexivity].
    unfold close. rewrite Hclosed. reflexivity.
  - unfold bind at 1. cbn [log fst snd].
    set (w0 := mkWorld _ _ _ _ _ _).
    destruct (close_callback self) as [callback|] eqn:Hcb.
    + unfold bind at 1. unfold try_except, bind at 1.
      destruct (callback (store_id self) w0) as [[[]|e] w'];
        cbn [log ret fst snd];
        eexists _, _; (split; [reflexivity|]);
        (split; [reflexivity|]); (split; [|reflexivity]);
        unfold close; reflexivity.
    + unfold bind, ret. cbn [fst snd].
      eexists _, _. split; [reflexivity|]. split; [reflexivity|].
      split; [|reflexivity]. unfold close. reflexivity.
Qed.

(** C8 (amended).  On a closed session the [browser] property, [get_tab]
    and [navigate] raise the "session closed" ZiniaoError and DrissionPage
    is not called.  [check_ip] does not raise: without a URL it returns
    True, with one it catches the error of [get_tab] and returns False.
    [open_launcher_page] raises a ZiniaoError: for the missing URL, or the
    one that wraps the "session closed" error. *)
Theorem closed_session_operations (self : BrowserSession) :
  _closed self = true ->
  (forall w, browser self w = (Raise (ZiniaoError SessionClosed), w))
  /\ (forall index w,
         get_tab env self index w = (Raise (ZiniaoError SessionClosed), w))
  /\ (forall url wait_time w,
         navigate env self url wait_time w
         = (Raise (ZiniaoError SessionClosed),
            snd (log DEBUG "导航到：{url}" [LStr url] w)))
  /\ (forall url timeout w,
         fst (check_ip env self url timeout w)
         = Ok (negb (truthy (or_else url (ip_check_url self))))
         /\ w_driver (snd (check_ip env self url timeout w)) = w_driver w)
  /\ (forall url wait_time w,
         fst (open_launcher_page env self url wait_time w)
         = Raise (ZiniaoError
                    (if truthy (or_else url (launcher_page self))
                     then OpenLauncherFailed (ZiniaoError SessionClosed)
                     else LauncherUrlEmpty))
         /\ w_driver (snd (open_launcher_page env self url wait_time w))
            = w_driver w).
Proof.
  intros Hclosed.
  assert (Hbrowser : forall w,
             browser self w = (Raise (ZiniaoError SessionClosed), w)).
  { intros w. unfold browser. rewrite Hclosed. reflexivity. }
  assert (Htab : forall index w,
             get_tab env self index w = (Raise (ZiniaoError SessionClosed), w)).
  { intros index w. unfold get_tab.
    destruct (index =? -1); unfold bind; rewrite Hbrowser; reflexivity. }
  split; [exact Hbrowser|]. split; [exact Htab|]. split; [|split].
  - intros url wait_time w. unfold navigate, bind. cbn [log fst snd].
    rewrite Htab. reflexivity.
  - intros url timeout w. unfold check_ip.
    destruct (truthy (or_else url (ip_check_url self))) eqn:Hurl.
    + destruct (or_else url (ip_check_url self)) as [u|]; [|discriminate].
      unfold try_except, bind. cbn [log fst snd]. rewrite Htab.
      split; reflexivity.
    + split; reflexivity.
  - intros url wait_time w. unfold open_launcher_page.
    destruct (truthy (or_else url (launcher_page self))) eqn:Hurl.
    + destruct (or_else url (launcher_page self)) as [u|]; [|discriminate].
      unfold try_except, bind. cbn [log fst snd]. rewrite Htab.
      split; reflexivity.
    + split; reflexivity.
Qed.

End Sessions.

(** * Concrete runs *)

(** ** The transport client *)

(** C3, at [max_retries = 3] with the client down: four POSTs, then
    CommunicationError. *)
Lemma send_request_connection_failure_witness :
  (0 <= max_retries (Sample.client 3))
  /\ (0 <= retry_delay (Sample.client 3))
  /\ (forall k, (length (w_posts Sample.start) <= k)%nat ->
                net Sample.down k = NetConnectionError)
  /\ exists w',
      send_request Sample.down (Sample.client 3) Sample.body false Sample.start
      = (Raise (CommunicationError
                  (CannotConnect 3 16851 RequestsConnectionError)), w')
      /\ w_posts w' = replicate 4 Sample.body ++ []
      /\ length (w_posts w') = 4%nat.
Proof.
  split; [simpl; lia|]. split; [simpl; lia|].
  split; [intros k Hk; reflexivity|].
  apply (send_request_connection_failure
           Sample.down (Sample.client 3) Sample.body false Sample.start);
    [simpl; lia | simpl; lia | intros k Hk; reflexivity].
Defined.

(** C1, at [max_retries = 3] when every response carries statusCode
    -10003: four POSTs, then CommunicationError, not AuthenticationError. *)
Lemma send_request_authentication_code_witness :
  (0 <= max_retries (Sample.client 3))
  /\ (0 <= retry_delay (Sample.client 3))
  /\ statusCode (Sample.response (-10003)) = Some (-10003)
  /\ (forall k, (length (w_posts Sample.start) <= k)%nat ->
                net Sample.unauthenticated k
                = NetJson (Some (JObject (Sample.response (-10003)))))
  /\ exists w',
      send_request Sample.unauthenticated (Sample.client 3) Sample.body false
                   Sample.start
      = (Raise (CommunicationError
                  (CommunicationFailed
                     3 (AuthenticationError (Some (JObject (Sample.response (-10003))))))),
         w')
      /\ w_posts w' = replicate 4 Sample.body ++ [].
Proof.
  split; [simpl; lia|]. split; [simpl; lia|]. split; [reflexivity|].
  split; [intros k Hk; reflexivity|].
  apply (send_request_authentication_code
           Sample.unauthenticated (Sample.client 3) Sample.body false
           Sample.start (Sample.response (-10003)));
    [simpl; lia | simpl; lia | reflexivity | intros k Hk; reflexivity].
Defined.

(** The same on the very first attempt with no retry configured: one POST,
    and the failure that leaves [send_request] is a CommunicationError. *)
Example authentication_code_first_attempt :
  let '(r, w') :=
    send_request Sample.unauthenticated (Sample.client 0) Sample.body false
                 Sample.start in
  r = Raise (CommunicationError
               (CommunicationFailed
                  0 (AuthenticationError (Some (JObject (Sample.response (-10003)))))))
  /\ length (w_posts w') = 1%nat.
Proof. vm_compute. split; reflexivity. Qed.

(** With retries left the request is sent again: here the second response
    is a success, and [send_request] returns it as if nothing had happened. *)
Example authentication_code_retried :
  let env :=
    Sample.world_of (fun k =>
                       match k with
                       | O => NetJson (Some (JObject (Sample.response (-10003))))
                       | _ => NetJson (Some (JObject (Sample.response 0)))
                       end) in
  let '(r, w') :=
    send_request env (Sample.client 3) Sample.body false Sample.start in
  r = Ok (Some (JObject (Sample.response 0)))
  /\ length (w_posts w') = 2%nat
  /\ w_clock w' = 2000.
Proof. vm_compute. repeat split; reflexivity. Qed.

(** ** Request ids *)

(** C2, as stated, fails.  [get_store_list] is called while the first POST
    meets a connection error: the retry carries the requestId of the first
    attempt ("uuid-0"), so the attempts of this call do not carry pairwise
    different requestIds. *)
Lemma retry_request_id_counterexample :
  let ids :=
    request_ids (snd (get_store_list Sample.flaky (Sample.manager 1) false
                                     Sample.start)) in
  ~ (forall i j earlier later,
        (i < j)%nat ->
        ids !! j = Some earlier ->
        ids !! i = Some later ->
        later <> earlier).
Proof.
  intros ids.
  assert (Hids : ids = [Some (PStr "uuid-0"); Some (PStr "uuid-0")])
    by (vm_compute; reflexivity).
  rewrite Hids. intros H.
  apply (H 0%nat 1%nat (Some (PStr "uuid-0")) (Some (PStr "uuid-0")));
    [lia | reflexivity | reflexivity | reflexivity].
Qed.

(** C4, as stated, fails.  With [retry_on_none] set, [max_retries = 1] and
    a service that answers null for ever, [send_request] gives up after
    [max_retries + 1 = 2] POSTs, and the resend carries the requestId of the
    first send. *)
Lemma retry_on_none_counterexample :
  let run :=
    send_request Sample.not_ready (Sample.client 1) Sample.body true
                 Sample.start in
  fst run = Ok None
  /\ length (w_posts (snd run)) = 2%nat
  /\ ~ (forall i j earlier later,
           (i < j)%nat ->
           request_ids (snd run) !! j = Some earlier ->
           request_ids (snd run) !! i = Some later ->
           later <> earlier).
Proof.
  intros run.
  split; [vm_compute; reflexivity|]. split; [vm_compute; reflexivity|].
  assert (Hids : request_ids (snd run)
                 = [Some (PStr "uuid-0"); Some (PStr "uuid-0")])
    by (vm_compute; reflexivity).
  rewrite Hids. intros H.
  apply (H 0%nat 1%nat (Some (PStr "uuid-0")) (Some (PStr "uuid-0")));
    [lia | reflexivity | reflexivity | reflexivity].
Qed.

(** C4 (amended), with [max_retries = 1], a retry delay of two seconds, a
    deadline of four seconds and a service that answers null for ever. *)
Lemma retry_on_none_polling_witness :
  let self := mkClient (Sample.client 1) Sample.credentials true in
  (_started self = true)
  /\ (0 <= max_retries (client_http_client self))
  /\ (0 <= retry_delay (client_http_client self))
  /\ (forall k, (length (w_posts Sample.start) <= k)%nat ->
                net Sample.not_ready k = NetJson None)
  /\ (4000 < 2000 * Z.of_nat 3)
  /\ ((forall data, exists w1,
          send_request Sample.not_ready (client_http_client self) data true
                       Sample.start
          = (Ok None, w1)
          /\ w_posts w1
             = replicate (Z.to_nat (max_retries (client_http_client self)) + 1)
                         data ++ w_posts Sample.start
          /\ w_uuids w1 = w_uuids Sample.start
          /\ w_clock w1
             = w_clock Sample.start
               + max_retries (client_http_client self)
                 * retry_delay (client_http_client self)
               + total_latency Sample.not_ready
                   (length (w_posts Sample.start))
                   (Z.to_nat (max_retries (client_http_client self)) + 1))
      /\ exists w' j,
          update_core Sample.not_ready self 4000 4 Sample.start
          = (Raise (CoreUpdateError 4000), w')
          /\ w_posts w'
             = polling_posts Sample.not_ready self (w_uuids Sample.start) j
               ++ w_posts Sample.start
          /\ w_uuids w' = (w_uuids Sample.start + j)%nat
          /\ 4000 < w_clock w' - w_clock Sample.start
          /\ w_clock w'
             = w_clock Sample.start
               + Z.of_nat j
                 * (max_retries (client_http_client self)
                    * retry_delay (client_http_client self) + 2000)
               + total_latency Sample.not_ready
                   (length (w_posts Sample.start))
                   (j * (Z.to_nat (max_retries (client_http_client self)) + 1))).
Proof.
  intros self.
  split; [reflexivity|]. split; [simpl; lia|]. split; [simpl; lia|].
  split; [intros k Hk; reflexivity|]. split; [lia|].
  apply (retry_on_none_polling Sample.not_ready self 4000 3 Sample.start);
    [reflexivity | simpl; lia | simpl; lia | intros k Hk; reflexivity | lia].
Defined.

(** In that run [send_request] sleeps two seconds between its two POSTs,
    and [update_core] two seconds after each call: two passes, four POSTs
    (the requestIds latest first below), eight seconds. *)
Example update_core_polls_with_resends :
  let self := mkClient (Sample.client 1) Sample.credentials true in
  w_clock (snd (send_request Sample.not_ready (client_http_client self)
                             Sample.body true Sample.start)) = 2000
  /\ let '(r, w') := update_core Sample.not_ready self 4000 4 Sample.start in
     r = Raise (CoreUpdateError 4000)
     /\ request_ids w'
        = [Some (PStr "uuid-1"); Some (PStr "uuid-1");
           Some (PStr "uuid-0"); Some (PStr "uuid-0")]
     /\ w_clock w' = 8000.
Proof. vm_compute. repeat split; reflexivity. Qed.

(** With [max_retries = 0] the loop makes three passes, one POST each, with
    the requestIds "uuid-0", "uuid-1", "uuid-2" (latest first below): more
    POSTs than [max_retries + 1 = 1], ended by the deadline. *)
Example update_core_polls_until_deadline :
  let self := mkClient (Sample.client 0) Sample.credentials true in
  let '(r, w') := update_core Sample.not_ready self 4000 4 Sample.start in
  r = Raise (CoreUpdateError 4000)
  /\ request_ids w'
     = [Some (PStr "uuid-2"); Some (PStr "uuid-1"); Some (PStr "uuid-0")]
  /\ w_clock w' = 6000.
Proof. vm_compute. repeat split; reflexivity. Qed.

(** ** Closed sessions *)

(** C8, as stated, fails: on a closed session [check_ip] returns True. *)
Lemma check_ip_closed_counterexample :
  fst (check_ip Sample.down closed_sample None 60000 Sample.start) = Ok true
  /\ ~ (fst (check_ip Sample.down closed_sample None 60000 Sample.start)
        = Raise (ZiniaoError SessionClosed)).
Proof. split; [reflexivity | discriminate]. Qed.

(** With a URL the check is attempted, the "session closed" error is caught
    and False is returned. *)
Example check_ip_closed_with_url :
  fst (check_ip Sample.down closed_sample (Some "http://ip.test") 60000
                Sample.start)
  = Ok false.
Proof. reflexivity. Qed.

(** C8 (amended), on that session. *)
Lemma closed_session_operations_witness :
  _closed closed_sample = true
  /\ ((forall w,
          browser closed_sample w = (Raise (ZiniaoError SessionClosed), w))
      /\ (forall index w,
             get_tab Sample.down closed_sample index w
             = (Raise (ZiniaoError SessionClosed), w))
      /\ (forall url wait_time w,
             navigate Sample.down closed_sample url wait_time w
             = (Raise (ZiniaoError SessionClosed),
                snd (log DEBUG "导航到：{url}" [LStr url] w)))
      /\ (forall url timeout w,
             fst (check_ip Sample.down closed_sample url timeout w)
             = Ok (negb (truthy (or_else url (ip_check_url closed_sample))))
             /\ w_driver (snd (check_ip Sample.down closed_sample url timeout w))
                = w_driver w)
      /\ (forall url wait_time w,
             fst (open_launcher_page Sample.down closed_sample url wait_time w)
             = Raise (ZiniaoError
                        (if truthy (or_else url (launcher_page closed_sample))
                         then OpenLauncherFailed (ZiniaoError SessionClosed)
                         else LauncherUrlEmpty))
             /\ w_driver (snd (open_launcher_page Sample.down closed_sample
                                                  url wait_time w))
                = w_driver w)).
Proof.
  split; [reflexivity|].
  apply (closed_session_operations Sample.down closed_sample). reflexivity.
Defined.

(** ** Batches *)

(** C9, as stated, fails.  The list names "A" twice.  The first task opens
    the store, the second is refused and raises StoreOperationError; the
    name of the task that raised is nevertheless a key of the result. *)
Lemma batch_duplicate_name_counterexample :
  let results :=
    task_results opened_once (Sample.manager 0) false ∅ ["A"; "A"]
      (snd (log INFO "并发打开 {len(store_names)} 个店铺，最大并发数：{max_workers}"
                [LInt 2; LInt 3] Sample.start)) in
  match
    fst (open_stores_by_names opened_once (Sample.manager 0) ["A"; "A"] 3
                              false ∅ Sample.start)
  with
  | Ok sessions =>
      ~ (forall name r,
            In (name, r) results -> succeeded r = false ->
            sessions !! name = None)
  | Raise _ => False
  end.
Proof.
  intros results.
  assert (Hres : (fun p => (fst p, succeeded (snd p))) <$> results
                 = [("A", true); ("A", false)])
    by (vm_compute; reflexivity).
  assert (Hkey :
            match
              fst (open_stores_by_names opened_once (Sample.manager 0)
                                        ["A"; "A"] 3 false ∅ Sample.start)
            with
            | Ok sessions =>
                match sessions !! "A" with Some _ => true | None => false end
            | Raise _ => false
            end = true)
    by (vm_compute; reflexivity).
  clearbody results.
  destruct (fst (open_stores_by_names _ _ _ _ _ _ _)) as [sessions|e];
    [|discriminate].
  intros H.
  destruct results as [|[name1 r1] [|[name2 r2] rest]]; try discriminate.
  simpl in Hres. injection Hres as _ _ Hname Hfailed _.
  rewrite <- Hname in Hkey.
  rewrite (H name2 r2) in Hkey;
    [discriminate | right; left; reflexivity | exact Hfailed].
Qed.

(** C9 (amended), for the names "A", "B", "C" over that listing. *)
Lemma open_stores_by_names_result_witness :
  (0 < 2)
  /\ completion_order two_named_b ["A"; "B"; "C"] ≡ₚ ["A"; "B"; "C"]
  /\ (let results :=
        task_results two_named_b (Sample.manager 0) false ∅
          (completion_order two_named_b ["A"; "B"; "C"])
          (snd (log INFO "并发打开 {len(store_names)} 个店铺，最大并发数：{max_workers}"
                    [LInt (Z.of_nat (length ["A"; "B"; "C"])); LInt 2]
                    Sample.start)) in
      fst <$> results ≡ₚ ["A"; "B"; "C"]
      /\ exists sessions w',
          open_stores_by_names two_named_b (Sample.manager 0) ["A"; "B"; "C"] 2
                               false ∅ Sample.start
          = (Ok sessions, w')
          /\ (forall name session,
                 sessions !! name = Some session ->
                 In (name, Ok session) results)
          /\ (forall name,
                 is_Some (sessions !! name) <->
                 exists session, In (name, Ok session) results)
          /\ (forall name,
                 (forall r, In (name, r) results -> exists e, r = Raise e) ->
                 sessions !! name = None)).
Proof.
  split; [lia|]. split; [reflexivity|].
  apply (open_stores_by_names_result two_named_b (Sample.manager 0)
           ["A"; "B"; "C"] 2 false ∅ Sample.start); [lia | reflexivity].
Defined.

(** In that run "B" is ambiguous and the result has exactly the keys "A"
    and "C". *)
Example batch_keys :
  match
    fst (open_stores_by_names two_named_b (Sample.manager 0) ["A"; "B"; "C"] 2
                              false ∅ Sample.start)
  with
  | Ok sessions =>
      (size sessions,
       (fun name => match sessions !! name with
                    | Some _ => true
                    | None => false
                    end) <$> ["A"; "B"; "C"])
  | Raise _ => (0%nat, [])
  end = (2%nat, [true; false; true]).
Proof. vm_compute. reflexivity. Qed.

Example batch_task_b :
  fst (open_store_by_name two_named_b (Sample.manager 0) "B" false ∅
         (mkWorld [] 0 0 [] []
            (Some [Sample.store "oauth-a" "A"; Sample.store "oauth-b1" "B";
                   Sample.store "oauth-b2" "B"; Sample.store "oauth-c" "C"])))
  = Raise (MultipleStoresFoundError "B" 2 ["B"; "B"]).
Proof. vm_compute. reflexivity. Qed.

(** ** Searches *)

(** Equality is case-insensitive but a trailing space counts. *)
Example search_exact_trailing_space :
  fst (find_stores_by_name Sample.down (Sample.manager 0) "Store One" true true
         (cached [Sample.store "o1" "Store One"; Sample.store "o2" "store one "]))
  = Ok [Sample.store "o1" "Store One"].
Proof. vm_compute. reflexivity. Qed.

Example search_exact_ignores_case :
  fst (find_stores_by_name Sample.down (Sample.manager 0) "STORE one" true true
         (cached [Sample.store "o1" "Store One"; Sample.store "o2" "store one "]))
  = Ok [Sample.store "o1" "Store One"].
Proof. vm_compute. reflexivity. Qed.

Example search_fuzzy :
  fst (find_stores_by_name Sample.down (Sample.manager 0) "amazon" false true
         (cached [Sample.store "o1" "My Amazon Shop"; Sample.store "o2" "Foo Bar"]))
  = Ok [Sample.store "o1" "My Amazon Shop"].
Proof. vm_compute. reflexivity. Qed.

(** Matches keep the order of the listing and are not merged. *)
Example search_keeps_order_and_duplicates :
  fst (find_stores_by_name Sample.down (Sample.manager 0) "shop" false true
         (cached [Sample.store "o2" "Shop B"; Sample.store "o1" "Shop A";
                  Sample.store "o3" "Other"; Sample.store "o2" "Shop B"]))
  = Ok [Sample.store "o2" "Shop B"; Sample.store "o1" "Shop A";
        Sample.store "o2" "Shop B"].
Proof. vm_compute. reflexivity. Qed.

Example open_by_name_ambiguous :
  fst (open_store_by_name Sample.down (Sample.manager 0) "Shop" false ∅
         (cached [Sample.store "o1" "Shop"; Sample.store "o2" "Shop"]))
  = Raise (MultipleStoresFoundError "Shop" 2 ["Shop"; "Shop"]).
Proof. vm_compute. reflexivity. Qed.

Example open_by_name_not_found :
  fst (open_store_by_name Sample.down (Sample.manager 0) "X" false ∅
         (cached [Sample.store "o1" "Shop"]))
  = Raise (StoreNotFoundError "X" "名称").
Proof. vm_compute. reflexivity. Qed.

Example open_by_name_without_oauth :
  fst (open_store_by_name Sample.down (Sample.manager 0) "Shop" false ∅
         (cached [mkStore None (Some "Shop") None None None None]))
  = Raise (StoreOperationError "打开" "Shop" None (Some "店铺 OAuth 标识为空")).
Proof. vm_compute. reflexivity. Qed.

(** ** The cache *)

(** A refused listing leaves the cache as it was. *)
Example listing_refused_keeps_cache :
  let env := Sample.world_of (fun _ => NetJson (Some (JObject (Sample.response 7)))) in
  let listing := [Sample.store "o1" "Shop"] in
  let '(r, w') :=
    get_store_list env (Sample.manager 0) false (cached listing) in
  r = Raise (StoreOperationError "获取列表" "all" (Some 7) (Some "未知错误"))
  /\ w_cache w' = Some listing.
Proof. vm_compute. split; reflexivity. Qed.

(** ** Closing *)

(** A session whose callback is the one [open_store] installs, with the
    client down: the callback raises, [close] returns, the session is
    closed, and the second [close] posts nothing. *)
Example close_with_failing_callback :
  let session :=
    mkSession (Some 9222) "oauth-1" "Store One" None None
              (Some (fun sid => close_store Sample.down (Sample.manager 0) sid))
              (Some (mkChromium (Some 9222))) false in
  let '(r1, w1) := close session Sample.start in
  match r1 with
  | Ok closed =>
      let '(r2, w2) := close closed w1 in
      _closed closed = true
      /\ succeeded r2 = true
      /\ length (w_posts w1) = 1%nat
      /\ length (w_posts w2) = 1%nat
      /\ w_uuids w2 = 1%nat
      /\ levelname <$> head (w_log w1) = Some ERROR
  | Raise _ => False
  end.
Proof. vm_compute. repeat split; reflexivity. Qed.

(** * Further properties of the code *)

(** ** The transport client *)

Section TransportMore.

Variable env : Env.

Lemma attempt_timeout self data retry_on_none action last attempt w :
  0 <= retry_delay self ->
  net env (length (w_posts w)) = NetTimeout ->
  fst (send_request_attempt env self data retry_on_none action last attempt w)
  = if attempt <? max_retries self
    then Ok (Continue (Some RequestsTimeout))
    else Raise (ZiniaoTimeoutError (max_retries self) RequestsTimeout).
Proof.
  intros Hdelay Hnet.
  unfold send_request_attempt, try_except, bind, post_json. rewrite Hnet.
  unfold log, sleep, ret, raise. simpl.
  destruct (attempt <? max_retries self); simpl; [|reflexivity].
  destruct (Z.ltb_spec (retry_delay self) 0); [lia | reflexivity].
Qed.

(** X1.  When every POST times out, [send_request] posts the request
    [max_retries + 1] times and then raises the package's TimeoutError,
    carrying the number of retries and the timeout of [requests]. *)
Theorem send_request_timeout self data retry_on_none w :
  0 <= max_retries self ->
  0 <= retry_delay self ->
  (forall k, (length (w_posts w) <= k)%nat -> net env k = NetTimeout) ->
  exists w',
    send_request env self data retry_on_none w
    = (Raise (ZiniaoTimeoutError (max_retries self) RequestsTimeout), w')
    /\ w_posts w' = replicate (Z.to_nat (max_retries self) + 1) data ++ w_posts w.
Proof.
  intros HN Hdelay Hnet.
  destruct (send_request_exhausts env self data retry_on_none NetTimeout
              (fun _ => Some RequestsTimeout)
              (Raise (ZiniaoTimeoutError (max_retries self) RequestsTimeout)) w)
    as (w' & Hrun & Hp); try assumption; [congruence | |].
  - intros last attempt w1. now apply attempt_timeout.
  - exists w'. split; [exact Hrun | exact (posted_posts _ _ _ _ Hp)].
Qed.

(** The first pass of the loop decides when it does not continue. *)
Lemma send_request_first_pass self data retry_on_none w r w1 :
  0 <= max_retries self ->
  send_request_attempt env self data retry_on_none
    (get data "action" (PStr "unknown")) None 0
    (snd (log DEBUG "发送请求：action={action}, requestId={request_id}"
              [LStr (str (get data "action" (PStr "unknown")));
               LStr (str (get data "requestId" (PStr "unknown")))] w))
  = (r, w1) ->
  (forall l, r <> Ok (Continue l)) ->
  send_request env self data retry_on_none w = (flow_result r, w1).
Proof.
  intros HN Hatt Hstop.
  unfold send_request, bind. cbn [log fst snd] in *.
  unfold range.
  replace (Z.to_nat (max_retries self + 1)) with (S (Z.to_nat (max_retries self)))
    by lia.
  cbn [seq fmap list_fmap send_request_loop]. unfold bind.
  change (Z.of_nat 0) with 0. rewrite Hatt.
  destruct r as [[l|result]|e]; try reflexivity.
  exfalso. exact (Hstop l eq_refl).
Qed.

(** X2.  A response that is not JSON ends the call at once, whatever
    retries are left: one POST, no sleep (the clock moves by the time the
    POST took), and CommunicationError for the parse failure. *)
Theorem send_request_malformed_response self data retry_on_none w :
  0 <= max_retries self ->
  net env (length (w_posts w)) = NetBadJson ->
  exists w',
    send_request env self data retry_on_none w
    = (Raise (CommunicationError (JsonParseFailed JSONDecodeError)), w')
    /\ w_posts w' = data :: w_posts w
    /\ w_clock w' = w_clock w + Z.of_N (latency env (length (w_posts w))).
Proof.
  intros HN Hnet.
  eexists. split.
  - apply (send_request_first_pass self data retry_on_none w
             (Raise (CommunicationError (JsonParseFailed JSONDecodeError))));
      [exact HN | | congruence].
    unfold send_request_attempt, try_except, bind, post_json.
    cbn [log fst snd w_posts]. rewrite Hnet. reflexivity.
  - split; reflexivity.
Qed.

(** X3.  A response whose status code is not the authentication code is
    returned as it is, zero or not, present or not: one POST, no sleep. *)
Theorem send_request_returns_first_response self data retry_on_none w resp :
  0 <= max_retries self ->
  net env (length (w_posts w)) = NetJson (Some (JObject resp)) ->
  statusCode resp <> Some (-10003) ->
  exists w',
    send_request env self data retry_on_none w = (Ok (Some (JObject resp)), w')
    /\ w_posts w' = data :: w_posts w
    /\ w_clock w' = w_clock w + Z.of_N (latency env (length (w_posts w))).
Proof.
  intros HN Hnet Hcode.
  eexists. split.
  - apply (send_request_first_pass self data retry_on_none w
             (Ok (Return (Some (JObject resp))))); [exact HN | | congruence].
    unfold send_request_attempt, try_except, bind, post_json.
    cbn [log fst snd w_posts]. rewrite Hnet. cbn [andb].
    unfold ret at 1. cbv beta iota.
    rewrite bool_decide_eq_false_2 by exact Hcode. reflexivity.
  - split; reflexivity.
Qed.

(** What one pass of the loop can end in. *)
Lemma attempt_outcomes self data retry_on_none action last attempt w r w' :
  send_request_attempt env self data retry_on_none action last attempt w = (r, w') ->
  match r with
  | Ok (Continue _) => True
  | Ok (Return (Some (JObject resp))) => statusCode resp <> Some (-10003)
  | Ok (Return (Some (JOther truth))) => truth = false
  | Ok (Return None) => True
  | Raise e =>
      (exists m, e = CommunicationError m)
      \/ (exists cause, e = ZiniaoTimeoutError (max_retries self) cause)
      \/ (e = ValueError /\ retry_delay self < 0)
  end.
Proof.
  unfold send_request_attempt, try_except, bind, post_json. intros H.
  destruct (net env (length (w_posts w))) as [| | | |[[resp|[|]]|]];
    unfold log, sleep, ret, raise in H; simpl in H;
    repeat match type of H with
           | context [if bool_decide ?P then _ else _] =>
               destruct (bool_decide_reflect P); simpl in H
           | context [if ?c <? ?d then _ else _] =>
               destruct (Z.ltb_spec c d); simpl in H
           | context [if ?c then _ else _] => destruct c eqn:?; simpl in H
           end;
    inversion H; subst; eauto 6.
Qed.

(** The failures of [send_request], and the status of what it returns. *)
Lemma send_request_result self data retry_on_none w r w' :
  send_request env self data retry_on_none w = (r, w') ->
  match r with
  | Ok (Some (JObject resp)) => statusCode resp <> Some (-10003)
  | Ok (Some (JOther truth)) => truth = false
  | Ok None => True
  | Raise e =>
      (exists m, e = CommunicationError m)
      \/ (exists cause, e = ZiniaoTimeoutError (max_retries self) cause)
      \/ (e = ValueError /\ retry_delay self < 0)
  end.
Proof.
  unfold send_request, bind. cbn [log fst snd].
  generalize (mkWorld (w_posts w) (w_uuids w) (w_clock w)
                (mkLog DEBUG "发送请求：action={action}, requestId={request_id}"
                       [LStr (str (get data "action" (PStr "unknown")));
                        LStr (str (get data "requestId" (PStr "unknown")))]
                 :: w_log w) (w_driver w) (w_cache w)).
  generalize (@None Exn).
  generalize (range (max_retries self + 1)).
  intros attempts. revert r w'.
  induction attempts as [|attempt rest IH]; intros r w' last w0 H; simpl in H.
  - destruct last; inversion H; subst; eauto.
  - unfold bind in H.
    destruct (send_request_attempt _ _ _ _ _ _ _ _) as [[flow|e] w1] eqn:Hatt;
      apply attempt_outcomes in Hatt.
    + destruct flow as [last'|result].
      * eapply IH; eauto.
      * inversion H; subst. destruct result as [[resp|truth]|]; exact Hatt.
    + inversion H; subst. exact Hatt.
Qed.

Lemma sleep_raises_negative d : d < 0 -> sleep_raises d ValueError.
Proof.
  intros Hd. exists (mkWorld [] 0 0 [] [] None). unfold sleep.
  destruct (Z.ltb_spec d 0); [reflexivity | lia].
Qed.

Lemma send_request_fails self data retry_on_none w e w' :
  send_request env self data retry_on_none w = (Raise e, w') ->
  send_request_failure self e.
Proof.
  intros H. apply send_request_result in H.
  destruct H as [H | [H | [-> H]]]; [left | right; left | right; right]; auto.
  apply sleep_raises_negative. exact H.
Qed.

(** X4.  What can come out of [send_request].  A value that is returned is
    what one of the POSTs of the call received, and is null, an object
    whose statusCode is not the authentication code, or a JSON value that
    is no object and counts as false ([[]], [0], [false], the empty
    string); one that counts as true is never returned (it has no [get]).
    A failure is a CommunicationError, the package's TimeoutError, or what
    [time.sleep] raises on [retry_delay]. *)
Theorem send_request_outcomes self data retry_on_none w :
  match send_request env self data retry_on_none w with
  | (Ok (Some value), w') =>
      (exists k, (length (w_posts w) <= k < length (w_posts w'))%nat
                 /\ net env k = NetJson (Some value))
      /\ match value with
         | JObject resp => statusCode resp <> Some (-10003)
         | JOther truth => truth = false
         end
  | (Ok None, _) => True
  | (Raise e, _) => send_request_failure self e
  end.
Proof.
  destruct (send_request env self data retry_on_none w) as [r w'] eqn:Hrun.
  pose proof (send_request_result _ _ _ _ _ _ Hrun) as Hres.
  destruct r as [[value|]|e]; [| exact I | exact (send_request_fails _ _ _ _ _ _ Hrun)].
  split; [exact (send_request_returns _ _ _ _ _ _ _ Hrun)|].
  destruct value; exact Hres.
Qed.

(** X5.  With a negative [max_retries] the loop has no pass: nothing is
    posted and None is returned. *)
Theorem send_request_without_attempts self data retry_on_none w :
  max_retries self < 0 ->
  send_request env self data retry_on_none w
  = (Ok None,
     snd (log DEBUG "发送请求：action={action}, requestId={request_id}"
              [LStr (str (get data "action" (PStr "unknown")));
               LStr (str (get data "requestId" (PStr "unknown")))] w)).
Proof.
  intros HN. unfold send_request, bind. cbn [log fst snd].
  unfold range. replace (Z.to_nat (max_retries self + 1)) with 0%nat by lia.
  reflexivity.
Qed.

(** *** Recovery *)

Lemma attempt_transient self data retry_on_none action last attempt w r w' :
  0 <= retry_delay self ->
  attempt < max_retries self ->
  transient (net env (length (w_posts w))) = true ->
  send_request_attempt env self data retry_on_none action last attempt w = (r, w') ->
  (exists e, r = Ok (Continue (Some e)))
  /\ w_posts w' = data :: w_posts w
  /\ w_clock w'
     = w_clock w + Z.of_N (latency env (length (w_posts w))) + retry_delay self.
Proof.
  intros Hdelay Hleft Htransient.
  unfold send_request_attempt, try_except, bind, post_json.
  destruct (net env (length (w_posts w))); try discriminate;
    unfold log, sleep, ret, raise; simpl;
    destruct (Z.ltb_spec attempt (max_retries self)); try lia; simpl;
    destruct (Z.ltb_spec (retry_delay self) 0); try lia;
    intros [= <- <-]; simpl; eauto.
Qed.

Lemma attempt_response self data retry_on_none action last attempt w resp :
  net env (length (w_posts w)) = NetJson (Some (JObject resp)) ->
  statusCode resp <> Some (-10003) ->
  exists w',
    send_request_attempt env self data retry_on_none action last attempt w
    = (Ok (Return (Some (JObject resp))), w')
    /\ w_posts w' = data :: w_posts w
    /\ w_clock w' = w_clock w + Z.of_N (latency env (length (w_posts w))).
Proof.
  intros Hnet Hcode.
  unfold send_request_attempt, try_except, bind, post_json. rewrite Hnet.
  cbn [andb]. unfold ret at 1. cbv beta iota.
  rewrite bool_decide_eq_false_2 by exact Hcode.
  eexists. split; [reflexivity|]. split; reflexivity.
Qed.

Lemma loop_recovers self data retry_on_none action resp i :
  0 <= retry_delay self ->
  statusCode resp <> Some (-10003) ->
  forall a n last w,
    Z.of_nat a + Z.of_nat n = max_retries self + 1 ->
    (i < n)%nat ->
    (forall k, (k < i)%nat ->
               transient (net env (length (w_posts w) + k)) = true) ->
    net env (length (w_posts w) + i) = NetJson (Some (JObject resp)) ->
    exists w',
      send_request_loop env self data retry_on_none action last
                        (Z.of_nat <$> seq a n) w
      = (Ok (Some (JObject resp)), w')
      /\ w_posts w' = replicate (S i) data ++ w_posts w
      /\ w_clock w'
         = w_clock w + Z.of_nat i * retry_delay self
           + total_latency env (length (w_posts w)) (S i).
Proof.
  intros Hdelay Hcode.
  induction i as [|i IH]; intros a n last w Hsum Hi Htransient Hnet.
  - (* the response arrives on this pass *)
    destruct n as [|n]; [lia|].
    cbn [seq fmap list_fmap send_request_loop]. unfold bind.
    rewrite Nat.add_0_r in Hnet.
    destruct (attempt_response self data retry_on_none action last
                (Z.of_nat a) w resp Hnet Hcode) as (w' & Hatt & Hposts & Hclock).
    rewrite Hatt. exists w'. split; [reflexivity|]. split; [exact Hposts|].
    rewrite Hclock. simpl. lia.
  - (* this pass fails and the loop goes on *)
    destruct n as [|n]; [lia|].
    change (Z.of_nat <$> seq a (S n))
      with (Z.of_nat a :: (Z.of_nat <$> seq (S a) n)).
    cbn [send_request_loop]. unfold bind.
    destruct (send_request_attempt _ _ _ _ _ _ _ _) as [r w1] eqn:Hatt.
    apply attempt_transient in Hatt as ([e ->] & Hposts & Hclock);
      [| exact Hdelay | lia
       | specialize (Htransient 0%nat); rewrite Nat.add_0_r in Htransient;
         apply Htransient; lia].
    destruct (IH (S a) n (Some e) w1) as (w' & Hloop & Hposts' & Hclock');
      [lia | lia | | |].
    + intros k Hk. rewrite Hposts. simpl.
      replace (S (length (w_posts w) + k)) with (length (w_posts w) + S k)%nat
        by lia.
      apply Htransient. lia.
    + rewrite Hposts. simpl.
      replace (S (length (w_posts w) + i)) with (length (w_posts w) + S i)%nat
        by lia.
      exact Hnet.
    + exists w'. split; [exact Hloop|]. split.
      * rewrite Hposts', Hposts.
        rewrite (cons_middle data), app_assoc, <- replicate_S_end.
        reflexivity.
      * rewrite Hclock', Hclock, Hposts.
        change (total_latency env (length (w_posts w)) (S (S i)))
          with (Z.of_N (latency env (length (w_posts w)))
                + total_latency env (S (length (w_posts w))) (S i)).
        simpl length. lia.
Qed.

(** X6.  Retrying works: when the first [i] POSTs of a call (with
    [i <= max_retries]) meet a timeout, a connection error or another
    exception of [requests] and the next one receives a response, that
    response is returned after [i + 1] POSTs of the same body; the call
    has slept [retry_delay] once after each failure, no more. *)
Theorem send_request_recovers self data retry_on_none w resp (i : nat) :
  0 <= retry_delay self ->
  Z.of_nat i <= max_retries self ->
  statusCode resp <> Some (-10003) ->
  (forall k, (k < i)%nat ->
             transient (net env (length (w_posts w) + k)) = true) ->
  net env (length (w_posts w) + i) = NetJson (Some (JObject resp)) ->
  exists w',
    send_request env self data retry_on_none w = (Ok (Some (JObject resp)), w')
    /\ w_posts w' = replicate (S i) data ++ w_posts w
    /\ w_clock w'
       = w_clock w + Z.of_nat i * retry_delay self
         + total_latency env (length (w_posts w)) (S i).
Proof.
  intros Hdelay Hi Hcode Htransient Hnet.
  unfold send_request, bind. cbn [log fst snd].
  set (w0 := mkWorld _ _ _ _ _ _).
  unfold range.
  destruct (loop_recovers self data retry_on_none
              (get data "action" (PStr "unknown")) resp i Hdelay Hcode
              0%nat (Z.to_nat (max_retries self + 1)) None w0)
    as (w' & Hloop & Hposts & Hclock); try assumption; try lia.
  exists w'. auto.
Qed.

End TransportMore.

(** ** The browser session *)

Section SessionsMore.

Variable env : Env.

(** [BrowserSession.__init__] either connects and gives an open session
    that holds what it was given, or raises the ZiniaoError that wraps the
    failure of [Chromium(port)]; DrissionPage is called once. *)
Lemma BrowserSession_init_outcomes port store_id store_name ip_check_url
    launcher_page close_callback w :
  match
    BrowserSession_init env port store_id store_name ip_check_url launcher_page
                        close_callback w
  with
  | (Ok session, w') =>
      chromium env (length (w_driver w)) = None
      /\ session = mkSession port store_id store_name ip_check_url launcher_page
                             close_callback (Some (mkChromium port)) false
      /\ w_driver w' = CallChromium port :: w_driver w
  | (Raise e, w') =>
      (exists cause,
          chromium env (length (w_driver w)) = Some cause
          /\ e = ZiniaoError (ConnectBrowserFailed cause))
      /\ w_driver w' = CallChromium port :: w_driver w
  end.
Proof.
  unfold BrowserSession_init, try_except, bind, driver, unit_answer.
  cbn [log fst snd w_driver].
  destruct (chromium env (length (w_driver w))) as [cause|]; simpl; eauto.
Qed.

Lemma check_ip_total (self : BrowserSession) url timeout w :
  exists ok w', check_ip env self url timeout w = (Ok ok, w').
Proof.
  unfold check_ip.
  destruct (truthy (or_else url (ip_check_url self))).
  - destruct (or_else url (ip_check_url self)) as [u|];
      [|unfold bind, log, ret; simpl; eauto].
    unfold try_except.
    match goal with
    | |- context [?c w] => destruct (c w) as [[ok|e] w1]
    end; simpl; eauto.
  - unfold bind, log, ret. simpl. eauto.
Qed.

Lemma open_launcher_page_raises (self : BrowserSession) url wait_time w e w' :
  open_launcher_page env self url wait_time w = (Raise e, w') ->
  (e = ZiniaoError LauncherUrlEmpty
   /\ truthy (or_else url (launcher_page self)) = false)
  \/ (exists cause, e = ZiniaoError (OpenLauncherFailed cause)
                    /\ truthy (or_else url (launcher_page self)) = true).
Proof.
  unfold open_launcher_page.
  destruct (truthy (or_else url (launcher_page self))) eqn:Hurl.
  - destruct (or_else url (launcher_page self)) as [u|]; [|discriminate].
    unfold try_except.
    match goal with
    | |- context [?c w] => destruct (c w) as [[[]|e1] w1]
    end; simpl; intros [= <- <-]; eauto.
  - unfold raise. intros [= <- <-]. eauto.
Qed.

(** X7.  [check_ip] never raises, on any session and whatever DrissionPage
    does.  Without a URL (neither the argument nor the session has one) it
    returns True and leaves the browser alone.  With a URL it returns True
    only when the session is open and, in this very call, the latest tab
    was obtained, the page was loaded and the search for the success
    button found it: these are the three calls to DrissionPage that the
    call adds to the trace. *)
Theorem check_ip_never_raises (self : BrowserSession) url timeout w :
  exists ok w',
    check_ip env self url timeout w = (Ok ok, w')
    /\ (truthy (or_else url (ip_check_url self)) = false ->
        ok = true /\ w_driver w' = w_driver w)
    /\ (truthy (or_else url (ip_check_url self)) = true ->
        ok = true ->
        exists target b tab,
          or_else url (ip_check_url self) = Some target
          /\ _closed self = false
          /\ _browser self = Some b
          /\ latest_tab env (length (w_driver w)) = inr tab
          /\ tab_get env (S (length (w_driver w))) = None
          /\ tab_ele env (S (S (length (w_driver w)))) = inr true
          /\ w_driver w'
             = [CallTabEle tab timeout; CallTabGet tab target;
                CallLatestTab (address b)] ++ w_driver w).
Proof.
  unfold check_ip.
  destruct (truthy (or_else url (ip_check_url self))) eqn:Hurl.
  - destruct (or_else url (ip_check_url self)) as [target|]; [|discriminate].
    unfold try_except, bind. cbn [log fst snd].
    set (w0 := mkWorld _ _ _ _ _ _).
    unfold get_tab. cbn [Z.eqb Z.opp Pos.eqb]. unfold bind, browser.
    destruct (_closed self);
      [eexists _, _; (split; [reflexivity|]); split; discriminate|].
    destruct (_browser self) as [b|];
      [|eexists _, _; (split; [reflexivity|]); split; discriminate].
    unfold ret at 1. unfold driver at 1. cbn [w_driver w0].
    destruct (latest_tab env (length (w_driver w))) as [e|tab] eqn:Htab;
      [eexists _, _; (split; [reflexivity|]); split; discriminate|].
    unfold driver at 1. unfold unit_answer. cbn [w_driver length].
    destruct (tab_get env (S (length (w_driver w)))) as [e|] eqn:Hget;
      [eexists _, _; (split; [reflexivity|]); split; discriminate|].
    unfold driver at 1. cbn [w_driver length].
    destruct (tab_ele env (S (S (length (w_driver w))))) as [e|found] eqn:Hele;
      [eexists _, _; (split; [reflexivity|]); split; discriminate|].
    destruct found;
      [|eexists _, _; (split; [reflexivity|]); split; discriminate].
    cbn [log ret fst snd].
    eexists _, _. split; [reflexivity|]. split; [discriminate|].
    intros _ _. exists target, b, tab. simpl. auto 10.
  - unfold bind, log, ret. cbn [fst snd].
    eexists _, _. split; [reflexivity|]. split; [|discriminate].
    intros _. simpl. auto.
Qed.

(** [get_tab] with an index other than -1 on an open session asks for
    the tabs and applies no negative indexing: it returns [tabs[index]] for
    [0 <= index < len(tabs)] and raises IndexError for every other index. *)
Lemma get_tab_by_index (self : BrowserSession) b index tabs_now w :
  _closed self = false ->
  _browser self = Some b ->
  index <> -1 ->
  tabs env (length (w_driver w)) = inr tabs_now ->
  fst (get_tab env self index w)
  = if (0 <=? index) && (index <? Z.of_nat (length tabs_now))
    then match tabs_now !! Z.to_nat index with
         | Some tab => Ok tab
         | None => Raise (IndexError index)
         end
    else Raise (IndexError index).
Proof.
  intros Hopen Hb Hindex Htabs.
  unfold get_tab, browser, bind, driver. rewrite Hopen, Hb.
  destruct (Z.eqb_spec index (-1)); [contradiction|].
  cbn [ret fst snd]. rewrite Htabs.
  destruct ((0 <=? index) && (index <? Z.of_nat (length tabs_now)));
    [|reflexivity].
  destruct (tabs_now !! Z.to_nat index); reflexivity.
Qed.

(** X8.  [get_tab] on an open session, with an index other than -1, asks
    DrissionPage for the tabs and does no negative indexing: for
    [0 <= index < len(tabs)] it returns [tabs[index]], for every other index
    it raises IndexError. *)
Theorem get_tab_bounds (self : BrowserSession) b index tabs_now w :
  _closed self = false ->
  _browser self = Some b ->
  index <> -1 ->
  tabs env (length (w_driver w)) = inr tabs_now ->
  (0 <= index < Z.of_nat (length tabs_now) ->
   exists tab, tabs_now !! Z.to_nat index = Some tab
               /\ fst (get_tab env self index w) = Ok tab)
  /\ (~ 0 <= index < Z.of_nat (length tabs_now) ->
      fst (get_tab env self index w) = Raise (IndexError index)).
Proof.
  intros Hopen Hb Hindex Htabs.
  rewrite (get_tab_by_index self b index tabs_now w) by assumption.
  split.
  - intros Hrange.
    destruct (lookup_lt_is_Some_2 tabs_now (Z.to_nat index)) as [tab Htab]; [lia|].
    exists tab. split; [exact Htab|].
    destruct (Z.leb_spec 0 index); [|lia].
    destruct (Z.ltb_spec index (Z.of_nat (length tabs_now))); [|lia].
    simpl. rewrite Htab. reflexivity.
  - intros Hout.
    destruct (Z.leb_spec 0 index);
      destruct (Z.ltb_spec index (Z.of_nat (length tabs_now)));
      simpl; try reflexivity; lia.
Qed.

(** X9.  [open_launcher_page] raises nothing but ZiniaoError: for the
    missing URL before anything is done, and otherwise wrapping whatever
    failed while the page was being opened. *)
Theorem open_launcher_page_outcomes (self : BrowserSession) url wait_time w :
  match fst (open_launcher_page env self url wait_time w) with
  | Ok _ => truthy (or_else url (launcher_page self)) = true
  | Raise e =>
      (e = ZiniaoError LauncherUrlEmpty
       /\ truthy (or_else url (launcher_page self)) = false)
      \/ (exists cause, e = ZiniaoError (OpenLauncherFailed cause)
                        /\ truthy (or_else url (launcher_page self)) = true)
  end.
Proof.
  unfold open_launcher_page.
  destruct (truthy (or_else url (launcher_page self))) eqn:Hurl.
  - destruct (or_else url (launcher_page self)) as [u|]; [|discriminate].
    unfold try_except.
    match goal with
    | |- context [?c w] => destruct (c w) as [[[]|e] w1]
    end; simpl; eauto.
  - simpl. eauto.
Qed.

(** X10.  Closed is final.  After [close], on any session, the session is
    closed and stays closed under further [close] calls, and [get_tab],
    [navigate] and the [browser] property raise the "session closed"
    error without calling DrissionPage. *)
Theorem close_is_final (self : BrowserSession) w :
  exists closed w1,
    close self w = (Ok closed, w1)
    /\ is_closed closed = true
    /\ (forall w2, exists w3, close closed w2 = (Ok closed, w3)
                              /\ w_driver w3 = w_driver w2
                              /\ w_posts w3 = w_posts w2)
    /\ (forall index w2,
           get_tab env closed index w2 = (Raise (ZiniaoError SessionClosed), w2))
    /\ (forall url wait_time w2,
           fst (navigate env closed url wait_time w2)
           = Raise (ZiniaoError SessionClosed)
           /\ w_driver (snd (navigate env closed url wait_time w2)) = w_driver w2)
    /\ (forall w2, browser closed w2 = (Raise (ZiniaoError SessionClosed), w2)).
Proof.
  assert (Hops : forall closed : BrowserSession,
             _closed closed = true ->
             (forall w2, exists w3, close closed w2 = (Ok closed, w3)
                                    /\ w_driver w3 = w_driver w2
                                    /\ w_posts w3 = w_posts w2)
             /\ (forall index w2,
                    get_tab env closed index w2
                    = (Raise (ZiniaoError SessionClosed), w2))
             /\ (forall url wait_time w2,
                    fst (navigate env closed url wait_time w2)
                    = Raise (ZiniaoError SessionClosed)
                    /\ w_driver (snd (navigate env closed url wait_time w2))
                       = w_driver w2)
             /\ (forall w2,
                    browser closed w2 = (Raise (ZiniaoError SessionClosed), w2))).
  { intros closed Hclosed.
    assert (Hbrowser : forall w2,
               browser closed w2 = (Raise (ZiniaoError SessionClosed), w2))
      by (intros w2; unfold browser; rewrite Hclosed; reflexivity).
    assert (Htab : forall index w2,
               get_tab env closed index w2
               = (Raise (ZiniaoError SessionClosed), w2)).
    { intros index w2. unfold get_tab.
      destruct (index =? -1); unfold bind; rewrite Hbrowser; reflexivity. }
    split; [|split; [exact Htab | split; [|exact Hbrowser]]].
    - intros w2. unfold close. rewrite Hclosed. unfold bind, log, ret. simpl.
      eauto.
    - intros url wait_time w2. unfold navigate, bind. cbn [log fst snd].
      rewrite Htab. split; reflexivity. }
  unfold close at 1. destruct (_closed self) eqn:Hclosed.
  - exists self. eexists. unfold bind, log, ret. cbn [fst snd].
    split; [reflexivity|]. split; [exact Hclosed|]. apply Hops. exact Hclosed.
  - unfold bind at 1. cbn [log fst snd].
    set (w0 := mkWorld _ _ _ _ _ _).
    destruct (close_callback self) as [callback|].
    + unfold bind at 1. unfold try_except, bind at 1.
      destruct (callback (store_id self) w0) as [[[]|e] w'];
        cbn [log ret fst snd];
        eexists _, _; (split; [reflexivity|]); (split; [reflexivity|]);
        apply Hops; reflexivity.
    + unfold bind, ret. cbn [fst snd].
      eexists _, _. split; [reflexivity|]. split; [reflexivity|].
      apply Hops. reflexivity.
Qed.

End SessionsMore.

(** ** The store manager *)

Section StoresMore.

Variable env : Env.

(** A listing that was returned is the listing in the cache. *)
Lemma get_store_list_caches (self : StoreManager) use_cache w store_list w' :
  get_store_list env self use_cache w = (Ok store_list, w') ->
  w_cache w' = Some store_list.
Proof.
  unfold get_store_list. unfold bind at 1. unfold get_cache at 1.
  destruct (if use_cache then w_cache w else None) as [cached|] eqn:Hhit.
  - unfold bind, log, ret. simpl. intros [= <- <-]. simpl.
    destruct use_cache; [exact Hhit | discriminate].
  - unfold bind at 1. unfold uuid at 1. unfold bind at 1. cbn [log fst snd].
    unfold bind at 1.
    destruct (send_request _ _ _ _ _) as [[[[resp|truth]|]|e] w2];
      try discriminate.
    unfold bind at 1. cbn [as_dict ret].
    case_bool_decide.
    + unfold bind, log, set_cache, ret. simpl. intros [= <- <-]. reflexivity.
    + unfold bind, log, raise. simpl. discriminate.
Qed.

(** X11.  The cache round trip: once [get_store_list] has returned a
    listing, a call with [use_cache=True] returns that same listing without
    sending a request or drawing a uuid, and leaves the cache as it is. *)
Theorem get_store_list_then_cached (self : StoreManager) use_cache w store_list
    w' :
  get_store_list env self use_cache w = (Ok store_list, w') ->
  exists w'',
    get_store_list env self true w' = (Ok store_list, w'')
    /\ w_posts w'' = w_posts w'
    /\ w_uuids w'' = w_uuids w'
    /\ w_cache w'' = Some store_list.
Proof.
  intros H. apply get_store_list_caches in H.
  unfold get_store_list, bind, get_cache, log, ret. rewrite H. simpl.
  eexists. split; [reflexivity|]. auto.
Qed.

Lemma get_store_list_asks_run (self : StoreManager) use_cache w r w' :
  0 <= max_retries (http_client self) ->
  use_cache = false \/ w_cache w = None ->
  get_store_list env self use_cache w = (r, w') ->
  exists k,
    (1 <= k <= Z.to_nat (max_retries (http_client self)) + 1)%nat
    /\ w_posts w'
       = replicate k (update {[ "action" := PStr "getBrowserList";
                                "requestId" := PStr (uuid4 env (w_uuids w)) ]}
                             (user_info self))
         ++ w_posts w
    /\ w_uuids w' = S (w_uuids w).
Proof.
  intros HN Hmiss.
  assert (Hhit : (if use_cache then w_cache w else None) = None)
    by (destruct Hmiss as [-> | ->]; [reflexivity | destruct use_cache; reflexivity]).
  unfold get_store_list. unfold bind at 1. unfold get_cache at 1.
  rewrite Hhit.
  unfold bind at 1. unfold uuid at 1. unfold bind at 1. cbn [log fst snd].
  set (data := update _ (user_info self)). set (w1 := mkWorld _ _ _ _ _ _).
  unfold bind at 1.
  destruct (send_request env (http_client self) data false w1)
    as [[[[resp|truth]|]|e] w2] eqn:Hsend;
    apply send_request_posted in Hsend as (k & Hk & Hpos & Hp & _);
    destruct Hp as [P U _ _ _]; simpl in P, U; intros H; exists k;
    (split; [specialize (Hpos HN); lia|]).
  - unfold bind at 1 in H. cbn [as_dict ret] in H.
    case_bool_decide; unfold bind, log, set_cache, ret, raise in H; simpl in H;
      inversion H; subst; simpl; auto.
  - unfold bind, as_dict, raise in H. inversion H; subst. auto.
  - inversion H; subst. auto.
  - inversion H; subst. auto.
Qed.

(** X12.  Without [use_cache], or with an empty cache, [get_store_list]
    asks the service: it draws one uuid and posts the getBrowserList body
    built with it at least once, whatever the cache holds. *)
Theorem get_store_list_asks (self : StoreManager) use_cache w :
  0 <= max_retries (http_client self) ->
  use_cache = false \/ w_cache w = None ->
  exists k,
    (1 <= k <= Z.to_nat (max_retries (http_client self)) + 1)%nat
    /\ w_posts (snd (get_store_list env self use_cache w))
       = replicate k (update {[ "action" := PStr "getBrowserList";
                                "requestId" := PStr (uuid4 env (w_uuids w)) ]}
                             (user_info self))
         ++ w_posts w
    /\ w_uuids (snd (get_store_list env self use_cache w)) = S (w_uuids w).
Proof.
  intros HN Hmiss.
  destruct (get_store_list env self use_cache w) as [r w'] eqn:H.
  exact (get_store_list_asks_run self use_cache w r w' HN Hmiss H).
Qed.

(** X13.  [_get_store_name] is best effort: it never raises and changes
    nothing.  It gives the [browserName] of the first cached store whose
    [browserOauth] is the one asked for, and the identifier itself when
    there is no cache, no such store, or that store has no name. *)
Theorem _get_store_name_lookup (self : StoreManager) store_oauth w :
  exists name,
    _get_store_name self store_oauth w = (Ok name, w)
    /\ ((forall store_list, w_cache w = Some store_list ->
            forall store, In store store_list ->
                          browserOauth store <> Some store_oauth) ->
        name = store_oauth)
    /\ (forall before store after,
           w_cache w = Some (before ++ store :: after) ->
           (forall other, In other before ->
                          browserOauth other <> Some store_oauth) ->
           browserOauth store = Some store_oauth ->
           name = default store_oauth (browserName store)).
Proof.
  unfold _get_store_name, bind, get_cache, ret. simpl.
  eexists. split; [reflexivity|]. split.
  - intros Hnone. destruct (w_cache w) as [store_list|]; [|reflexivity].
    destruct (List.find _ store_list) as [store|] eqn:Hfind; [|reflexivity].
    apply find_some in Hfind as [Hin Hmatch].
    apply bool_decide_eq_true_1 in Hmatch.
    exfalso. exact (Hnone store_list eq_refl store Hin Hmatch).
  - intros before store after Hcache Hbefore Hstore. rewrite Hcache.
    assert (Hfind : List.find
                      (fun s => bool_decide (browserOauth s = Some store_oauth))
                      (before ++ store :: after) = Some store).
    { clear Hcache. induction before as [|other before IH]; simpl.
      - rewrite bool_decide_eq_true_2 by exact Hstore. reflexivity.
      - rewrite bool_decide_eq_false_2 by (apply Hbefore; left; reflexivity).
        apply IH. intros o Ho. apply Hbefore. right. exact Ho. }
    rewrite Hfind. reflexivity.
Qed.

(** X14.  The identifier goes into exactly one field of the startBrowser
    body: [browserId] when [str.isdigit] holds of it, [browserOauth]
    otherwise.  The field is written after the credentials are merged in,
    so they cannot replace it; the other of the two keys is what the
    credentials hold for it, absent when they have none.  The JS
    information is injected exactly when [str(jsInfo)] is longer than two
    characters. *)
Theorem open_store_data_identifier (self : StoreManager) store_identifier
    options request_id :
  let data := open_store_data env self store_identifier options request_id in
  let js_info := get options "jsInfo" (PStr "") in
  (if str_isdigit env store_identifier
   then data !! "browserId" = Some (PStr store_identifier)
        /\ data !! "browserOauth" = user_info self !! "browserOauth"
   else data !! "browserOauth" = Some (PStr store_identifier)
        /\ data !! "browserId" = user_info self !! "browserId")
  /\ data !! "injectJsInfo"
     = if (2 <? str_len env (str js_info))%nat
       then Some (PStr (json_dumps env js_info))
       else user_info self !! "injectJsInfo".
Proof.
  intros data js_info. subst data js_info. unfold open_store_data.
  set (base := update _ (user_info self)).
  assert (Hbase : forall k : string,
             k = "browserId" \/ k = "browserOauth" \/ k = "injectJsInfo" ->
             base !! k = user_info self !! k).
  { intros k Hk. subst base. unfold update, pydict in *.
    rewrite lookup_union.
    match goal with
    | |- _ ∪ ?literal !! k = _ =>
        assert (Hliteral : literal !! k = None)
          by (destruct Hk as [-> | [-> | ->]]; vm_compute; reflexivity);
        rewrite Hliteral
    end.
    apply (right_id None (∪)). }
  unfold pydict in *.
  destruct (str_isdigit env store_identifier);
    destruct (2 <? str_len env _)%nat;
    rewrite ?lookup_insert_eq;
    rewrite ?lookup_insert_ne by discriminate;
    rewrite ?lookup_insert_eq;
    rewrite ?lookup_insert_ne by discriminate;
    repeat split; try reflexivity; apply Hbase; auto.
Qed.

(** *** Opening a store *)

Lemma send_request_first_response_run self data retry_on_none w resp :
  0 <= max_retries self ->
  net env (length (w_posts w)) = NetJson (Some (JObject resp)) ->
  statusCode resp <> Some (-10003) ->
  exists w',
    send_request env self data retry_on_none w = (Ok (Some (JObject resp)), w')
    /\ w_posts w' = data :: w_posts w
    /\ w_uuids w' = w_uuids w
    /\ w_driver w' = w_driver w
    /\ w_cache w' = w_cache w.
Proof.
  intros HN Hnet Hcode.
  eexists. split.
  - apply (send_request_first_pass env self data retry_on_none w
             (Ok (Return (Some (JObject resp))))); [exact HN | | congruence].
    unfold send_request_attempt, try_except, bind, post_json.
    cbn [log fst snd w_posts]. rewrite Hnet. cbn [andb].
    unfold ret at 1. cbv beta iota.
    rewrite bool_decide_eq_false_2 by exact Hcode. reflexivity.
  - repeat split; reflexivity.
Qed.


Lemma _get_store_name_ok (self : StoreManager) store_oauth w :
  exists name, _get_store_name self store_oauth w = (Ok name, w).
Proof. unfold _get_store_name, bind, get_cache, ret. simpl. eauto. Qed.

(** What [open_store] does with a response of status 0. *)
Lemma open_store_connect (self : StoreManager) store_identifier resp w2 r w' :
  (store_name <- _get_store_name self
                   (default store_identifier (resp_browserOauth resp)) ;;
   log INFO "店铺打开成功：{store_name} (OAuth: {browser_oauth}, Port: {debugging_port})"
       [LStr store_name;
        LStr (default store_identifier (resp_browserOauth resp));
        LOptInt (debuggingPort resp)] ;;
   session <- BrowserSession_init env (debuggingPort resp)
                (default store_identifier (resp_browserOauth resp)) store_name
                (ipDetectionPage resp) (launcherPage resp)
                (Some (fun sid => close_store env self sid)) ;;
   (if truthy (ipDetectionPage resp)
    then
      ip_ok <- check_ip env session None 60000 ;;
      if negb ip_ok
      then log WARNING "IP 检测未通过，仍将打开启动页" []
      else ret tt
    else
      log WARNING "ipDetectionPage 为空，请升级紫鸟浏览器到最新版，跳过 IP 检测" []) ;;
   (if truthy (launcherPage resp)
    then open_launcher_page env session None 6000
    else log WARNING "launcherPage 为空，无法打开店铺平台主页" []) ;;
   ret session) w2 = (r, w') ->
  w_posts w' = w_posts w2
  /\ match r with
  | Ok session =>
      chromium env (length (w_driver w2)) = None
      /\ exists store_name,
          session = mkSession (debuggingPort resp)
                      (default store_identifier (resp_browserOauth resp))
                      store_name (ipDetectionPage resp) (launcherPage resp)
                      (Some (fun sid => close_store env self sid))
                      (Some (mkChromium (debuggingPort resp))) false
  | Raise e =>
      (exists cause,
          chromium env (length (w_driver w2)) = Some cause
          /\ e = ZiniaoError (ConnectBrowserFailed cause))
      \/ (chromium env (length (w_driver w2)) = None
          /\ truthy (launcherPage resp) = true
          /\ exists cause, e = ZiniaoError (OpenLauncherFailed cause))
  end.
Proof.
  intros H.
  assert (Hposts : w_posts w' = w_posts w2).
  { match type of H with
    | ?c w2 = _ => assert (Hrest : silent c)
    end.
    { repeat first [ apply silent_check_ip | apply silent_open_launcher_page
                   | apply silent_BrowserSession_init
                   | apply silent__get_store_name
                   | apply silent_bind; [|intros ?]
                   | apply silent_log | apply silent_ret
                   | match goal with
                     | |- silent (if ?c then _ else _) => destruct c
                     end ]. }
    apply Hrest in H as (P' & _). exact P'. }
  split; [exact Hposts|]. clear Hposts. revert H.
  unfold bind at 1.
  destruct (_get_store_name_ok self
              (default store_identifier (resp_browserOauth resp)) w2)
    as [store_name ->].
  unfold bind at 1. cbn [log fst snd].
  set (w3 := mkWorld _ _ _ _ _ _).
  unfold bind at 1.
  pose proof (BrowserSession_init_outcomes env (debuggingPort resp)
                (default store_identifier (resp_browserOauth resp)) store_name
                (ipDetectionPage resp) (launcherPage resp)
                (Some (fun sid => close_store env self sid)) w3) as Hinit.
  destruct (BrowserSession_init _ _ _ _ _ _ _ _) as [[session|e] w4].
  - destruct Hinit as (Hconnected & -> & _).
    change (w_driver w3) with (w_driver w2) in Hconnected.
    set (session := mkSession _ _ _ _ _ _ _ _).
    (* the IP check cannot fail the call *)
    unfold bind at 1.
    assert (Hcheck : exists w5,
               (if truthy (ipDetectionPage resp)
                then
                  ip_ok <- check_ip env session None 60000 ;;
                  if negb ip_ok
                  then log WARNING "IP 检测未通过，仍将打开启动页" []
                  else ret tt
                else
                  log WARNING "ipDetectionPage 为空，请升级紫鸟浏览器到最新版，跳过 IP 检测" [])
                 w4 = (Ok tt, w5)).
    { destruct (truthy (ipDetectionPage resp)).
      - unfold bind.
        destruct (check_ip_total env session None 60000 w4) as (ok & w5 & ->).
        destruct ok; simpl; eauto.
      - simpl. eauto. }
    destruct Hcheck as [w5 ->].
    unfold bind at 1.
    destruct (truthy (launcherPage resp)) eqn:Hlauncher.
    + destruct (open_launcher_page env session None 6000 w5)
        as [[[]|e] w6] eqn:Hopen.
      * unfold ret. intros [= <- <-]. eauto.
      * intros [= <- <-]. right. split; [exact Hconnected|].
        split; [reflexivity|].
        apply open_launcher_page_raises in Hopen
          as [[_ Hnone] | (cause & -> & _)]; [|eauto].
        simpl in Hnone. unfold or_else in Hnone. simpl in Hnone.
        congruence.
    + cbn [log ret fst snd]. intros [= <- <-]. eauto.
  - destruct Hinit as ((cause & Hfailed & ->) & _).
    change (w_driver w3) with (w_driver w2) in Hfailed.
    intros [= <- <-]. left. eauto.
Qed.

Lemma open_store_result (self : StoreManager) store_identifier options w r w' :
  open_store env self store_identifier options w = (r, w') ->
  match r with
  | Ok session =>
      _closed session = false
      /\ _browser session = Some (mkChromium (port session))
      /\ close_callback session = Some (fun sid => close_store env self sid)
      /\ exists k resp,
          (length (w_posts w) <= k
           < length (w_posts w) + (Z.to_nat (max_retries (http_client self) + 1)))%nat
          /\ net env k = NetJson (Some (JObject resp))
          /\ statusCode resp = Some 0
          /\ store_id session = default store_identifier (resp_browserOauth resp)
          /\ port session = debuggingPort resp
          /\ ip_check_url session = ipDetectionPage resp
          /\ launcher_page session = launcherPage resp
  | Raise e =>
      send_request_failure (http_client self) e
      \/ (e = AttributeError
          /\ exists k,
              (length (w_posts w) <= k
               < length (w_posts w)
                 + (Z.to_nat (max_retries (http_client self) + 1)))%nat
              /\ net env k = NetJson (Some (JOther false)))
      \/ (exists code msg,
             e = StoreOperationError "打开" store_identifier code msg
             /\ code <> Some 0)
      \/ (exists cause, e = ZiniaoError (ConnectBrowserFailed cause))
      \/ (exists cause, e = ZiniaoError (OpenLauncherFailed cause))
  end.
Proof.
  unfold open_store. unfold bind at 1. unfold uuid at 1.
  unfold bind at 1. cbn [log fst snd].
  set (w1 := mkWorld _ _ _ _ _ _).
  set (data := open_store_data _ _ _ _ _).
  unfold bind at 1.
  destruct (send_request env (http_client self) data false w1)
    as [[[[resp|truth]|]|e] w2] eqn:Hsend.
  - pose proof (send_request_returns _ _ _ _ _ _ _ Hsend) as (k & Hk & Hnet).
    pose proof (send_request_posted _ _ _ _ _ _ _ Hsend) as (n & Hn & _ & Hp & _).
    pose proof (posted_posts _ _ _ _ Hp) as P. simpl in P, Hk.
    rewrite P, length_app, length_replicate in Hk.
    unfold bind at 1. cbn [as_dict ret].
    case_bool_decide as Hcode.
    + intros H. apply open_store_connect in H as [_ H].
      destruct r as [session|e].
      * destruct H as (_ & store_name & ->). simpl.
        repeat (split; [reflexivity|]).
        exists k, resp. repeat split; auto; lia.
      * destruct H as [(cause & _ & ->) | (_ & _ & cause & ->)]; eauto 10.
    + unfold bind, log, raise. simpl. intros [= <- <-].
      do 2 right. left. eauto.
  - (* a value that is no dictionary *)
    pose proof (send_request_returns _ _ _ _ _ _ _ Hsend) as (k & Hk & Hnet).
    pose proof (send_request_posted _ _ _ _ _ _ _ Hsend) as (n & Hn & _ & Hp & _).
    pose proof (posted_posts _ _ _ _ Hp) as P. simpl in P, Hk.
    rewrite P, length_app, length_replicate in Hk.
    pose proof (send_request_result _ _ _ _ _ _ _ Hsend) as Hfalse.
    simpl in Hfalse. subst truth.
    unfold bind, as_dict, raise. intros [= <- <-].
    right. left. split; [reflexivity|]. exists k. split; [lia | exact Hnet].
  - unfold raise. intros [= <- <-]. do 2 right. left.
    eexists _, _. split; [reflexivity | discriminate].
  - intros [= <- <-]. left. exact (send_request_fails _ _ _ _ _ _ _ Hsend).
Qed.

(** X16.  What can come out of [open_store].  A session that is returned is
    open, attached to the port of a response with status 0 received during
    the call, named after the [browserOauth] of that response (the
    identifier asked for when the response has none), and its close
    callback is [close_store] of this manager.  A failure is one of: a
    failure of [send_request]; AttributeError, when the service answered
    with a JSON value that is no object and counts as false, which
    [send_request] returns and [result.get] cannot read;
    StoreOperationError with a status other than 0; the ZiniaoError for the
    browser that could not be reached; the ZiniaoError for the launcher
    page that could not be opened.  A failed IP check is no failure of the
    call. *)
Theorem open_store_outcomes (self : StoreManager) store_identifier options w :
  match open_store env self store_identifier options w with
  | (Ok session, _) =>
      _closed session = false
      /\ _browser session = Some (mkChromium (port session))
      /\ close_callback session = Some (fun sid => close_store env self sid)
      /\ exists k resp,
          (length (w_posts w) <= k
           < length (w_posts w) + (Z.to_nat (max_retries (http_client self) + 1)))%nat
          /\ net env k = NetJson (Some (JObject resp))
          /\ statusCode resp = Some 0
          /\ store_id session = default store_identifier (resp_browserOauth resp)
          /\ port session = debuggingPort resp
          /\ ip_check_url session = ipDetectionPage resp
          /\ launcher_page session = launcherPage resp
  | (Raise e, _) =>
      send_request_failure (http_client self) e
      \/ (e = AttributeError
          /\ exists k,
              (length (w_posts w) <= k
               < length (w_posts w)
                 + (Z.to_nat (max_retries (http_client self) + 1)))%nat
              /\ net env k = NetJson (Some (JOther false)))
      \/ (exists code msg,
             e = StoreOperationError "打开" store_identifier code msg
             /\ code <> Some 0)
      \/ (exists cause, e = ZiniaoError (ConnectBrowserFailed cause))
      \/ (exists cause, e = ZiniaoError (OpenLauncherFailed cause))
  end.
Proof.
  destruct (open_store env self store_identifier options w) as [r w'] eqn:H.
  exact (open_store_result self store_identifier options w r w' H).
Qed.

End StoresMore.

(** ** The store manager: closing, searching, batches *)

Lemma append_nil_r (s : string) : String.append s EmptyString = s.
Proof. induction s as [|c s IH]; [reflexivity|]. rewrite append_String, IH. reflexivity. Qed.

Lemma exact_match_fuzzy_match env text pattern :
  exact_match env text pattern = true -> fuzzy_match env text pattern = true.
Proof.
  rewrite exact_match_spec, fuzzy_match_spec. intros ->.
  exists EmptyString, EmptyString. rewrite append_Empty, append_nil_r.
  reflexivity.
Qed.

Lemma str_lower_of_empty env : str_lower env "" = "".
Proof. apply (str_lower_empty env). reflexivity. Qed.

Lemma fuzzy_match_empty env text : fuzzy_match env text "" = true.
Proof.
  apply fuzzy_match_spec. exists EmptyString, (str_lower env text).
  rewrite str_lower_of_empty, !append_Empty. reflexivity.
Qed.

Lemma filter_sublist {A} (p q : A -> bool) (l : list A) :
  (forall a, p a = true -> q a = true) ->
  sublist (List.filter p l) (List.filter q l).
Proof.
  intros Hpq. induction l as [|a l IH]; simpl.
  - constructor.
  - destruct (p a) eqn:Hp.
    + rewrite (Hpq a Hp). apply sublist_skip. exact IH.
    + destruct (q a); [apply sublist_cons|]; exact IH.
Qed.

Lemma filter_all {A} (p : A -> bool) (l : list A) :
  (forall a, p a = true) -> List.filter p l = l.
Proof.
  intros Hp. induction l as [|a l IH]; simpl; [reflexivity|].
  rewrite Hp, IH. reflexivity.
Qed.

Section StoresFurther.

Variable env : Env.

(** X17.  What can come out of [close_store].  It returns only after a
    response with status 0 to one of its POSTs.  A failure is a failure of
    [send_request]; AttributeError, when the service answered with a JSON
    value that is no object and counts as false; or StoreOperationError
    "关闭" with a status other than 0 (none when the response was null).
    Either way every POST of the call carries the one stopBrowser body
    built on entry, and DrissionPage and the cache are not touched. *)
Theorem close_store_outcomes (self : StoreManager) store_id w :
  exists r w' n,
    close_store env self store_id w = (r, w')
    /\ (n <= Z.to_nat (max_retries (http_client self) + 1))%nat
    /\ w_posts w'
       = replicate n (update {[ "action" := PStr "stopBrowser";
                                "requestId" := PStr (uuid4 env (w_uuids w));
                                "duplicate" := PInt 0;
                                "browserOauth" := PStr store_id ]}
                             (user_info self))
         ++ w_posts w
    /\ w_driver w' = w_driver w
    /\ w_cache w' = w_cache w
    /\ match r with
       | Ok _ =>
           exists k resp,
             (length (w_posts w) <= k < length (w_posts w'))%nat
             /\ net env k = NetJson (Some (JObject resp))
             /\ statusCode resp = Some 0
       | Raise e =>
           send_request_failure (http_client self) e
           \/ (e = AttributeError
               /\ exists k,
                   (length (w_posts w) <= k < length (w_posts w'))%nat
                   /\ net env k = NetJson (Some (JOther false)))
           \/ (exists code msg,
                  e = StoreOperationError "关闭" store_id code msg
                  /\ code <> Some 0)
       end.
Proof.
  unfold close_store. unfold bind at 1. unfold uuid at 1.
  unfold bind at 1. cbn [log fst snd].
  set (data := update _ (user_info self)). set (w1 := mkWorld _ _ _ _ _ _).
  unfold bind at 1.
  destruct (send_request env (http_client self) data false w1)
    as [[[[resp|truth]|]|e] w2] eqn:Hsend;
    pose proof (send_request_posted _ _ _ _ _ _ _ Hsend)
      as (n & Hn & _ & [P U D C _] & _);
    simpl in P, D, C.
  - pose proof (send_request_returns _ _ _ _ _ _ _ Hsend) as (k & Hk & Hnet).
    simpl in Hk.
    unfold bind at 1. cbn [as_dict ret].
    case_bool_decide as Hcode; unfold bind, log, raise; cbn [fst snd].
    + eexists _, _, n. split; [reflexivity|]. simpl.
      repeat (split; [assumption|]). exists k, resp. auto.
    + eexists _, _, n. split; [reflexivity|]. simpl.
      repeat (split; [assumption|]). do 2 right. eauto.
  - (* a value that is no dictionary *)
    pose proof (send_request_returns _ _ _ _ _ _ _ Hsend) as (k & Hk & Hnet).
    pose proof (send_request_result _ _ _ _ _ _ _ Hsend) as Hfalse.
    simpl in Hk, Hfalse. subst truth.
    unfold bind, as_dict, raise. eexists _, _, n. split; [reflexivity|].
    repeat (split; [assumption|]). right. left.
    split; [reflexivity|]. exists k. auto.
  - unfold raise. eexists _, _, n. split; [reflexivity|].
    repeat (split; [assumption|]). do 2 right.
    eexists _, _. split; [reflexivity | discriminate].
  - eexists _, _, n. split; [reflexivity|].
    repeat (split; [assumption|]).
    left. exact (send_request_fails _ _ _ _ _ _ _ Hsend).
Qed.

(** X18.  The stores that [find_stores_by_name] keeps in exact mode are
    among those it keeps in fuzzy mode, in the same order: on any listing
    the result of the loop with [exact_match_mode=True] is a sublist of its
    result with [exact_match_mode=False]. *)
Theorem find_stores_exact_within_fuzzy (name : string) (store_list : list Store) :
  sublist (fold_left (find_stores_step env name true) store_list [])
          (fold_left (find_stores_step env name false) store_list []).
Proof.
  rewrite !find_stores_loop_filter. simpl.
  apply filter_sublist. intros store. unfold name_matches.
  apply exact_match_fuzzy_match.
Qed.

(** X19.  The empty query: in fuzzy mode it matches every store, so the
    loop of [find_stores_by_name] returns the whole listing; in exact mode
    it keeps exactly the stores whose [browserName] is empty or missing. *)
Theorem find_stores_empty_query (store_list : list Store) :
  fold_left (find_stores_step env "" false) store_list [] = store_list
  /\ fold_left (find_stores_step env "" true) store_list []
     = List.filter (fun store => negb (truthy (browserName store))) store_list.
Proof.
  rewrite !find_stores_loop_filter. simpl. split.
  - apply filter_all. intros store. apply fuzzy_match_empty.
  - apply List.filter_ext. intros store. unfold name_matches.
    destruct (browserName store) as [s|]; simpl.
    + rewrite negb_involutive.
      destruct (exact_match env s "") eqn:E.
      * apply exact_match_spec in E. rewrite str_lower_of_empty in E.
        apply (proj1 (str_lower_empty env s)) in E.
        subst. reflexivity.
      * symmetry. apply not_true_is_false. intros Heq.
        apply String.eqb_eq in Heq. subst.
        assert (Hmatch : exact_match env "" "" = true)
          by (apply exact_match_spec; reflexivity).
        congruence.
    + apply exact_match_spec. reflexivity.
Qed.

(** X20.  A worker count below one fails the whole batch before any task
    runs: [open_stores_by_names] raises ValueError, nothing is posted, no
    uuid is drawn and DrissionPage is not called, whatever the names. *)
Theorem open_stores_by_names_no_workers (self : StoreManager) store_names
    max_workers exact_match_mode options w :
  max_workers <= 0 ->
  exists w',
    open_stores_by_names env self store_names max_workers exact_match_mode
                         options w
    = (Raise ValueError, w')
    /\ w_posts w' = w_posts w
    /\ w_uuids w' = w_uuids w
    /\ w_driver w' = w_driver w
    /\ w_cache w' = w_cache w.
Proof.
  intros Hworkers. unfold open_stores_by_names, bind. cbn [log fst snd].
  destruct (Z.leb_spec max_workers 0) as [_|]; [|lia].
  unfold raise. eexists. split; [reflexivity|]. simpl. auto.
Qed.

(** X21.  The checks after a successful start are advisory.  When the
    response to startBrowser has status 0 and DrissionPage attaches to the
    browser, [open_store] returns the session whatever the IP check gives
    (a failed check is logged), provided the response names no launcher
    page; the session carries the port, the OAuth identifier and the URLs
    of the response. *)
Theorem open_store_succeeds (self : StoreManager) store_identifier options w
    resp :
  0 <= max_retries (http_client self) ->
  net env (length (w_posts w)) = NetJson (Some (JObject resp)) ->
  statusCode resp = Some 0 ->
  chromium env (length (w_driver w)) = None ->
  truthy (launcherPage resp) = false ->
  exists store_name w',
    open_store env self store_identifier options w
    = (Ok (mkSession (debuggingPort resp)
                     (default store_identifier (resp_browserOauth resp))
                     store_name (ipDetectionPage resp) (launcherPage resp)
                     (Some (fun sid => close_store env self sid))
                     (Some (mkChromium (debuggingPort resp))) false),
       w')
    /\ w_posts w'
       = [open_store_data env self store_identifier options
                          (uuid4 env (w_uuids w))] ++ w_posts w.
Proof.
  intros HN Hnet Hcode Hconnect Hlauncher.
  unfold open_store. unfold bind at 1. unfold uuid at 1.
  unfold bind at 1. cbn [log fst snd].
  set (w1 := mkWorld _ _ _ _ _ _).
  set (data := open_store_data _ _ _ _ _).
  assert (Hauth : statusCode resp <> Some (-10003))
    by (rewrite Hcode; discriminate).
  destruct (send_request_first_response_run env (http_client self) data false w1
              resp HN Hnet Hauth) as (w2 & Hsend & P & U & D & C).
  unfold bind at 1. rewrite Hsend.
  unfold bind at 1. cbn [as_dict ret].
  rewrite bool_decide_eq_true_2 by exact Hcode.
  match goal with
  | |- exists store_name w', ?c w2 = _ /\ _ =>
      destruct (c w2) as [r w'] eqn:Hrest
  end.
  apply open_store_connect in Hrest as [Hposts Hrest].
  destruct r as [session|e].
  - destruct Hrest as (_ & store_name & ->).
    exists store_name, w'. split; [reflexivity|].
    rewrite Hposts, P. reflexivity.
  - exfalso. rewrite D in Hrest. simpl in Hrest.
    destruct Hrest as [(cause & Hc & _) | (_ & Ht & _)]; congruence.
Qed.

End StoresFurther.

(** ** The client *)

Section ClientMore.

Variable env : Env.

(** What a pass of the polling loop does to the clock and the POSTs. *)
Lemma send_request_monotone self data retry_on_none w r w' :
  send_request env self data retry_on_none w = (r, w') ->
  w_clock w <= w_clock w'
  /\ (length (w_posts w) <= length (w_posts w'))%nat
  /\ w_uuids w' = w_uuids w.
Proof.
  intros H. apply send_request_posted in H as (k & _ & _ & [P U _ _ T] & _).
  split; [exact T|]. split; [|exact U]. rewrite P, length_app. lia.
Qed.

(** [n] passes are enough when the deadline leaves room for fewer than
    [n - 1] sleeps of two seconds; each pass but the last draws one uuid. *)
Lemma update_core_loop_ends self max_wait_time start_time n :
  forall w r w',
    (0 < n)%nat ->
    max_wait_time - (w_clock w - start_time) < 2000 * (Z.of_nat n - 1) ->
    update_core_loop env self max_wait_time start_time n w = (r, w') ->
    r <> Ok None /\ (w_uuids w' <= w_uuids w + (n - 1))%nat.
Proof.
  induction n as [|n IH]; intros w r w' Hn Hfuel; [lia|].
  cbn [update_core_loop]. unfold bind at 1. unfold time_time at 1.
  destruct (Z.gtb_spec (w_clock w - start_time) max_wait_time) as [Hlate|Hearly].
  { unfold raise. intros [= <- <-]. split; [discriminate | lia]. }
  assert (Hroom : (0 < n)%nat) by lia.
  unfold bind at 1. unfold uuid at 1.
  set (w1 := mkWorld (w_posts w) (S (w_uuids w)) (w_clock w)
                     (w_log w) (w_driver w) (w_cache w)).
  cbv zeta.
  unfold bind at 1.
  destruct (send_request env (client_http_client self)
              (update_core_data self (uuid4 env (w_uuids w))) true w1)
    as [[[[resp|truth]|]|e] w2] eqn:Hsend;
    apply send_request_monotone in Hsend as (Hclock & _ & Huuids);
    simpl in Hclock, Huuids.
  - unfold bind at 1. cbn [as_dict ret].
    destruct (bool_decide (statusCode resp = None)
              || bool_decide (statusCode resp = Some (-10003))).
    { unfold raise. intros [= <- <-]. split; [discriminate | lia]. }
    destruct (bool_decide (statusCode resp = Some 0)).
    { unfold bind, log, ret. cbn [fst snd]. intros [= <- <-].
      split; [discriminate | simpl; lia]. }
    unfold bind at 1. unfold log at 1. unfold bind at 1. unfold sleep at 1.
    cbn [fst snd Z.ltb Z.compare].
    intros H. apply IH in H as [Hr Hu]; [| exact Hroom | simpl; lia].
    split; [exact Hr|]. simpl in Hu. lia.
  - unfold bind, as_dict, raise. intros [= <- <-].
    split; [discriminate | lia].
  - unfold bind at 1. unfold log at 1. unfold bind at 1. unfold sleep at 1.
    cbn [fst snd Z.ltb Z.compare].
    intros H. apply IH in H as [Hr Hu]; [| exact Hroom | simpl; lia].
    split; [exact Hr|]. simpl in Hu. lia.
  - intros [= <- <-]. split; [discriminate | lia].
Qed.

(** X22.  [update_core] always ends, whatever the service answers.  With
    [k] the least number such that [2 k] seconds exceed [max_wait_time]
    (for a deadline that is not negative, [k = max_wait_time // 2 + 1]),
    the call returns or raises within [k + 1] passes through its loop, of
    which at most [k] send a request: every pass that goes on sleeps two
    seconds, and the deadline is checked at the head of each pass. *)
Theorem update_core_terminates (self : ZiniaoClient) max_wait_time fuel w :
  max_wait_time < 2000 * Z.of_nat fuel ->
  exists r w',
    update_core env self max_wait_time (S fuel) w = (r, w')
    /\ r <> Ok None
    /\ (w_uuids w' <= w_uuids w + fuel)%nat.
Proof.
  intros Hfuel.
  destruct (update_core env self max_wait_time (S fuel) w) as [r w'] eqn:Hrun.
  exists r, w'. split; [reflexivity|]. revert Hrun.
  unfold update_core.
  destruct (negb (_started self)).
  { unfold raise. intros [= <- <-]. split; [discriminate | lia]. }
  unfold bind at 1. cbn [log fst snd].
  unfold bind at 1. unfold time_time at 1. cbn [fst snd w_clock].
  intros H. apply update_core_loop_ends in H as [Hr Hu]; [| lia | simpl; lia].
  split; [exact Hr|]. simpl in Hu. lia.
Qed.

Lemma update_core_loop_result self max_wait_time start_time fuel :
  forall w r w',
    update_core_loop env self max_wait_time start_time fuel w = (r, w') ->
    (length (w_posts w) <= length (w_posts w'))%nat
    /\ match r with
       | Ok None => True
       | Ok (Some _) =>
           exists k resp,
             (length (w_posts w) <= k < length (w_posts w'))%nat
             /\ net env k = NetJson (Some (JObject resp))
             /\ statusCode resp = Some 0
       | Raise e =>
           (e = CoreUpdateError max_wait_time
            /\ max_wait_time < w_clock w' - start_time)
           \/ (e = UnsupportedVersionError "updateCore" "5.285.7"
               /\ exists k resp,
                   (length (w_posts w) <= k < length (w_posts w'))%nat
                   /\ net env k = NetJson (Some (JObject resp))
                   /\ statusCode resp = None)
           \/ (e = AttributeError
               /\ exists k,
                   (length (w_posts w) <= k < length (w_posts w'))%nat
                   /\ net env k = NetJson (Some (JOther false)))
           \/ send_request_failure (client_http_client self) e
       end.
Proof.
  induction fuel as [|fuel IH]; intros w r w'.
  - simpl. unfold ret. intros [= <- <-]. auto.
  - cbn [update_core_loop]. unfold bind at 1. unfold time_time at 1.
    destruct (Z.gtb_spec (w_clock w - start_time) max_wait_time) as [Hlate|Hearly].
    { unfold raise. intros [= <- <-]. split; [lia|]. left. split; [reflexivity|lia]. }
    unfold bind at 1. unfold uuid at 1.
    set (w1 := mkWorld (w_posts w) (S (w_uuids w)) (w_clock w)
                       (w_log w) (w_driver w) (w_cache w)).
    cbv zeta.
    unfold bind at 1.
    destruct (send_request env (client_http_client self)
                (update_core_data self (uuid4 env (w_uuids w))) true w1)
      as [[[[resp|truth]|]|e] w2] eqn:Hsend.
    + pose proof (send_request_monotone _ _ _ _ _ _ Hsend) as (_ & Hlen & _).
      pose proof (send_request_result _ _ _ _ _ _ _ Hsend) as Hauth.
      pose proof (send_request_returns _ _ _ _ _ _ _ Hsend) as (k & Hk & Hnet).
      simpl in Hlen, Hauth, Hk.
      unfold bind at 1. cbn [as_dict ret].
      destruct (bool_decide (statusCode resp = None)
                || bool_decide (statusCode resp = Some (-10003))) eqn:Hbad.
      * unfold raise. intros [= <- <-]. split; [exact Hlen|].
        right. left. split; [reflexivity|].
        exists k, resp. split; [exact Hk|]. split; [exact Hnet|].
        apply orb_true_iff in Hbad as [Hnone | Hcode];
          apply bool_decide_eq_true in Hnone || apply bool_decide_eq_true in Hcode;
          [exact Hnone | contradiction].
      * destruct (bool_decide_reflect (statusCode resp = Some 0)) as [Hcode|Hcode].
        -- unfold bind, log, ret. cbn [fst snd]. intros [= <- <-].
           split; [exact Hlen|]. exists k, resp. auto.
        -- unfold bind at 1. unfold log at 1. unfold bind at 1.
           unfold sleep at 1. cbn [fst snd Z.ltb Z.compare].
           intros H. apply IH in H as [Hlen' H]. simpl in Hlen', H.
           split; [lia|].
           destruct r as [[[]|]|e'].
           ++ destruct H as (k' & resp' & Hk' & H). exists k', resp'.
              split; [lia | exact H].
           ++ exact I.
           ++ destruct H as [H | [(He & k' & resp' & Hk' & H)
                                 | [(He & k' & Hk' & H) | H]]]; auto.
              ** right. left. split; [exact He|]. exists k', resp'.
                 split; [lia | exact H].
              ** right. right. left. split; [exact He|]. exists k'.
                 split; [lia | exact H].
    + (* a value that is no dictionary *)
      pose proof (send_request_monotone _ _ _ _ _ _ Hsend) as (_ & Hlen & _).
      pose proof (send_request_result _ _ _ _ _ _ _ Hsend) as Hfalse.
      pose proof (send_request_returns _ _ _ _ _ _ _ Hsend) as (k & Hk & Hnet).
      simpl in Hlen, Hfalse, Hk. subst truth.
      unfold bind, as_dict, raise. intros [= <- <-]. split; [exact Hlen|].
      right. right. left. split; [reflexivity|]. exists k. auto.
    + pose proof (send_request_monotone _ _ _ _ _ _ Hsend) as (_ & Hlen & _).
      simpl in Hlen.
      unfold bind at 1. unfold log at 1. unfold bind at 1.
      unfold sleep at 1. cbn [fst snd Z.ltb Z.compare].
      intros H. apply IH in H as [Hlen' H]. simpl in Hlen', H.
      split; [lia|].
      destruct r as [[[]|]|e'].
      * destruct H as (k' & resp' & Hk' & H). exists k', resp'.
        split; [lia | exact H].
      * exact I.
      * destruct H as [H | [(He & k' & resp' & Hk' & H)
                            | [(He & k' & Hk' & H) | H]]]; auto.
        -- right. left. split; [exact He|]. exists k', resp'.
           split; [lia | exact H].
        -- right. right. left. split; [exact He|]. exists k'.
           split; [lia | exact H].
    + pose proof (send_request_monotone _ _ _ _ _ _ Hsend) as (_ & Hlen & _).
      simpl in Hlen.
      intros [= <- <-]. split; [exact Hlen|].
      do 3 right. exact (send_request_fails _ _ _ _ _ _ _ Hsend).
Qed.

(** X23.  What can come out of [update_core].  On a client that is not
    started it raises ClientNotStartedError and does nothing; on a started
    client it never raises that.  On a started client it returns only
    after a response with status 0 to one of its POSTs, and a failure is
    one of: CoreUpdateError, once more than [max_wait_time] has elapsed;
    UnsupportedVersionError, only for a response that carries no statusCode
    at all (a response with statusCode -10003 never reaches the test,
    [send_request] does not return one); AttributeError, when the service
    answered with a JSON value that is no object and counts as false; a
    failure of [send_request].  ([Ok None] stands for a loop that is still
    running after [fuel] passes.) *)
Theorem update_core_outcomes (self : ZiniaoClient) max_wait_time fuel w :
  (_started self = false
   /\ update_core env self max_wait_time fuel w
      = (Raise ClientNotStartedError, w))
  \/ (_started self = true
      /\ match update_core env self max_wait_time fuel w with
         | (Ok None, _) => True
         | (Ok (Some _), w') =>
             exists k resp,
               (length (w_posts w) <= k < length (w_posts w'))%nat
               /\ net env k = NetJson (Some (JObject resp))
               /\ statusCode resp = Some 0
         | (Raise e, w') =>
             e <> ClientNotStartedError
             /\ ((e = CoreUpdateError max_wait_time
                  /\ max_wait_time < w_clock w' - w_clock w)
                 \/ (e = UnsupportedVersionError "updateCore" "5.285.7"
                     /\ exists k resp,
                         (length (w_posts w) <= k < length (w_posts w'))%nat
                         /\ net env k = NetJson (Some (JObject resp))
                         /\ statusCode resp = None)
                 \/ (e = AttributeError
                     /\ exists k,
                         (length (w_posts w) <= k < length (w_posts w'))%nat
                         /\ net env k = NetJson (Some (JOther false)))
                 \/ send_request_failure (client_http_client self) e)
         end).
Proof.
  unfold update_core. destruct (_started self) eqn:Hstarted; simpl.
  - right. split; [reflexivity|].
    unfold bind at 1. cbn [log fst snd].
    unfold bind at 1. unfold time_time at 1. cbn [fst snd w_clock].
    set (w0 := mkWorld _ _ _ _ _ _).
    destruct (update_core_loop env self max_wait_time (w_clock w) fuel w0)
      as [r w'] eqn:Hrun.
    apply update_core_loop_result in Hrun as [_ H]. simpl in H.
    destruct r as [[[]|]|e]; auto.
    split; [|exact H].
    destruct H as [[-> _] | [[-> _] | [[-> _] | [[m ->] | [[c ->] | [w1 Hs]]]]]];
      try discriminate.
    intros ->. unfold sleep in Hs.
    destruct (retry_delay (client_http_client self) <? 0); discriminate.
  - left. auto.
Qed.

(** *** Stopping *)

Lemma _send_exit_run (self : ZiniaoClient) w :
  exists w' n,
    _send_exit env self w = (Ok tt, w')
    /\ (n <= Z.to_nat (max_retries (client_http_client self) + 1))%nat
    /\ w_posts w'
       = replicate n (update {[ "action" := PStr "exit";
                                "requestId" := PStr (uuid4 env (w_uuids w)) ]}
                             (config_user_info self))
         ++ w_posts w
    /\ w_driver w' = w_driver w
    /\ w_cache w' = w_cache w.
Proof.
  unfold _send_exit. unfold bind at 1. unfold uuid at 1.
  cbv zeta. unfold bind at 1. cbn [log fst snd].
  set (data := update _ (config_user_info self)).
  set (w1 := mkWorld _ _ _ _ _ _).
  unfold try_except. unfold bind at 1.
  destruct (send_request env (client_http_client self) data false w1)
    as [[result|e] w2] eqn:Hsend;
    apply send_request_posted in Hsend as (n & Hn & _ & [P _ D C _] & _);
    simpl in P, D, C.
  - unfold ret. exists w2, n. auto.
  - unfold log. eexists _, n. split; [reflexivity|]. simpl. auto.
Qed.

(** X24.  [_send_exit] never raises: whatever happens to the request, the
    failure is logged and the call returns.  Its POSTs, at most
    [max_retries + 1], all carry the one exit body built on entry. *)
Theorem _send_exit_never_raises (self : ZiniaoClient) w :
  exists w' n,
    _send_exit env self w = (Ok tt, w')
    /\ (n <= Z.to_nat (max_retries (client_http_client self) + 1))%nat
    /\ w_posts w'
       = replicate n (update {[ "action" := PStr "exit";
                                "requestId" := PStr (uuid4 env (w_uuids w)) ]}
                             (config_user_info self))
         ++ w_posts w
    /\ w_driver w' = w_driver w
    /\ w_cache w' = w_cache w.
Proof. exact (_send_exit_run self w). Qed.

Lemma stop_run (terminate : M bool) (self : ZiniaoClient) w :
  exists w',
    stop env terminate self w
    = (Ok (mkClient (client_http_client self) (config_user_info self) false), w')
    /\ (_started self = false -> w_posts w' = w_posts w
                                 /\ w_uuids w' = w_uuids w
                                 /\ w_clock w' = w_clock w).
Proof.
  unfold stop. destruct (_started self) eqn:Hstarted; simpl.
  - unfold bind at 1. cbn [log fst snd].
    set (w0 := mkWorld _ _ _ _ _ _).
    unfold bind at 1. unfold try_except.
    destruct ((_send_exit env self ;; sleep 2000 ;; terminate ;; ret tt)%py w0)
      as [[[]|e] w1].
    + unfold bind, log, ret. cbn [fst snd]. eexists. split; [reflexivity|].
      discriminate.
    + unfold bind, log, ret. cbn [fst snd]. eexists. split; [reflexivity|].
      discriminate.
  - unfold bind, log, ret. cbn [fst snd]. eexists. split.
    + destruct self as [h u s]. simpl in *. subst. reflexivity.
    + intros _. simpl. auto.
Qed.

(** X25.  [stop] never raises and always leaves the client stopped,
    whatever the exit request and the process supervisor do (their
    failures are logged); on a client that is not started it sends
    nothing and does not wait. *)
Theorem stop_never_raises (terminate : M bool) (self : ZiniaoClient) w :
  exists stopped w',
    stop env terminate self w = (Ok stopped, w')
    /\ is_started stopped = false
    /\ client_http_client stopped = client_http_client self
    /\ config_user_info stopped = config_user_info self
    /\ (_started self = false -> w_posts w' = w_posts w
                                 /\ w_uuids w' = w_uuids w
                                 /\ w_clock w' = w_clock w).
Proof.
  destruct (stop_run terminate self w) as (w' & Hrun & Hidle).
  eexists _, w'. split; [exact Hrun|]. simpl. auto.
Qed.

(** X26.  Before [start] and after [stop] the client refuses to work: on a
    client as [__init__] builds it, and on any client after [stop], each of
    [get_store_list], [find_stores_by_name], [open_store],
    [open_store_by_name], [open_stores_by_names], [close_store] and
    [update_core] raises ClientNotStartedError and does nothing else (no
    request, no log, no call to DrissionPage). *)
Theorem stopped_client_refuses (terminate : M bool) (self : ZiniaoClient)
    (config : ZiniaoConfig) w0 :
  forall client,
    client = ZiniaoClient_init config
    \/ fst (stop env terminate self w0) = Ok client ->
    forall w,
      (forall use_cache,
          client_get_store_list env client use_cache w
          = (Raise ClientNotStartedError, w))
      /\ (forall name exact_match,
             client_find_stores_by_name env client name exact_match w
             = (Raise ClientNotStartedError, w))
      /\ (forall store_id options,
             client_open_store env client store_id options w
             = (Raise ClientNotStartedError, w))
      /\ (forall store_name exact_match options,
             client_open_store_by_name env client store_name exact_match
                                       options w
             = (Raise ClientNotStartedError, w))
      /\ (forall store_names max_workers exact_match options,
             client_open_stores_by_names env client store_names max_workers
                                         exact_match options w
             = (Raise ClientNotStartedError, w))
      /\ (forall store_id,
             client_close_store env client store_id w
             = (Raise ClientNotStartedError, w))
      /\ (forall max_wait_time fuel,
             update_core env client max_wait_time fuel w
             = (Raise ClientNotStartedError, w)).
Proof.
  intros client Hclient w.
  assert (Hstopped : _started client = false).
  { destruct Hclient as [-> | Hstop]; [reflexivity|].
    destruct (stop_run terminate self w0) as (w' & Hrun & _).
    rewrite Hrun in Hstop. simpl in Hstop. injection Hstop as <-.
    reflexivity. }
  unfold client_get_store_list, client_find_stores_by_name, client_open_store,
    client_open_store_by_name, client_open_stores_by_names, client_close_store,
    update_core.
  rewrite Hstopped. simpl. repeat split.
Qed.

End ClientMore.

(** ** The configuration *)

(** When [validate] raises nothing. *)
Lemma validate_None (path_exists : string -> bool) (self : ZiniaoConfig) :
  validate path_exists self = None
  <-> (client_path self <> ""
       /\ path_exists (client_path self) = true
       /\ 1024 <= socket_port self <= 65535
       /\ (version self = "v5" \/ version self = "v6")
       /\ 0 < request_timeout self
       /\ 0 <= config_max_retries self
       /\ 0 <= config_retry_delay self).
Proof.
  unfold validate.
  destruct (String.eqb_spec (client_path self) "") as [Hempty|Hpath].
  { split; [discriminate | intros (H & _); contradiction]. }
  destruct (path_exists (client_path self)) eqn:Hexists; simpl.
  2:{ split; [discriminate | intros (_ & H & _); discriminate]. }
  destruct (Z.leb_spec 1024 (socket_port self)) as [Hlow|Hlow]; simpl.
  2:{ split; [discriminate | intros (_ & _ & H & _); lia]. }
  destruct (Z.leb_spec (socket_port self) 65535) as [Hhigh|Hhigh]; simpl.
  2:{ split; [discriminate | intros (_ & _ & H & _); lia]. }
  destruct (String.eqb_spec (version self) "v5") as [Hv5|Hv5]; simpl.
  - destruct (Z.leb_spec (request_timeout self) 0) as [Ht|Ht].
    { split; [discriminate | intros (_ & _ & _ & _ & H & _); lia]. }
    destruct (Z.ltb_spec (config_max_retries self) 0) as [Hr|Hr].
    { split; [discriminate | intros (_ & _ & _ & _ & _ & H & _); lia]. }
    destruct (Z.ltb_spec (config_retry_delay self) 0) as [Hd|Hd].
    { split; [discriminate | intros (_ & _ & _ & _ & _ & _ & H); lia]. }
    split; [intros _; repeat split; auto; lia | reflexivity].
  - destruct (String.eqb_spec (version self) "v6") as [Hv6|Hv6]; simpl.
    2:{ split; [discriminate | intros (_ & _ & _ & [H|H] & _); contradiction]. }
    destruct (Z.leb_spec (request_timeout self) 0) as [Ht|Ht].
    { split; [discriminate | intros (_ & _ & _ & _ & H & _); lia]. }
    destruct (Z.ltb_spec (config_max_retries self) 0) as [Hr|Hr].
    { split; [discriminate | intros (_ & _ & _ & _ & _ & H & _); lia]. }
    destruct (Z.ltb_spec (config_retry_delay self) 0) as [Hd|Hd].
    { split; [discriminate | intros (_ & _ & _ & _ & _ & _ & H); lia]. }
    split; [intros _; repeat split; auto; lia | reflexivity].
Qed.

(** X27.  [validate] accepts a configuration exactly when the client path
    is not empty and exists, the port is between 1024 and 65535, the
    version is "v5" or "v6", the request timeout is positive and neither
    [max_retries] nor [retry_delay] is negative. *)
Theorem validate_accepts (path_exists : string -> bool) (self : ZiniaoConfig) :
  validate path_exists self = None
  <-> (client_path self <> ""
       /\ path_exists (client_path self) = true
       /\ 1024 <= socket_port self <= 65535
       /\ (version self = "v5" \/ version self = "v6")
       /\ 0 < request_timeout self
       /\ 0 <= config_max_retries self
       /\ 0 <= config_retry_delay self).
Proof. exact (validate_None path_exists self). Qed.

(** X28.  A validated configuration makes the transport ask: on the HTTP
    client that [ZiniaoClient.__init__] builds from a configuration that
    [validate] accepts, every [send_request] posts the body at least once
    and at most [max_retries + 1] times, and a failure is a
    CommunicationError, the package's TimeoutError, or what [time.sleep]
    raises on the configured [retry_delay] ([validate] rules out the
    negative delays only). *)
Theorem validated_client_transport (env : Env) (path_exists : string -> bool)
    (config : ZiniaoConfig) data retry_on_none w :
  validate path_exists config = None ->
  let self := client_http_client (ZiniaoClient_init config) in
  exists r w' k,
    send_request env self data retry_on_none w = (r, w')
    /\ (1 <= k <= Z.to_nat (config_max_retries config) + 1)%nat
    /\ w_posts w' = replicate k data ++ w_posts w
    /\ match r with
       | Ok _ => True
       | Raise e => send_request_failure self e
       end.
Proof.
  intros Hvalid self.
  apply validate_None in Hvalid as (_ & _ & _ & _ & _ & HN & Hdelay).
  destruct (send_request env self data retry_on_none w) as [r w'] eqn:Hsend.
  pose proof (send_request_posted _ _ _ _ _ _ _ Hsend)
    as (k & Hk & Hpos & [P _ _ _ _] & _).
  subst self. simpl in Hk, Hpos.
  exists r, w', k. split; [reflexivity|].
  split; [specialize (Hpos HN); lia|]. split; [exact P|].
  destruct r as [result|e]; [exact I|].
  exact (send_request_fails _ _ _ _ _ _ _ Hsend).
Qed.

(** X29.  The credentials never replace the fields of a request.  On a
    client whose user information comes from [get_user_info] (the keys
    company, username and password), the updateCore body keeps its action
    and the requestId it was built with and carries the three credentials
    and nothing else; the startBrowser body keeps its action and its
    requestId whatever the identifier and the options are. *)
Theorem credentials_keep_request_fields (env : Env) (config : ZiniaoConfig)
    (http : HttpClient) (started : bool) (request_id : string) :
  let self := mkClient http (get_user_info config) started in
  (let data := update_core_data self request_id in
   data !! "action" = Some (PStr "updateCore")
   /\ data !! "requestId" = Some (PStr request_id)
   /\ data !! "company" = Some (PStr (company config))
   /\ data !! "username" = Some (PStr (username config))
   /\ data !! "password" = Some (PStr (password config))
   /\ size data = 5%nat)
  /\ (forall store_identifier options,
         let data := open_store_data env (store_manager self) store_identifier
                                     options request_id in
         data !! "action" = Some (PStr "startBrowser")
         /\ data !! "requestId" = Some (PStr request_id)).
Proof.
  intros self. split.
  - unfold update_core_data, update, get_user_info. simpl.
    repeat split; vm_compute; reflexivity.
  - intros store_identifier options. unfold open_store_data.
    cbv zeta.
    set (base := update _ (user_info (store_manager self))).
    assert (Hbase : base !! "action" = Some (PStr "startBrowser")
                    /\ base !! "requestId" = Some (PStr request_id)).
    { subst base. unfold update, store_manager, self, get_user_info. simpl.
      unfold pydict in *. rewrite !lookup_union.
      split; vm_compute; reflexivity. }
    destruct Hbase as [Haction Hid].
    unfold pydict in *.
    destruct (2 <? str_len env (str (get options "jsInfo" (PStr ""))))%nat;
      destruct (str_isdigit env store_identifier);
      rewrite ?lookup_insert_ne by discriminate; auto.
Qed.

(** ** Dropping the cache *)

(** X30.  [clear_cache] invalidates: it empties the cache without sending
    anything, and the next [get_store_list], even with [use_cache=True],
    asks the service again (at least one POST of a getBrowserList body
    with a fresh requestId). *)
Theorem clear_cache_invalidates (env : Env) (self : StoreManager) w :
  0 <= max_retries (http_client self) ->
  exists w1,
    clear_cache self w = (Ok tt, w1)
    /\ w_cache w1 = None
    /\ w_posts w1 = w_posts w
    /\ w_uuids w1 = w_uuids w
    /\ exists k,
        (1 <= k <= Z.to_nat (max_retries (http_client self)) + 1)%nat
        /\ w_posts (snd (get_store_list env self true w1))
           = replicate k (update {[ "action" := PStr "getBrowserList";
                                    "requestId" := PStr (uuid4 env (w_uuids w)) ]}
                                 (user_info self))
             ++ w_posts w.
Proof.
  intros HN. unfold clear_cache, bind, log, set_cache. cbn [fst snd].
  eexists. split; [reflexivity|]. cbn [w_cache w_posts w_uuids].
  repeat (split; [reflexivity|]).
  match goal with
  | |- context [get_store_list env self true ?w1] =>
      destruct (get_store_list env self true w1) as [r w2] eqn:Hrun
  end.
  apply get_store_list_asks_run in Hrun as (k & Hk & Hp & _);
    [| exact HN | right; reflexivity].
  exists k. split; [exact Hk|]. exact Hp.
Qed.

(** * Concrete runs of the further properties *)

(** X1 with three retries when every POST times out: four POSTs. *)
Lemma send_request_timeout_witness :
  0 <= max_retries (Sample.client 3)
  /\ 0 <= retry_delay (Sample.client 3)
  /\ (forall k, (length (w_posts Sample.start) <= k)%nat ->
                net (Sample.world_of (fun _ => NetTimeout)) k = NetTimeout)
  /\ exists w',
      send_request (Sample.world_of (fun _ => NetTimeout)) (Sample.client 3)
                   Sample.body false Sample.start
      = (Raise (ZiniaoTimeoutError (max_retries (Sample.client 3))
                                   RequestsTimeout), w')
      /\ w_posts w'
         = replicate (Z.to_nat (max_retries (Sample.client 3)) + 1) Sample.body
           ++ w_posts Sample.start.
Proof.
  split; [simpl; lia|]. split; [simpl; lia|].
  split; [intros k Hk; reflexivity|].
  apply (send_request_timeout (Sample.world_of (fun _ => NetTimeout))
           (Sample.client 3) Sample.body false Sample.start);
    [simpl; lia | simpl; lia | intros k Hk; reflexivity].
Defined.

(** X2 with three retries configured: the malformed body ends the call
    after one POST. *)
Lemma send_request_malformed_response_witness :
  0 <= max_retries (Sample.client 3)
  /\ net (Sample.world_of (fun _ => NetBadJson)) (length (w_posts Sample.start))
     = NetBadJson
  /\ exists w',
      send_request (Sample.world_of (fun _ => NetBadJson)) (Sample.client 3)
                   Sample.body true Sample.start
      = (Raise (CommunicationError (JsonParseFailed JSONDecodeError)), w')
      /\ w_posts w' = Sample.body :: w_posts Sample.start
      /\ w_clock w'
         = w_clock Sample.start
           + Z.of_N (latency (Sample.world_of (fun _ => NetBadJson))
                             (length (w_posts Sample.start))).
Proof.
  split; [simpl; lia|]. split; [reflexivity|].
  apply (send_request_malformed_response
           (Sample.world_of (fun _ => NetBadJson)) (Sample.client 3)
           Sample.body true Sample.start); [simpl; lia | reflexivity].
Defined.

(** X3 on a refusal with status 1: it is returned, not raised. *)
Lemma send_request_returns_first_response_witness :
  0 <= max_retries (Sample.client 3)
  /\ net opened_once 2 = NetJson (Some (JObject (Sample.response 1)))
  /\ statusCode (Sample.response 1) <> Some (-10003)
  /\ exists w',
      send_request opened_once (Sample.client 3) Sample.body false
                   (mkWorld [Sample.body; Sample.body] 0 0 [] [] None)
      = (Ok (Some (JObject (Sample.response 1))), w')
      /\ w_posts w' = Sample.body :: [Sample.body; Sample.body]
      /\ w_clock w' = 0 + Z.of_N (latency opened_once 2).
Proof.
  split; [simpl; lia|]. split; [reflexivity|]. split; [discriminate|].
  apply (send_request_returns_first_response
           opened_once (Sample.client 3) Sample.body false
           (mkWorld [Sample.body; Sample.body] 0 0 [] [] None)
           (Sample.response 1)); [simpl; lia | reflexivity | discriminate].
Defined.

(** X5 at [max_retries = -1] against a client that would answer. *)
Lemma send_request_without_attempts_witness :
  max_retries (Sample.client (-1)) < 0
  /\ send_request Sample.flaky (Sample.client (-1)) Sample.body false
                  Sample.start
     = (Ok None,
        snd (log DEBUG "发送请求：action={action}, requestId={request_id}"
                 [LStr (str (get Sample.body "action" (PStr "unknown")));
                  LStr (str (get Sample.body "requestId" (PStr "unknown")))]
                 Sample.start)).
Proof.
  split; [simpl; lia|].
  apply (send_request_without_attempts
           Sample.flaky (Sample.client (-1)) Sample.body false Sample.start).
  simpl; lia.
Defined.

(** X6 on the flaky client: one connection error, one sleep, two POSTs. *)
Lemma send_request_recovers_witness :
  0 <= retry_delay (Sample.client 3)
  /\ Z.of_nat 1 <= max_retries (Sample.client 3)
  /\ (forall k, (k < 1)%nat ->
                transient (net Sample.flaky (length (w_posts Sample.start) + k))
                = true)
  /\ exists w',
      send_request Sample.flaky (Sample.client 3) Sample.body false
                   Sample.start
      = (Ok (Some (JObject (mkResponse (Some 0) None (Some []) None None None None))), w')
      /\ w_posts w' = replicate 2 Sample.body ++ w_posts Sample.start
      /\ w_clock w'
         = w_clock Sample.start + Z.of_nat 1 * retry_delay (Sample.client 3)
           + total_latency Sample.flaky (length (w_posts Sample.start)) 2.
Proof.
  assert (Hfirst : forall k, (k < 1)%nat ->
                     transient (net Sample.flaky
                                    (length (w_posts Sample.start) + k))
                     = true).
  { intros k Hk. assert (k = 0%nat) as -> by lia. reflexivity. }
  split; [simpl; lia|]. split; [simpl; lia|]. split; [exact Hfirst|].
  apply (send_request_recovers
           Sample.flaky (Sample.client 3) Sample.body false Sample.start
           (mkResponse (Some 0) None (Some []) None None None None) 1);
    [simpl; lia | simpl; lia | discriminate | exact Hfirst | reflexivity].
Defined.

(** X8 on an open session whose browser shows one tab: index 0 is that
    tab, index 1 is out of range. *)
Lemma get_tab_bounds_witness :
  _closed open_sample = false
  /\ _browser open_sample = Some (mkChromium (Some 9222))
  /\ tabs Sample.down (length (w_driver Sample.start)) = inr [0%nat]
  /\ (exists tab, [0%nat] !! Z.to_nat 0 = Some tab
                  /\ fst (get_tab Sample.down open_sample 0 Sample.start)
                     = Ok tab)
  /\ fst (get_tab Sample.down open_sample 1 Sample.start)
     = Raise (IndexError 1).
Proof.
  split; [reflexivity|]. split; [reflexivity|]. split; [reflexivity|].
  split.
  - apply (get_tab_bounds Sample.down open_sample (mkChromium (Some 9222)) 0
             [0%nat] Sample.start);
      [reflexivity | reflexivity | lia | reflexivity | simpl; lia].
  - apply (get_tab_bounds Sample.down open_sample (mkChromium (Some 9222)) 1
             [0%nat] Sample.start);
      [reflexivity | reflexivity | lia | reflexivity | simpl; lia].
Defined.

(** X11 after a call served from the cache. *)
Lemma get_store_list_then_cached_witness :
  get_store_list Sample.down (Sample.manager 3) true
                 (cached [Sample.store "oauth-a" "A"])
  = (Ok [Sample.store "oauth-a" "A"],
     snd (get_store_list Sample.down (Sample.manager 3) true
                         (cached [Sample.store "oauth-a" "A"])))
  /\ exists w'',
      get_store_list Sample.down (Sample.manager 3) true
        (snd (get_store_list Sample.down (Sample.manager 3) true
                             (cached [Sample.store "oauth-a" "A"])))
      = (Ok [Sample.store "oauth-a" "A"], w'')
      /\ w_posts w''
         = w_posts (snd (get_store_list Sample.down (Sample.manager 3) true
                                        (cached [Sample.store "oauth-a" "A"])))
      /\ w_uuids w''
         = w_uuids (snd (get_store_list Sample.down (Sample.manager 3) true
                                        (cached [Sample.store "oauth-a" "A"])))
      /\ w_cache w'' = Some [Sample.store "oauth-a" "A"].
Proof.
  split; [reflexivity|].
  apply (get_store_list_then_cached Sample.down (Sample.manager 3) true
           (cached [Sample.store "oauth-a" "A"])
           [Sample.store "oauth-a" "A"]).
  reflexivity.
Defined.

(** X12 without the cache on the flaky client. *)
Lemma get_store_list_asks_witness :
  0 <= max_retries (http_client (Sample.manager 3))
  /\ (false = false \/ w_cache Sample.start = None)
  /\ exists k,
      (1 <= k <= Z.to_nat (max_retries (http_client (Sample.manager 3))) + 1)%nat
      /\ w_posts (snd (get_store_list Sample.flaky (Sample.manager 3) false
                                      Sample.start))
         = replicate k
             (update {[ "action" := PStr "getBrowserList";
                        "requestId"
                        := PStr (uuid4 Sample.flaky (w_uuids Sample.start)) ]}
                     (user_info (Sample.manager 3)))
           ++ w_posts Sample.start
      /\ w_uuids (snd (get_store_list Sample.flaky (Sample.manager 3) false
                                      Sample.start))
         = S (w_uuids Sample.start).
Proof.
  split; [simpl; lia|]. split; [left; reflexivity|].
  apply (get_store_list_asks Sample.flaky (Sample.manager 3) false
           Sample.start); [simpl; lia | left; reflexivity].
Defined.


(** X20 with no worker at all. *)
Lemma open_stores_by_names_no_workers_witness :
  0 <= 0
  /\ exists w',
      open_stores_by_names two_named_b (Sample.manager 3) ["A"; "B"] 0 false ∅
                           Sample.start
      = (Raise ValueError, w')
      /\ w_posts w' = w_posts Sample.start
      /\ w_uuids w' = w_uuids Sample.start
      /\ w_driver w' = w_driver Sample.start
      /\ w_cache w' = w_cache Sample.start.
Proof.
  split; [lia|].
  apply (open_stores_by_names_no_workers two_named_b (Sample.manager 3)
           ["A"; "B"] 0 false ∅ Sample.start).
  lia.
Defined.

(** X21 when the response names neither an IP-check page nor a launcher
    page. *)
Lemma open_store_succeeds_witness :
  0 <= max_retries (http_client (Sample.manager 3))
  /\ net always_started (length (w_posts Sample.start)) = NetJson (Some (JObject started))
  /\ statusCode started = Some 0
  /\ chromium always_started (length (w_driver Sample.start)) = None
  /\ truthy (launcherPage started) = false
  /\ exists store_name w',
      open_store always_started (Sample.manager 3) "oauth-a" ∅ Sample.start
      = (Ok (mkSession (debuggingPort started)
                       (default "oauth-a" (resp_browserOauth started))
                       store_name (ipDetectionPage started)
                       (launcherPage started)
                       (Some (fun sid =>
                                close_store always_started (Sample.manager 3) sid))
                       (Some (mkChromium (debuggingPort started))) false),
         w')
      /\ w_posts w'
         = [open_store_data always_started (Sample.manager 3) "oauth-a" ∅
                            (uuid4 always_started (w_uuids Sample.start))]
           ++ w_posts Sample.start.
Proof.
  split; [simpl; lia|]. do 4 (split; [reflexivity|]).
  apply (open_store_succeeds always_started (Sample.manager 3) "oauth-a" ∅
           Sample.start started);
    [simpl; lia | reflexivity | reflexivity | reflexivity | reflexivity].
Defined.

(** X22 with a deadline of four seconds against a service that answers
    null for ever: four passes are enough, and at most three of them send
    a request. *)
Lemma update_core_terminates_witness :
  4000 < 2000 * Z.of_nat 3
  /\ exists r w',
      update_core Sample.not_ready
                  (mkClient (Sample.client 0) Sample.credentials true)
                  4000 4 Sample.start
      = (r, w')
      /\ r <> Ok None
      /\ (w_uuids w' <= w_uuids Sample.start + 3)%nat.
Proof.
  split; [lia|].
  apply (update_core_terminates Sample.not_ready
           (mkClient (Sample.client 0) Sample.credentials true)
           4000 3 Sample.start).
  lia.
Defined.

(** X26 on a client fresh from [__init__]. *)
Lemma stopped_client_refuses_witness :
  (ZiniaoClient_init sample_config = ZiniaoClient_init sample_config
   \/ fst (stop Sample.down (ret true)
                (mkClient (Sample.client 0) Sample.credentials true)
                Sample.start)
      = Ok (ZiniaoClient_init sample_config))
  /\ client_close_store Sample.down (ZiniaoClient_init sample_config) "oauth-a"
                        Sample.start
     = (Raise ClientNotStartedError, Sample.start).
Proof.
  split; [left; reflexivity|].
  apply (stopped_client_refuses Sample.down (ret true)
           (mkClient (Sample.client 0) Sample.credentials true)
           sample_config Sample.start
           (ZiniaoClient_init sample_config) (or_introl eq_refl) Sample.start).
Defined.

(** X28 on the sample configuration. *)
Lemma validated_client_transport_witness :
  validate (fun _ => true) sample_config = None
  /\ exists r w' k,
      send_request Sample.down
                   (client_http_client (ZiniaoClient_init sample_config))
                   Sample.body false Sample.start
      = (r, w')
      /\ (1 <= k <= Z.to_nat (config_max_retries sample_config) + 1)%nat
      /\ w_posts w' = replicate k Sample.body ++ w_posts Sample.start
      /\ match r with
         | Ok _ => True
         | Raise e =>
             send_request_failure
               (client_http_client (ZiniaoClient_init sample_config)) e
         end.
Proof.
  split; [reflexivity|].
  apply (validated_client_transport Sample.down (fun _ => true) sample_config
           Sample.body false Sample.start).
  reflexivity.
Defined.

(** X30 on a cache that holds a listing. *)
Lemma clear_cache_invalidates_witness :
  0 <= max_retries (http_client (Sample.manager 3))
  /\ exists w1,
      clear_cache (Sample.manager 3) (cached [Sample.store "oauth-a" "A"])
      = (Ok tt, w1)
      /\ w_cache w1 = None
      /\ w_posts w1 = w_posts (cached [Sample.store "oauth-a" "A"])
      /\ w_uuids w1 = w_uuids (cached [Sample.store "oauth-a" "A"])
      /\ exists k,
          (1 <= k
           <= Z.to_nat (max_retries (http_client (Sample.manager 3))) + 1)%nat
          /\ w_posts (snd (get_store_list Sample.flaky (Sample.manager 3) true w1))
             = replicate k
                 (update {[ "action" := PStr "getBrowserList";
                            "requestId"
                            := PStr (uuid4 Sample.flaky
                                       (w_uuids (cached [Sample.store "oauth-a" "A"]))) ]}
                         (user_info (Sample.manager 3)))
               ++ w_posts (cached [Sample.store "oauth-a" "A"]).
Proof.
  split; [simpl; lia|].
  apply (clear_cache_invalidates Sample.flaky (Sample.manager 3)
           (cached [Sample.store "oauth-a" "A"])).
  simpl; lia.
Defined.

(** ** Bodies that are JSON but no object *)

(** A value that counts as false is returned by [send_request] as it is,
    and the caller fails on [result.get]; a value that counts as true has
    no [get] inside [send_request] already, which is retried like any
    other exception and ends as a CommunicationError. *)
Example non_object_bodies :
  let falsy := Sample.world_of (fun _ => NetJson (Some (JOther false))) in
  let truthy := Sample.world_of (fun _ => NetJson (Some (JOther true))) in
  fst (send_request falsy (Sample.client 3) Sample.body false Sample.start)
  = Ok (Some (JOther false))
  /\ fst (open_store falsy (Sample.manager 3) "oauth-a" ∅ Sample.start)
     = Raise AttributeError
  /\ fst (close_store falsy (Sample.manager 3) "oauth-a" Sample.start)
     = Raise AttributeError
  /\ fst (get_store_list falsy (Sample.manager 3) false Sample.start)
     = Raise AttributeError
  /\ fst (send_request truthy (Sample.client 1) Sample.body false Sample.start)
     = Raise (CommunicationError (CommunicationFailed 1 AttributeError))
  /\ length (w_posts (snd (send_request truthy (Sample.client 1) Sample.body
                                        false Sample.start))) = 2%nat.
Proof. vm_compute. repeat split; reflexivity. Qed.
